(** * TWT jetting grid firmware: upload state machine and pump safety gate

    A shallow embedding of [src_mcu/src/main.cpp] (the control loop with
    its command dispatcher, the callbacks of the finite state machine, the
    safety-pulse section) together with the declarations of
    [ProtocolManager.h].

    Integers of fixed width are [Z] with the wrap-around written out.  The
    two serial listeners are oracles: the list of answers they are going to
    give to the successive polls.  The millisecond clock is sampled once
    per pass of the control loop.  The protocol manager, the valve driver
    and the state-machine driver are collaborators whose code is not among
    the sources; they follow the specification, and what the specification
    leaves open is a parameter of the [Platform]. *)

From Stdlib Require Import ZArith List String Ascii Bool Lia DecimalString.
From Stdlib.Strings Require Import Byte.
From stdpp Require Import base list.
Import ListNotations.
Local Open Scope string_scope.
Local Open Scope Z_scope.

(** ** Fixed-width integers *)

Definition wrap (w z : Z) : Z := z mod 2 ^ w.
Definition u8 : Z -> Z := wrap 8.
Definition u16 : Z -> Z := wrap 16.
Definition u32 : Z -> Z := wrap 32.

Definition byte_val (b : byte) : Z := Z.of_N (Byte.to_N b).

(** ** main.cpp, buffers *)

Definition CMD_BUF_LEN : Z := 64.
Definition BIN_BUF_LEN : Z := 229.
Definition BUF_LEN : Z := 128.

(** [bin_buf[i]]; the buffer is a fixed array, indices stay below
    [BIN_BUF_LEN]. *)
Definition buf_at (buf : list byte) (i : nat) : Z :=
  byte_val (nth i buf x00).

(** ** ProtocolManager.h: points of the protocol coordinate system *)

Definition P_NULL_VAL : Z := -128.

Record P : Type := mk_P { x : Z; y : Z }.

(** [P(int8_t x_ = P_NULL_VAL, int8_t y_ = P_NULL_VAL)] *)
Definition P_default : P := mk_P P_NULL_VAL P_NULL_VAL.

Definition isNull (p : P) : bool :=
  (x p =? P_NULL_VAL) || (y p =? P_NULL_VAL).

(** [setNull] in the header, [set_null] in [main.cpp]. *)
Definition set_null (p : P) : P := mk_P P_NULL_VAL P_NULL_VAL.

Definition PackedLine : Type := list Z.

Record PackedTimeLine : Type := mk_PackedTimeLine {
  time : Z;
  packed : PackedLine
}.

(** ** The working line of the upload *)

(** Modelled from the spec: the [Line] that [main.cpp] fills through
    [line.duration] and [line.points[i]] (the header under the sources has
    an earlier [Line] without the duration).  The array has one slot per
    grid position and one for the end sentinel; every slot is
    default-constructed to the null point. *)

Record Line : Type := mk_Line {
  duration : Z;
  points : list P
}.

(** ** Collaborators that are not part of the sources *)

(** Modelled from the spec: the valve-actuation collaborator
    ([CentipedeManager.h]).  It keeps one bit mask per output port, commits
    the masks to the hardware on [send_masks] and exposes the last-committed
    state to the safety gate. *)
Record CentipedeManager : Type := mk_CentipedeManager {
  masks_ : list Z;
  committed_ : list Z
}.

(** The calls that the protocol manager has received, in order; a trace
    kept for the properties, not a member of the class. *)
Inductive Call : Type :=
| Call_clear
| Call_set_name (s : string)
| Call_add_line (l : Line)
| Call_prime_start
| Call_update.

(** Modelled from the spec: the program store and playback controller
    ([ProtocolManager.cpp]; the header under the sources declares
    [program_], the line count and the current position).  [program_] holds
    the lines appended so far, [pos_] is the playback position with [None]
    for unprimed, [last_activated_] the activation time stamp. *)
Record ProtocolManager : Type := mk_ProtocolManager {
  name_ : string;
  program_ : list PackedTimeLine;
  pos_ : option nat;
  last_activated_ : Z;
  calls_ : list Call
}.

(** The four states registered with the state machine in [main.cpp]. *)
Inductive State : Type :=
| state_off
| state_paused
| state_running
| state_uploading.

Definition State_eqb (a b : State) : bool :=
  match a, b with
  | state_off, state_off | state_paused, state_paused
  | state_running, state_running | state_uploading, state_uploading => true
  | _, _ => false
  end.

Definition getStateName (s : State) : string :=
  match s with
  | state_off => "Off"
  | state_paused => "Paused"
  | state_running => "Running"
  | state_uploading => "Uploading"
  end.

(** Modelled from the spec: the state-machine driver
    ([FiniteStateMachine.h]).  It holds the current state, the state
    requested by [transitionTo] and the time stamp of the last entry. *)
Record FiniteStateMachine : Type := mk_FiniteStateMachine {
  currentState : State;
  nextState : State;
  stateChangeTime : Z;
  needToTriggerEnter : bool
}.

(** FastLED's [EVERY_N_MILLIS]: a function-local static timer, constructed
    the first time control passes its declaration. *)
Record CEveryNMillis : Type := mk_CEveryNMillis {
  mPrevTrigger : Z;
  mPeriod : Z
}.

(** One poll of the binary listener [bsc]: nothing complete yet, a buffer
    overrun, or a complete frame, in which case the listener has left
    [bin_buf] as [buf] and reports [len] data bytes. *)
Inductive BscPoll : Type :=
| Bsc_idle
| Bsc_overrun
| Bsc_frame (buf : list byte) (len : Z).

(** Lines written to the serial port.  The replies that print sensor
    floats or that are printed inside the protocol manager are kept as
    events. *)
Inductive SerialOut : Type :=
| Println (s : string)
| Print_readings (position : Z)
| Print_program
| Print_buffer
| Print_full_program.

(** A fatal stop: [halt(code, msg)] of [main.cpp], a fatal fault raised
    inside a collaborator, or a loop that never ends. None returns. *)
Inductive Fault : Type :=
| Halt (code : Z) (msg : string)
| Halt_collaborator
| Hang.

(** Constants of [constants.h], tables of [translations.h] and the
    operations of collaborators whose code is not among the sources. *)
Class Platform : Type := mk_Platform {
  PROTOCOL_MAX_LINES : Z;
  MAX_POINTS_PER_LINE : nat;
  N_VALVES : Z;
  PCS_X_MIN : Z;
  PCS_Y_MIN : Z;
  PERIOD_SAFETY_PULSES : Z;
  valve2p : Z -> P;
  (** bit-packing of a null-terminated point list; [None] is the fatal
      out-of-range fault *)
  pack_line : list P -> option PackedLine;
  (** port masks that open the valves of a packed line *)
  line_masks : PackedLine -> list Z;
  parseIntInString : string -> Z -> Z;
  load_protocol_preset : Z -> ProtocolManager -> ProtocolManager;
  goto_prev_line :
    Z -> ProtocolManager -> CentipedeManager ->
    option (ProtocolManager * CentipedeManager);
  goto_next_line :
    Z -> ProtocolManager -> CentipedeManager ->
    option (ProtocolManager * CentipedeManager);
  goto_line :
    Z -> Z -> ProtocolManager -> CentipedeManager ->
    option (ProtocolManager * CentipedeManager)
}.

(** ** The state of the firmware

    The globals and function-local statics of [main.cpp] that the upload
    state machine and the safety gate touch, the level of the safety-pulse
    pin, what was printed, and the remaining answers of the two serial
    listeners ([sc] for ASCII commands, [bsc] for binary frames). *)

Record Firmware : Type := mk_Firmware {
  bin_buf : list byte;
  safety__allow_jetting_pump_to_run : bool;
  override_pump_safety : bool;
  alive_blinker_hue : Z;
  cp_mgr : CentipedeManager;
  protocol_mgr : ProtocolManager;
  loading_program : bool;
  loading_stage : Z;
  loading_successful : bool;
  promised_N_lines : Z;
  fsm : FiniteStateMachine;
  toggler : bool;
  every_cmd : option CEveryNMillis;
  every_pulse : option CEveryNMillis;
  pin_safety_pulse_out : bool;
  serial_out : list SerialOut;
  sc : list (option string);
  bsc : list BscPoll;
  halted : option Fault
}.

Definition set_bin_buf (v : list byte) (fw : Firmware) : Firmware :=
  mk_Firmware
    v
    (safety__allow_jetting_pump_to_run fw)
    (override_pump_safety fw)
    (alive_blinker_hue fw)
    (cp_mgr fw)
    (protocol_mgr fw)
    (loading_program fw)
    (loading_stage fw)
    (loading_successful fw)
    (promised_N_lines fw)
    (fsm fw)
    (toggler fw)
    (every_cmd fw)
    (every_pulse fw)
    (pin_safety_pulse_out fw)
    (serial_out fw)
    (sc fw)
    (bsc fw)
    (halted fw).

Definition set_safety__allow_jetting_pump_to_run (v : bool) (fw : Firmware) : Firmware :=
  mk_Firmware
    (bin_buf fw)
    v
    (override_pump_safety fw)
    (alive_blinker_hue fw)
    (cp_mgr fw)
    (protocol_mgr fw)
    (loading_program fw)
    (loading_stage fw)
    (loading_successful fw)
    (promised_N_lines fw)
    (fsm fw)
    (toggler fw)
    (every_cmd fw)
    (every_pulse fw)
    (pin_safety_pulse_out fw)
    (serial_out fw)
    (sc fw)
    (bsc fw)
    (halted fw).

Definition set_override_pump_safety (v : bool) (fw : Firmware) : Firmware :=
  mk_Firmware
    (bin_buf fw)
    (safety__allow_jetting_pump_to_run fw)
    v
    (alive_blinker_hue fw)
    (cp_mgr fw)
    (protocol_mgr fw)
    (loading_program fw)
    (loading_stage fw)
    (loading_successful fw)
    (promised_N_lines fw)
    (fsm fw)
    (toggler fw)
    (every_cmd fw)
    (every_pulse fw)
    (pin_safety_pulse_out fw)
    (serial_out fw)
    (sc fw)
    (bsc fw)
    (halted fw).

Definition set_alive_blinker_hue (v : Z) (fw : Firmware) : Firmware :=
  mk_Firmware
    (bin_buf fw)
    (safety__allow_jetting_pump_to_run fw)
    (override_pump_safety fw)
    v
    (cp_mgr fw)
    (protocol_mgr fw)
    (loading_program fw)
    (loading_stage fw)
    (loading_successful fw)
    (promised_N_lines fw)
    (fsm fw)
    (toggler fw)
    (every_cmd fw)
    (every_pulse fw)
    (pin_safety_pulse_out fw)
    (serial_out fw)
    (sc fw)
    (bsc fw)
    (halted fw).

Definition set_cp_mgr (v : CentipedeManager) (fw : Firmware) : Firmware :=
  mk_Firmware
    (bin_buf fw)
    (safety__allow_jetting_pump_to_run fw)
    (override_pump_safety fw)
    (alive_blinker_hue fw)
    v
    (protocol_mgr fw)
    (loading_program fw)
    (loading_stage fw)
    (loading_successful fw)
    (promised_N_lines fw)
    (fsm fw)
    (toggler fw)
    (every_cmd fw)
    (every_pulse fw)
    (pin_safety_pulse_out fw)
    (serial_out fw)
    (sc fw)
    (bsc fw)
    (halted fw).

Definition set_protocol_mgr (v : ProtocolManager) (fw : Firmware) : Firmware :=
  mk_Firmware
    (bin_buf fw)
    (safety__allow_jetting_pump_to_run fw)
    (override_pump_safety fw)
    (alive_blinker_hue fw)
    (cp_mgr fw)
    v
    (loading_program fw)
    (loading_stage fw)
    (loading_successful fw)
    (promised_N_lines fw)
    (fsm fw)
    (toggler fw)
    (every_cmd fw)
    (every_pulse fw)
    (pin_safety_pulse_out fw)
    (serial_out fw)
    (sc fw)
    (bsc fw)
    (halted fw).

Definition set_loading_program (v : bool) (fw : Firmware) : Firmware :=
  mk_Firmware
    (bin_buf fw)
    (safety__allow_jetting_pump_to_run fw)
    (override_pump_safety fw)
    (alive_blinker_hue fw)
    (cp_mgr fw)
    (protocol_mgr fw)
    v
    (loading_stage fw)
    (loading_successful fw)
    (promised_N_lines fw)
    (fsm fw)
    (toggler fw)
    (every_cmd fw)
    (every_pulse fw)
    (pin_safety_pulse_out fw)
    (serial_out fw)
    (sc fw)
    (bsc fw)
    (halted fw).

Definition set_loading_stage (v : Z) (fw : Firmware) : Firmware :=
  mk_Firmware
    (bin_buf fw)
    (safety__allow_jetting_pump_to_run fw)
    (override_pump_safety fw)
    (alive_blinker_hue fw)
    (cp_mgr fw)
    (protocol_mgr fw)
    (loading_program fw)
    v
    (loading_successful fw)
    (promised_N_lines fw)
    (fsm fw)
    (toggler fw)
    (every_cmd fw)
    (every_pulse fw)
    (pin_safety_pulse_out fw)
    (serial_out fw)
    (sc fw)
    (bsc fw)
    (halted fw).

Definition set_loading_successful (v : bool) (fw : Firmware) : Firmware :=
  mk_Firmware
    (bin_buf fw)
    (safety__allow_jetting_pump_to_run fw)
    (override_pump_safety fw)
    (alive_blinker_hue fw)
    (cp_mgr fw)
    (protocol_mgr fw)
    (loading_program fw)
    (loading_stage fw)
    v
    (promised_N_lines fw)
    (fsm fw)
    (toggler fw)
    (every_cmd fw)
    (every_pulse fw)
    (pin_safety_pulse_out fw)
    (serial_out fw)
    (sc fw)
    (bsc fw)
    (halted fw).

Definition set_promised_N_lines (v : Z) (fw : Firmware) : Firmware :=
  mk_Firmware
    (bin_buf fw)
    (safety__allow_jetting_pump_to_run fw)
    (override_pump_safety fw)
    (alive_blinker_hue fw)
    (cp_mgr fw)
    (protocol_mgr fw)
    (loading_program fw)
    (loading_stage fw)
    (loading_successful fw)
    v
    (fsm fw)
    (toggler fw)
    (every_cmd fw)
    (every_pulse fw)
    (pin_safety_pulse_out fw)
    (serial_out fw)
    (sc fw)
    (bsc fw)
    (halted fw).

Definition set_fsm (v : FiniteStateMachine) (fw : Firmware) : Firmware :=
  mk_Firmware
    (bin_buf fw)
    (safety__allow_jetting_pump_to_run fw)
    (override_pump_safety fw)
    (alive_blinker_hue fw)
    (cp_mgr fw)
    (protocol_mgr fw)
    (loading_program fw)
    (loading_stage fw)
    (loading_successful fw)
    (promised_N_lines fw)
    v
    (toggler fw)
    (every_cmd fw)
    (every_pulse fw)
    (pin_safety_pulse_out fw)
    (serial_out fw)
    (sc fw)
    (bsc fw)
    (halted fw).

Definition set_toggler (v : bool) (fw : Firmware) : Firmware :=
  mk_Firmware
    (bin_buf fw)
    (safety__allow_jetting_pump_to_run fw)
    (override_pump_safety fw)
    (alive_blinker_hue fw)
    (cp_mgr fw)
    (protocol_mgr fw)
    (loading_program fw)
    (loading_stage fw)
    (loading_successful fw)
    (promised_N_lines fw)
    (fsm fw)
    v
    (every_cmd fw)
    (every_pulse fw)
    (pin_safety_pulse_out fw)
    (serial_out fw)
    (sc fw)
    (bsc fw)
    (halted fw).

Definition set_every_cmd (v : option CEveryNMillis) (fw : Firmware) : Firmware :=
  mk_Firmware
    (bin_buf fw)
    (safety__allow_jetting_pump_to_run fw)
    (override_pump_safety fw)
    (alive_blinker_hue fw)
    (cp_mgr fw)
    (protocol_mgr fw)
    (loading_program fw)
    (loading_stage fw)
    (loading_successful fw)
    (promised_N_lines fw)
    (fsm fw)
    (toggler fw)
    v
    (every_pulse fw)
    (pin_safety_pulse_out fw)
    (serial_out fw)
    (sc fw)
    (bsc fw)
    (halted fw).

Definition set_every_pulse (v : option CEveryNMillis) (fw : Firmware) : Firmware :=
  mk_Firmware
    (bin_buf fw)
    (safety__allow_jetting_pump_to_run fw)
    (override_pump_safety fw)
    (alive_blinker_hue fw)
    (cp_mgr fw)
    (protocol_mgr fw)
    (loading_program fw)
    (loading_stage fw)
    (loading_successful fw)
    (promised_N_lines fw)
    (fsm fw)
    (toggler fw)
    (every_cmd fw)
    v
    (pin_safety_pulse_out fw)
    (serial_out fw)
    (sc fw)
    (bsc fw)
    (halted fw).

Definition set_pin_safety_pulse_out (v : bool) (fw : Firmware) : Firmware :=
  mk_Firmware
    (bin_buf fw)
    (safety__allow_jetting_pump_to_run fw)
    (override_pump_safety fw)
    (alive_blinker_hue fw)
    (cp_mgr fw)
    (protocol_mgr fw)
    (loading_program fw)
    (loading_stage fw)
    (loading_successful fw)
    (promised_N_lines fw)
    (fsm fw)
    (toggler fw)
    (every_cmd fw)
    (every_pulse fw)
    v
    (serial_out fw)
    (sc fw)
    (bsc fw)
    (halted fw).

Definition set_serial_out (v : list SerialOut) (fw : Firmware) : Firmware :=
  mk_Firmware
    (bin_buf fw)
    (safety__allow_jetting_pump_to_run fw)
    (override_pump_safety fw)
    (alive_blinker_hue fw)
    (cp_mgr fw)
    (protocol_mgr fw)
    (loading_program fw)
    (loading_stage fw)
    (loading_successful fw)
    (promised_N_lines fw)
    (fsm fw)
    (toggler fw)
    (every_cmd fw)
    (every_pulse fw)
    (pin_safety_pulse_out fw)
    v
    (sc fw)
    (bsc fw)
    (halted fw).

Definition set_sc (v : list (option string)) (fw : Firmware) : Firmware :=
  mk_Firmware
    (bin_buf fw)
    (safety__allow_jetting_pump_to_run fw)
    (override_pump_safety fw)
    (alive_blinker_hue fw)
    (cp_mgr fw)
    (protocol_mgr fw)
    (loading_program fw)
    (loading_stage fw)
    (loading_successful fw)
    (promised_N_lines fw)
    (fsm fw)
    (toggler fw)
    (every_cmd fw)
    (every_pulse fw)
    (pin_safety_pulse_out fw)
    (serial_out fw)
    v
    (bsc fw)
    (halted fw).

Definition set_bsc (v : list BscPoll) (fw : Firmware) : Firmware :=
  mk_Firmware
    (bin_buf fw)
    (safety__allow_jetting_pump_to_run fw)
    (override_pump_safety fw)
    (alive_blinker_hue fw)
    (cp_mgr fw)
    (protocol_mgr fw)
    (loading_program fw)
    (loading_stage fw)
    (loading_successful fw)
    (promised_N_lines fw)
    (fsm fw)
    (toggler fw)
    (every_cmd fw)
    (every_pulse fw)
    (pin_safety_pulse_out fw)
    (serial_out fw)
    (sc fw)
    v
    (halted fw).

Definition set_halted (v : option Fault) (fw : Firmware) : Firmware :=
  mk_Firmware
    (bin_buf fw)
    (safety__allow_jetting_pump_to_run fw)
    (override_pump_safety fw)
    (alive_blinker_hue fw)
    (cp_mgr fw)
    (protocol_mgr fw)
    (loading_program fw)
    (loading_stage fw)
    (loading_successful fw)
    (promised_N_lines fw)
    (fsm fw)
    (toggler fw)
    (every_cmd fw)
    (every_pulse fw)
    (pin_safety_pulse_out fw)
    (serial_out fw)
    (sc fw)
    (bsc fw)
    v.

Section Firmware_model.

Context `{platform : Platform}.

(** ** Points and lines *)

(** Modelled from the spec: [P::unpack_byte], the point decoder (bits 7-4
    are the biased x, bits 3-0 the biased y). *)
Definition unpack_byte (c : Z) (p : P) : P :=
  mk_P (Z.shiftr c 4 + PCS_X_MIN) (Z.land c 15 + PCS_Y_MIN).

(** [Line line;] every point slot starts as the null point, the duration
    is assigned before the line is used. *)
Definition Line_new : Line :=
  mk_Line 0 (replicate (S MAX_POINTS_PER_LINE) P_default).

(** The points of a line up to its end sentinel. *)
Fixpoint active_points (pts : list P) : list P :=
  match pts with
  | [] => []
  | p :: rest => if isNull p then [] else p :: active_points rest
  end.

(** ** Valve actuation *)

(** Modelled from the spec: [CentipedeManager::clear_masks], no valve is
    commanded any more. *)
Definition clear_masks (cp : CentipedeManager) : CentipedeManager :=
  mk_CentipedeManager (map (fun _ => 0) (masks_ cp)) (committed_ cp).

(** Modelled from the spec: the valve driver accepts the activation set of
    a line as its commanded masks. *)
Definition set_masks (m : list Z) (cp : CentipedeManager) : CentipedeManager :=
  mk_CentipedeManager m (committed_ cp).

(** Modelled from the spec: [CentipedeManager::send_masks] commits the
    commanded masks to the outputs. *)
Definition send_masks (cp : CentipedeManager) : CentipedeManager :=
  mk_CentipedeManager (masks_ cp) (masks_ cp).

(** Modelled from the spec: the aggregate actuation mask is the OR of all
    last-committed valve bits over all output ports. *)
Definition aggregate_actuation_mask (cp : CentipedeManager) : Z :=
  fold_right Z.lor 0 (committed_ cp).

(** Modelled from the spec: [CentipedeManager::all_masks_are_zero], true
    when no port has a valve bit in its last-committed mask. *)
Definition all_masks_are_zero (cp : CentipedeManager) : bool :=
  forallb (fun m => m =? 0) (committed_ cp).

(** ** Program store and playback controller *)

Definition logged (c : Call) (pm : ProtocolManager) : ProtocolManager :=
  mk_ProtocolManager (name_ pm) (program_ pm) (pos_ pm) (last_activated_ pm)
    (calls_ pm ++ [c]).

(** Modelled from the spec: [ProtocolManager::clear] resets the count to 0,
    the name to empty and the position to unprimed. *)
Definition clear (pm : ProtocolManager) : ProtocolManager :=
  logged Call_clear
    (mk_ProtocolManager "" [] None (last_activated_ pm) (calls_ pm)).

(** Modelled from the spec: [ProtocolManager::set_name]. *)
Definition set_name (s : string) (pm : ProtocolManager) : ProtocolManager :=
  logged (Call_set_name s)
    (mk_ProtocolManager s (program_ pm) (pos_ pm) (last_activated_ pm)
       (calls_ pm)).

(** Modelled from the spec: [ProtocolManager::get_name]. *)
Definition get_name (pm : ProtocolManager) : string := name_ pm.

(** Modelled from the spec: [ProtocolManager::get_N_lines], the line
    count. *)
Definition get_N_lines (pm : ProtocolManager) : Z :=
  Z.of_nat (length (program_ pm)).

(** Modelled from the spec: [ProtocolManager::add_line] packs and appends;
    it refuses the line when the count already equals the capacity (the
    callers in [main.cpp] ignore the result), and an out-of-range
    coordinate is a fatal fault ([None]). *)
Definition add_line (line : Line) (pm : ProtocolManager)
  : option ProtocolManager :=
  let pm := logged (Call_add_line line) pm in
  if get_N_lines pm =? PROTOCOL_MAX_LINES then Some pm
  else
    match pack_line (points line) with
    | None => None
    | Some pl =>
        Some (mk_ProtocolManager (name_ pm)
                (program_ pm ++ [mk_PackedTimeLine (duration line) pl])
                (pos_ pm) (last_activated_ pm) (calls_ pm))
    end.

(** Modelled from the spec: [ProtocolManager::prime_start], after which the
    next [update] activates line 0 whatever the clock says. *)
Definition prime_start (pm : ProtocolManager) : ProtocolManager :=
  logged Call_prime_start
    (mk_ProtocolManager (name_ pm) (program_ pm) None (last_activated_ pm)
       (calls_ pm)).

(** Modelled from the spec: [ProtocolManager::get_position], zero-based;
    an unprimed controller reports the line the next update activates. *)
Definition get_position (pm : ProtocolManager) : Z :=
  match pos_ pm with
  | Some i => Z.of_nat i
  | None => 0
  end.

(** Modelled from the spec: activation of line [i]: bounds-checked access
    to the line (out of range is a fatal fault), its valves are commanded
    and committed, the activation time is recorded. *)
Definition activate (i : nat) (now : Z) (pm : ProtocolManager)
    (cp : CentipedeManager) : option (ProtocolManager * CentipedeManager) :=
  match program_ pm !! i with
  | None => None
  | Some tl =>
      Some (mk_ProtocolManager (name_ pm) (program_ pm) (Some i) now
              (calls_ pm),
            send_masks (set_masks (line_masks (packed tl)) cp))
  end.

(** Modelled from the spec: [ProtocolManager::update].  Unprimed: activate
    line 0.  Otherwise advance, wrapping after the last line, once the
    current line has been active for its duration. *)
Definition update (now : Z) (pm : ProtocolManager) (cp : CentipedeManager)
  : option (ProtocolManager * CentipedeManager) :=
  let pm := logged Call_update pm in
  match pos_ pm with
  | None => activate 0 now pm cp
  | Some i =>
      match program_ pm !! i with
      | None => None
      | Some tl =>
          if time tl <=? u32 (now - last_activated_ pm)
          then activate (if (S i <? length (program_ pm))%nat then S i else 0%nat)
                 now pm cp
          else Some (pm, cp)
      end
  end.

(** ** Serial port, formatting, fatal stop *)

Definition println (s : string) (fw : Firmware) : Firmware :=
  set_serial_out (serial_out fw ++ [Println s]) fw.

Definition emit (o : SerialOut) (fw : Firmware) : Firmware :=
  set_serial_out (serial_out fw ++ [o]) fw.

(** ["%d"] *)
Definition dec (z : Z) : string := NilZero.string_of_int (Z.to_int z).

(** [snprintf(buf, BUF_LEN, ...)] keeps at most [BUF_LEN - 1] characters. *)
Definition snprintf_buf (s : string) : string :=
  substring 0 (Z.to_nat (BUF_LEN - 1)) s.

Definition is_digit (c : ascii) : bool :=
  let n := nat_of_ascii c in ((48 <=? n) && (n <=? 57))%nat.

Definition is_space (c : ascii) : bool :=
  let n := nat_of_ascii c in ((n =? 32) || ((9 <=? n) && (n <=? 13)))%nat.

Fixpoint atoi_digits (s : string) (acc : Z) : Z :=
  match s with
  | String c rest =>
      if is_digit c
      then atoi_digits rest (10 * acc + (Z.of_nat (nat_of_ascii c) - 48))
      else acc
  | EmptyString => acc
  end.

Fixpoint skip_spaces (s : string) : string :=
  match s with
  | String c rest => if is_space c then skip_spaces rest else s
  | EmptyString => s
  end.

(** [atoi] of the C library: white space, an optional sign, the digits.
    The result is the value of the numeral, which is what the library
    returns for a numeral that fits an [int] (32 bits on the board).  For
    a numeral beyond that range the C standard leaves the result
    undefined; no property below relies on such a token, and those about
    tokens outside the range of the 16-bit count bound the token to the
    [int] range. *)
Definition atoi (s : string) : Z :=
  match skip_spaces s with
  | String "-" rest => - atoi_digits rest 0
  | String "+" rest => atoi_digits rest 0
  | s' => atoi_digits s' 0
  end.

(** [sc.available()] followed, when it is true, by [sc.getCommand()]. *)
Definition sc_available (fw : Firmware) : option string * Firmware :=
  match sc fw with
  | [] => (None, fw)
  | a :: rest => (a, set_sc rest fw)
  end.

(** [bsc.available()]; a complete frame is left in [bin_buf]. *)
Definition bsc_available (fw : Firmware) : BscPoll * Firmware :=
  match bsc fw with
  | [] => (Bsc_idle, fw)
  | Bsc_frame buf len :: rest =>
      (Bsc_frame buf len, set_bin_buf buf (set_bsc rest fw))
  | a :: rest => (a, set_bsc rest fw)
  end.

Definition halt (code : Z) (msg : string) (fw : Firmware) : Firmware :=
  set_halted (Some (Halt code msg)) fw.

Definition fault (fw : Firmware) : Firmware :=
  set_halted (Some Halt_collaborator) fw.

Definition is_halted (fw : Firmware) : bool :=
  match halted fw with Some _ => true | None => false end.

(** ** State-machine driver *)

(** Modelled from the spec: [fsm.transitionTo] requests a state; the driver
    performs the change on its next update. *)
Definition transitionTo (s : State) (fw : Firmware) : Firmware :=
  let f := fsm fw in
  set_fsm (mk_FiniteStateMachine (currentState f) s (stateChangeTime f)
             (needToTriggerEnter f)) fw.

(** Modelled from the spec: [fsm.timeInCurrentState], the time since the
    current state was entered, in 32-bit millisecond arithmetic. *)
Definition timeInCurrentState (now : Z) (fw : Firmware) : Z :=
  u32 (now - stateChangeTime (fsm fw)).

(** Control flow of a callback body: fall through to the next statement,
    or [return]. *)
Inductive Flow : Type :=
| Next (fw : Firmware)
| Return (fw : Firmware).

Definition and_then (f : Flow) (k : Firmware -> Flow) : Flow :=
  match f with
  | Next fw => k fw
  | Return fw => Return fw
  end.

Definition finish (f : Flow) : Firmware :=
  match f with
  | Next fw => fw
  | Return fw => fw
  end.

(** Run [k] unless the firmware has stopped. *)
Definition unless_halted (fw : Firmware) (k : Firmware -> Firmware)
  : Firmware :=
  if is_halted fw then fw else k fw.

(** ** FSM: Off, Paused, Running *)

Definition HUE_YELLOW : Z := 64.
Definition HUE_GREEN : Z := 96.
Definition HUE_BLUE : Z := 160.

(** [NO_PERIPHERALS] is [false]; the LED matrix is not modelled. *)
Definition FSM_fun_off__ent (fw : Firmware) : Firmware :=
  let fw := set_alive_blinker_hue HUE_YELLOW fw in
  let fw := set_cp_mgr (clear_masks (cp_mgr fw)) fw in
  set_cp_mgr (send_masks (cp_mgr fw)) fw.

Definition FSM_fun_off__upd (fw : Firmware) : Firmware := fw.

Definition FSM_fun_paused__ent (fw : Firmware) : Firmware :=
  set_alive_blinker_hue HUE_YELLOW fw.

Definition FSM_fun_paused__upd (fw : Firmware) : Firmware := fw.

Definition FSM_fun_running__ent (fw : Firmware) : Firmware :=
  set_alive_blinker_hue HUE_GREEN fw.

Definition FSM_fun_running__upd (now : Z) (fw : Firmware) : Firmware :=
  match update now (protocol_mgr fw) (cp_mgr fw) with
  | None => fault fw
  | Some (pm, cp) => set_cp_mgr cp (set_protocol_mgr pm fw)
  end.

(** ** FSM: Uploading *)

Definition FSM_fun_uploading__ent (fw : Firmware) : Firmware :=
  let fw := set_alive_blinker_hue HUE_BLUE fw in
  let fw := set_loading_program true fw in
  let fw := set_loading_stage 0 fw in
  let fw := set_loading_successful false fw in
  set_protocol_mgr (clear (protocol_mgr fw)) fw.

Definition msg_exceeds (promised : Z) : string :=
  snprintf_buf
    ("ERROR: Protocol program exceeds maximum number of lines. "
     ++ "Requested were " ++ dec promised
     ++ " lines, but the maximum is " ++ dec PROTOCOL_MAX_LINES ++ ".").

Definition msg_incorrect (promised received : Z) : string :=
  snprintf_buf
    ("ERROR: Protocol program received incorrect number of "
     ++ "lines. Promised were " ++ dec promised
     ++ " lines, but " ++ dec received ++ " were received.").

Definition msg_timeout : string :=
  "ERROR: Loading in protocol program timed out.".

Definition msg_success : string := "Success!".

Definition LOADING_TIMEOUT : Z := 4000.

(** Stage 0: the name of the protocol program, in ASCII. *)
Definition upd_stage_0 (fw : Firmware) : Flow :=
  if loading_stage fw =? 0 then
    match sc_available fw with
    | (Some cmd, fw) =>
        let fw := set_protocol_mgr (set_name cmd (protocol_mgr fw)) fw in
        let fw := println (get_name (protocol_mgr fw)) fw in
        Next (set_loading_stage (u8 (loading_stage fw + 1)) fw)
    | (None, fw) => Next fw
    end
  else Next fw.

(** Stage 1: the number of lines that follow, in ASCII. *)
Definition upd_stage_1 (fw : Firmware) : Flow :=
  if loading_stage fw =? 1 then
    match sc_available fw with
    | (Some cmd, fw) =>
        let fw := set_promised_N_lines (u16 (atoi cmd)) fw in
        if promised_N_lines fw >? PROTOCOL_MAX_LINES then
          let fw := println (msg_exceeds (promised_N_lines fw)) fw in
          let fw := set_loading_program false fw in
          Return (transitionTo state_off fw)
        else
          let fw := println (dec (promised_N_lines fw)) fw in
          Next (set_loading_stage (u8 (loading_stage fw + 1)) fw)
    | (None, fw) => Next fw
    end
  else Next fw.

(** [for (idx = 2; idx < data_len; ++idx)]: one point per byte. *)
Fixpoint unpack_points (n : nat) (buf : list byte) (idx idx_P : nat)
    (pts : list P) : nat * list P :=
  match n with
  | O => (idx_P, pts)
  | S n' =>
      unpack_points n' buf (S idx) (S idx_P)
        (alter (unpack_byte (buf_at buf idx)) idx_P pts)
  end.

(** The line parsed from a non-empty frame: two bytes of duration, then
    the points, then the end sentinel. *)
Definition parse_line (buf : list byte) (data_len : Z) : Line :=
  let d := u16 (Z.lor (Z.shiftl (buf_at buf 0) 8) (buf_at buf 1)) in
  let '(idx_P, pts) :=
    unpack_points (Z.to_nat (data_len - 2)) buf 2 0 (points Line_new) in
  mk_Line d (alter set_null idx_P pts).

(** Stage 2: the program, one binary frame per line, up to the
    end-of-program sentinel. *)
Definition upd_stage_2 (fw : Firmware) : Flow :=
  if loading_stage fw =? 2 then
    match bsc_available fw with
    | (Bsc_overrun, fw) =>
        Return (halt 8 "Stream command buffer overrun in `load_program()`" fw)
    | (Bsc_idle, fw) => Next fw
    | (Bsc_frame _ data_len, fw) =>
        if data_len =? 0 then
          if negb (get_N_lines (protocol_mgr fw) =? promised_N_lines fw) then
            let fw :=
              println (msg_incorrect (promised_N_lines fw)
                         (get_N_lines (protocol_mgr fw))) fw in
            let fw := set_loading_program false fw in
            Return (transitionTo state_off fw)
          else
            let fw := println msg_success fw in
            let fw := set_loading_successful true fw in
            let fw := set_loading_program false fw in
            Return (transitionTo state_off fw)
        else
          match add_line (parse_line (bin_buf fw) data_len)
                  (protocol_mgr fw) with
          | None => Return (fault fw)
          | Some pm => Next (set_protocol_mgr pm fw)
          end
    end
  else Next fw.

(** Time-out check. *)
Definition upd_timeout (now : Z) (fw : Firmware) : Flow :=
  if timeInCurrentState now fw >? LOADING_TIMEOUT then
    let fw := println msg_timeout fw in
    let fw := set_loading_program false fw in
    Next (transitionTo state_off fw)
  else Next fw.

Definition FSM_fun_uploading__upd (now : Z) (fw : Firmware) : Firmware :=
  finish
    (and_then
       (and_then (and_then (upd_stage_0 fw) upd_stage_1) upd_stage_2)
       (upd_timeout now)).

(** [for (idx_valve = 1; idx_valve <= N_VALVES; ++idx_valve)] with the
    8-bit counter [idx_valve]; [None] when the fuel runs out. *)
Fixpoint fill_valves (fuel : nat) (idx_valve : Z) (pts : list P)
  : option (list P) :=
  match fuel with
  | O => None
  | S fuel' =>
      if idx_valve <=? N_VALVES
      then fill_valves fuel' (u8 (idx_valve + 1))
             (<[Z.to_nat (idx_valve - 1) := valve2p idx_valve]> pts)
      else Some pts
  end.

(** The fail-safe line built by the exit function: every valve, then the
    end sentinel, for one second. *)
Definition all_valves_open_line : option Line :=
  match fill_valves 256 1 (points Line_new) with
  | None => None
  | Some pts => Some (mk_Line 1000 (alter set_null (Z.to_nat N_VALVES) pts))
  end.

Definition FSM_fun_uploading__ext (fw : Firmware) : Firmware :=
  let fw :=
    if negb (loading_successful fw) then
      let fw := set_protocol_mgr (clear (protocol_mgr fw)) fw in
      let fw :=
        set_protocol_mgr (set_name "All valves open" (protocol_mgr fw)) fw in
      match all_valves_open_line with
      | None => set_halted (Some Hang) fw
      | Some line =>
          match add_line line (protocol_mgr fw) with
          | None => fault fw
          | Some pm => set_protocol_mgr pm fw
          end
      end
    else fw in
  unless_halted fw
    (fun fw => set_protocol_mgr (prime_start (protocol_mgr fw)) fw).

(** ** Driving the state machine *)

Definition enter (s : State) (fw : Firmware) : Firmware :=
  match s with
  | state_off => FSM_fun_off__ent fw
  | state_paused => FSM_fun_paused__ent fw
  | state_running => FSM_fun_running__ent fw
  | state_uploading => FSM_fun_uploading__ent fw
  end.

Definition update_state (s : State) (now : Z) (fw : Firmware) : Firmware :=
  match s with
  | state_off => FSM_fun_off__upd fw
  | state_paused => FSM_fun_paused__upd fw
  | state_running => FSM_fun_running__upd now fw
  | state_uploading => FSM_fun_uploading__upd now fw
  end.

(** Only the upload state registers an exit function. *)
Definition exit_state (s : State) (fw : Firmware) : Firmware :=
  match s with
  | state_uploading => FSM_fun_uploading__ext fw
  | _ => fw
  end.

(** Modelled from the spec: the change of state runs the exit action of the
    state that is left, then the entry action of the new state, and starts
    the time in the new state. *)
Definition immediateTransitionTo (s : State) (now : Z) (fw : Firmware)
  : Firmware :=
  let fw := exit_state (currentState (fsm fw)) fw in
  unless_halted fw (fun fw =>
    let fw :=
      set_fsm (mk_FiniteStateMachine s s (stateChangeTime (fsm fw))
                 (needToTriggerEnter (fsm fw))) fw in
    let fw := enter s fw in
    set_fsm (mk_FiniteStateMachine s s now (needToTriggerEnter (fsm fw)))
      fw).

(** Modelled from the spec: [fsm.update].  The very first call enters the
    initial state; later calls perform a requested change of state and then
    run the update action of the current state. *)
Definition fsm_update (now : Z) (fw : Firmware) : Firmware :=
  let f := fsm fw in
  if needToTriggerEnter f then
    let fw := enter (currentState f) fw in
    set_fsm (mk_FiniteStateMachine (currentState (fsm fw))
               (nextState (fsm fw)) (stateChangeTime (fsm fw)) false) fw
  else
    let fw :=
      if State_eqb (currentState f) (nextState f) then fw
      else immediateTransitionTo (nextState f) now fw in
    unless_halted fw (fun fw => update_state (currentState (fsm fw)) now fw).

(** ** The control loop *)

(** [EVERY_N_MILLIS(N)]: true once per period, measured on the 32-bit
    millisecond clock. *)
Definition every_n_millis (N now : Z) (t : option CEveryNMillis)
  : bool * option CEveryNMillis :=
  let t0 :=
    match t with
    | Some t0 => t0
    | None => mk_CEveryNMillis (u32 now) (u32 N)
    end in
  if mPeriod t0 <=? u32 (now - mPrevTrigger t0)
  then (true, Some (mk_CEveryNMillis (u32 now) (mPeriod t0)))
  else (false, Some t0).

Definition get_protocol_position (fw : Firmware) : Z :=
  u16 (get_position (protocol_mgr fw) + 1).

Definition starts_with (pre s : string) : bool :=
  String.eqb (substring 0 (String.length pre) s) pre.

Definition seek
    (r : option (ProtocolManager * CentipedeManager)) (fw : Firmware)
  : Firmware :=
  match r with
  | None => fault fw
  | Some (pm, cp) =>
      let fw := set_cp_mgr cp (set_protocol_mgr pm fw) in
      println (dec (get_protocol_position fw)) fw
  end.

(** The chain of [strcmp]/[strncmp] tests on the received command. *)
Definition dispatch (now : Z) (str_cmd : string) (fw : Firmware) : Firmware :=
  if String.eqb str_cmd "id?" then println "Arduino, Jetting Grid" fw
  else if String.eqb str_cmd "pos?" then
    println (dec (get_protocol_position fw)) fw
  else if String.eqb str_cmd "p?" then emit Print_program fw
  else if String.eqb str_cmd "?" then
    emit (Print_readings (get_protocol_position fw)) fw
  else if String.eqb str_cmd "upload" then transitionTo state_uploading fw
  else if String.eqb str_cmd "play" then transitionTo state_running fw
  else if String.eqb str_cmd "stop" then
    let fw := transitionTo state_off fw in
    println (dec (get_protocol_position fw)) fw
  else if String.eqb str_cmd "pause" then
    let fw := transitionTo state_paused fw in
    println (dec (get_protocol_position fw)) fw
  else if String.eqb str_cmd "," then
    seek (goto_prev_line now (protocol_mgr fw) (cp_mgr fw)) fw
  else if String.eqb str_cmd "." then
    seek (goto_next_line now (protocol_mgr fw) (cp_mgr fw)) fw
  else if starts_with "goto" str_cmd then
    let tmp_int := u16 (Z.max (parseIntInString str_cmd 4) 1) in
    seek (goto_line (tmp_int - 1) now (protocol_mgr fw) (cp_mgr fw)) fw
  else if starts_with "preset" str_cmd then
    let idx_preset := u16 (Z.max (parseIntInString str_cmd 6) 0) in
    set_protocol_mgr (load_protocol_preset idx_preset (protocol_mgr fw)) fw
  else if String.eqb str_cmd "b?" then emit Print_buffer fw
  else if String.eqb str_cmd "proto?" then emit Print_full_program fw
  else if String.eqb str_cmd "fsm?" then
    println (getStateName (currentState (fsm fw))) fw
  else if String.eqb str_cmd "halt" then halt 0 "Halted by user command." fw
  else if String.eqb str_cmd "override_safety" then
    set_override_pump_safety true fw
  else if String.eqb str_cmd "restore_safety" then
    set_override_pump_safety false fw
  else fw.

(** Process incoming serial commands: switched off while a protocol
    program is loading. *)
Definition process_commands (now : Z) (fw : Firmware) : Firmware :=
  if negb (loading_program fw) then
    let '(due, t) := every_n_millis 10 now (every_cmd fw) in
    let fw := set_every_cmd t fw in
    if due then
      match sc_available fw with
      | (Some str_cmd, fw) => dispatch now str_cmd fw
      | (None, fw) => fw
      end
    else fw
  else fw.

(** The final safety check: derive the pump-enable flag. *)
Definition safety_check (fw : Firmware) : Firmware :=
  if override_pump_safety fw then
    set_safety__allow_jetting_pump_to_run true fw
  else if all_masks_are_zero (cp_mgr fw) then
    set_safety__allow_jetting_pump_to_run false fw
  else set_safety__allow_jetting_pump_to_run true fw.

Definition digitalWrite_safety_pulse (level : bool) (fw : Firmware)
  : Firmware :=
  set_pin_safety_pulse_out level fw.

(** Safety pulses to the safety MCU, while the pump may run. *)
Definition safety_pulses (now : Z) (fw : Firmware) : Firmware :=
  if safety__allow_jetting_pump_to_run fw then
    let '(due, t) :=
      every_n_millis (Z.quot PERIOD_SAFETY_PULSES 2) now (every_pulse fw) in
    let fw := set_every_pulse t fw in
    if due then
      let fw := set_toggler (negb (toggler fw)) fw in
      digitalWrite_safety_pulse (toggler fw) fw
    else fw
  else fw.

(** One pass of [loop()] at clock reading [now].  The watchdog, the sensor
    polling and the LED matrix do not touch the state kept here. *)
Definition loop (now : Z) (fw : Firmware) : Firmware :=
  unless_halted fw (fun fw =>
  unless_halted (process_commands now fw) (fun fw =>
  unless_halted (fsm_update now fw) (fun fw =>
  safety_pulses now (safety_check fw)))).

(** The firmware after [setup()]: the pulse pin is driven low, the two
    Centipede boards (ports 0 to 7) are cleared, preset 0 is loaded. *)
Definition setup (sc0 : list (option string)) (bsc0 : list BscPoll)
  : Firmware :=
  mk_Firmware
    (replicate (Z.to_nat BIN_BUF_LEN) x00)
    false false HUE_GREEN
    (mk_CentipedeManager (replicate 8 0) (replicate 8 0))
    (load_protocol_preset 0 (mk_ProtocolManager "" [] None 0 []))
    false 0 false 0
    (mk_FiniteStateMachine state_off state_off 0 true)
    false None None false [] sc0 bsc0 None.

(** The firmware after the loop passes at the given clock readings. *)
Definition run (ticks : list Z) (fw : Firmware) : Firmware :=
  fold_left (fun fw now => loop now fw) ticks fw.

End Firmware_model.

(** ** A bench configuration

    The grid of the device: a 15 x 15 coordinate system centred on the
    origin, 112 valves, a store of 5000 lines.  The valve table and the
    seek operations are stand-ins. *)

Definition bench_valve2p (i : Z) : P :=
  mk_P ((i - 1) mod 15 - 7) ((i - 1) / 15 - 7).

Definition bench_in_range (p : P) : bool :=
  (-7 <=? x p) && (x p <=? 7) && (-7 <=? y p) && (y p <=? 7).

Fixpoint bench_pack (pts : list P) (acc : list Z) : option PackedLine :=
  match pts with
  | [] => Some acc
  | p :: rest =>
      if isNull p then Some acc
      else if bench_in_range p
      then bench_pack rest
             (alter (Z.lor (Z.shiftl 1 (x p + 7))) (Z.to_nat (y p + 7)) acc)
      else None
  end.

Definition bench_seek (now : Z) (pm : ProtocolManager)
    (cp : CentipedeManager) : option (ProtocolManager * CentipedeManager) :=
  Some (pm, cp).

Definition bench : Platform := {|
  PROTOCOL_MAX_LINES := 5000;
  MAX_POINTS_PER_LINE := 225;
  N_VALVES := 112;
  PCS_X_MIN := -7;
  PCS_Y_MIN := -7;
  PERIOD_SAFETY_PULSES := 10;
  valve2p := bench_valve2p;
  pack_line := fun pts => bench_pack pts (replicate 15 0);
  line_masks := fun pl => take 8 pl;
  parseIntInString :=
    fun s pos => atoi (substring (Z.to_nat pos) (String.length s) s);
  load_protocol_preset := fun _ pm => pm;
  goto_prev_line := bench_seek;
  goto_next_line := bench_seek;
  goto_line := fun _ => bench_seek
|}.

Local Close Scope string_scope.

(** * Vocabulary of the properties *)

Section Firmware_vocabulary.

Context `{platform : Platform}.

(** What the state machine and its callbacks never write. *)
Definition gate_view (fw : Firmware) :=
  (pin_safety_pulse_out fw, toggler fw, every_pulse fw, every_cmd fw,
   override_pump_safety fw, safety__allow_jetting_pump_to_run fw).

(** What the command dispatcher never writes. *)
Definition pulse_view (fw : Firmware) :=
  (pin_safety_pulse_out fw, toggler fw, every_pulse fw).

(** What the safety section never writes. *)
Definition upload_view (fw : Firmware) :=
  (bin_buf fw, override_pump_safety fw, alive_blinker_hue fw, cp_mgr fw,
   protocol_mgr fw, loading_program fw, loading_stage fw,
   loading_successful fw, promised_N_lines fw, fsm fw, every_cmd fw,
   serial_out fw, sc fw, bsc fw, halted fw).

(** The loading flag is set at the start of every tick of the run. *)
Fixpoint loading_throughout (ticks : list Z) (fw : Firmware) : Prop :=
  match ticks with
  | [] => True
  | now :: rest =>
      loading_program fw = true /\ loading_throughout rest (loop now fw)
  end.

(** An upload is in progress. *)
Definition uploading (fw : Firmware) : Prop :=
  currentState (fsm fw) = state_uploading /\
  nextState (fsm fw) = state_uploading /\
  needToTriggerEnter (fsm fw) = false /\
  loading_program fw = true /\
  loading_successful fw = false /\
  halted fw = None.

(** The firmware is in normal operation and the pass of the loop at time
    [now0] is going to take the command [upload] from the listener, whose
    later polls are [polls]. *)
Definition takes_upload_command (now0 : Z) (polls : list (option string))
    (fw : Firmware) : Prop :=
  halted fw = None /\
  loading_program fw = false /\
  needToTriggerEnter (fsm fw) = false /\
  currentState (fsm fw) <> state_uploading /\
  (every_n_millis 10 now0 (every_cmd fw)).1 = true /\
  sc fw = Some "upload"%string :: polls.

(** The upload has reached a terminal state: the loading flag is cleared
    and the change to the Off state is requested; [success] tells the exit
    function whether to keep the program or to install the fail-safe. *)
Definition upload_ended (success : bool) (fw : Firmware) : Prop :=
  currentState (fsm fw) = state_uploading /\
  nextState (fsm fw) = state_off /\
  needToTriggerEnter (fsm fw) = false /\
  loading_program fw = false /\
  loading_successful fw = success /\
  halted fw = None.

(** What tells whether, and how, an upload goes on. *)
Definition progress_view (fw : Firmware) :=
  (fsm fw, loading_program fw, loading_successful fw, halted fw).

(** The three receiving stages of one call of the update function, before
    the time-out check. *)
Definition upd_stages (fw : Firmware) : Flow :=
  and_then (and_then (upd_stage_0 fw) upd_stage_1) upd_stage_2.

Fixpoint count_prime_start (l : list Call) : nat :=
  match l with
  | [] => 0
  | Call_prime_start :: rest => S (count_prime_start rest)
  | _ :: rest => count_prime_start rest
  end.

(** The valve table yields a fail-safe line that the store can pack. *)
Definition fail_safe_ready : Prop :=
  exists line pl,
    all_valves_open_line = Some line /\ pack_line (points line) = Some pl.

End Firmware_vocabulary.

(** ** Upload sessions *)

Section Upload_session.

Context `{platform : Platform}.

(** The loop passes made while the loading flag is set. *)
Fixpoint run_upload (ticks : list Z) (fw : Firmware) : Firmware :=
  match ticks with
  | [] => fw
  | now :: rest =>
      if loading_program fw then run_upload rest (loop now fw) else fw
  end.

(** The commands and the frames that the listeners are going to deliver,
    without the polls that find nothing. *)
Definition cmds (polls : list (option string)) : list string :=
  omap id polls.

Fixpoint arriving (polls : list BscPoll) : list BscPoll :=
  match polls with
  | [] => []
  | Bsc_idle :: rest => arriving rest
  | p :: rest => p :: arriving rest
  end.

Definition frame_of (f : list byte * Z) : BscPoll := Bsc_frame f.1 f.2.

(** A frame that carries a line: it is not empty and its points pack (all
    coordinates are in range). *)
Definition valid_frame (f : list byte * Z) : Prop :=
  0 < f.2 /\ is_Some (pack_line (points (parse_line f.1 f.2))).

(** Polls left to the two listeners. *)
Definition polls_left (fw : Firmware) : nat :=
  (length (sc fw) + length (bsc fw))%nat.

Variables (t0 : Z) (name cnt : string) (total : Z).
Variables (eop : list byte) (more : list BscPoll).

(** An upload entered at time [t0] that is to receive the name, the count
    token [cnt], the frames [todo] and the end-of-program frame, [total]
    frames in all. *)
Inductive Receiving (todo : list (list byte * Z)) (fw : Firmware) : Prop :=
| Rcv_name rest :
    uploading fw ->
    stateChangeTime (fsm fw) = t0 ->
    loading_stage fw = 0 ->
    program_ (protocol_mgr fw) = [] ->
    Z.of_nat (length todo) = total ->
    cmds (sc fw) = name :: cnt :: rest ->
    arriving (bsc fw) = map frame_of todo ++ Bsc_frame eop 0 :: more ->
    Receiving todo fw
| Rcv_count rest :
    uploading fw ->
    stateChangeTime (fsm fw) = t0 ->
    loading_stage fw = 1 ->
    program_ (protocol_mgr fw) = [] ->
    Z.of_nat (length todo) = total ->
    name_ (protocol_mgr fw) = name ->
    cmds (sc fw) = cnt :: rest ->
    arriving (bsc fw) = map frame_of todo ++ Bsc_frame eop 0 :: more ->
    Receiving todo fw
| Rcv_lines :
    uploading fw ->
    stateChangeTime (fsm fw) = t0 ->
    loading_stage fw = 2 ->
    get_N_lines (protocol_mgr fw) + Z.of_nat (length todo) = total ->
    name_ (protocol_mgr fw) = name ->
    promised_N_lines fw = u16 (atoi cnt) ->
    arriving (bsc fw) = map frame_of todo ++ Bsc_frame eop 0 :: more ->
    Receiving todo fw.

(** The end of that upload on the end-of-program frame: success when the
    number of stored lines is the promised one, the count-mismatch error
    otherwise. *)
Definition Ended (fw : Firmware) : Prop :=
  upload_ended (total =? u16 (atoi cnt)) fw /\
  get_N_lines (protocol_mgr fw) = total /\
  name_ (protocol_mgr fw) = name /\
  last (serial_out fw)
  = Some (Println (if total =? u16 (atoi cnt) then msg_success
                   else msg_incorrect (u16 (atoi cnt)) total)).

End Upload_session.

(** ** States of the bench configuration *)

Definition bench_frame_1 : list byte := [x01; xf4; x77; xff; xff; xff].
Definition bench_frame_2 : list byte := [x01; x2c; x88; x99; xff; xff; xff].
Definition bench_frame_short : list byte := [x05; xff; xff; xff].
Definition bench_frame_eop : list byte := [xff; xff; xff].

(** Normal operation, with an upload about to be requested: the command
    [upload], an idle poll, the name and the count are waiting. *)
Definition bench_idle (count : string) (frames : list BscPoll) : Firmware :=
  run (platform := bench) [0]
    (setup (platform := bench)
       [Some "upload"%string; None; Some "Test"%string; Some count] frames).

(** The upload has just been entered; name and count are still to come. *)
Definition bench_entered (count : string) (frames : list BscPoll)
  : Firmware :=
  loop (platform := bench) 10 (bench_idle count frames).

(** The count stage of an upload that promises too many lines. *)
Definition bench_counting : Firmware :=
  run (platform := bench) [0; 10; 20]
    (setup (platform := bench)
       [Some "upload"%string; None; Some "Test"%string; None;
        Some "6000"%string] []).

(** The frame stage of an upload that promises three lines, with the given
    polls of the binary listener to come. *)
Definition bench_receiving (frames : list BscPoll) : Firmware :=
  run (platform := bench) [0; 10]
    (setup (platform := bench)
       [Some "upload"%string; Some "Test"%string; Some "3"%string]
       (Bsc_idle :: frames)).

(** The override is switched on, pulses are sent, the override is switched
    off again. *)
Definition bench_override_on : Firmware :=
  run (platform := bench) [0; 10; 15]
    (setup (platform := bench)
       [Some "override_safety"%string; Some "restore_safety"%string] []).

(** The frame stage of an upload that promises 5000 lines, the capacity of
    the store, after 5000 frames have been stored, one per pass, in 3.75
    seconds: the binary listener still holds one more frame and the
    end-of-program frame. *)
Definition bench_full (extra : BscPoll) : Firmware :=
  run (platform := bench)
    (0 :: map (fun k => 10 + Z.of_nat k * 3 / 4) (seq 0 5000))
    (setup (platform := bench)
       [Some "upload"%string; Some "Test"%string; Some "5000"%string]
       (replicate 5000 (Bsc_frame bench_frame_1 3)
        ++ [extra; Bsc_frame bench_frame_eop 0])).

Definition bench_fail_safe_line : Line :=
  Eval vm_compute in
    match all_valves_open_line (platform := bench) with
    | Some line => line
    | None => mk_Line 0 []
    end.

Definition bench_fail_safe_packed : PackedLine :=
  Eval vm_compute in
    match pack_line (Platform := bench) (points bench_fail_safe_line) with
    | Some pl => pl
    | None => []
    end.

(** ** Vocabulary of the further properties *)

Section Further_vocabulary.

Context `{platform : Platform}.

(** The state machine and the two upload flags. *)
Definition flags_view (fw : Firmware) :=
  (fsm fw, loading_program fw, loading_successful fw).

(** What an upload is made of and reports, without the answers still to
    come from the two listeners and without the safety pulses. *)
Definition quiet_view (fw : Firmware) :=
  (bin_buf fw, override_pump_safety fw, alive_blinker_hue fw, cp_mgr fw,
   protocol_mgr fw, loading_program fw, loading_stage fw,
   loading_successful fw, promised_N_lines fw, fsm fw, every_cmd fw,
   serial_out fw, halted fw).

(** Neither listener has anything to deliver, now or later. *)
Definition silent (fw : Firmware) : Prop :=
  Forall (fun a => a = None) (sc fw) /\
  Forall (fun a => a = Bsc_idle) (bsc fw).

(** A call of the upload update has ended the upload that [fw] was in:
    the loading flag is cleared and the Off state is requested. *)
Definition ends_upload (fw fw1 : Firmware) : Prop :=
  loading_program fw1 = false /\
  nextState (fsm fw1) = state_off /\
  currentState (fsm fw1) = currentState (fsm fw) /\
  needToTriggerEnter (fsm fw1) = needToTriggerEnter (fsm fw).

(** The firmware is in normal operation and the pass of the loop at time
    [now] is going to take the command [cmd] from the listener. *)
Definition takes_command (now : Z) (cmd : string)
    (polls : list (option string)) (fw : Firmware) : Prop :=
  halted fw = None /\
  loading_program fw = false /\
  needToTriggerEnter (fsm fw) = false /\
  (every_n_millis 10 now (every_cmd fw)).1 = true /\
  sc fw = Some cmd :: polls.

(** The commands that only ask for a report. *)
Definition queries : list string :=
  ["id?"; "pos?"; "p?"; "?"; "b?"; "proto?"; "fsm?"]%string.

(** The loading flag and the state machine agree: the flag is only set in
    the upload state with no other state requested, and the entry action
    still owed by the driver belongs to the Off state. *)
Definition mode_consistent (fw : Firmware) : Prop :=
  (needToTriggerEnter (fsm fw) = true ->
   currentState (fsm fw) = state_off /\ loading_program fw = false) /\
  (loading_program fw = true ->
   currentState (fsm fw) = state_uploading /\
   nextState (fsm fw) = state_uploading /\
   needToTriggerEnter (fsm fw) = false).

End Further_vocabulary.

(** * Properties *)

Section Firmware_properties.

Context `{platform : Platform}.

(** ** Fields that a part of the loop leaves alone *)

Lemma and_then_keeps {A} (v : Firmware -> A) (f : Flow)
    (k : Firmware -> Flow) (fw : Firmware) :
  v (finish f) = v fw ->
  (forall fw', v (finish (k fw')) = v fw') ->
  v (finish (and_then f k)) = v fw.
Proof.
  intros Hf Hk. destruct f as [fw1|fw1]; simpl in *.
  - rewrite Hk. exact Hf.
  - exact Hf.
Qed.

Lemma unless_halted_keeps {A} (v : Firmware -> A) (fw : Firmware)
    (k : Firmware -> Firmware) :
  (forall fw', v (k fw') = v fw') -> v (unless_halted fw k) = v fw.
Proof.
  intros Hk. unfold unless_halted. destruct (is_halted fw); auto.
Qed.

Lemma stage_0_gate_view fw :
  gate_view (finish (upd_stage_0 fw)) = gate_view fw.
Proof.
  unfold upd_stage_0, sc_available.
  destruct (loading_stage fw =? 0); [|reflexivity].
  destruct (sc fw) as [|[cmd|] rest]; reflexivity.
Qed.

Lemma stage_1_gate_view fw :
  gate_view (finish (upd_stage_1 fw)) = gate_view fw.
Proof.
  unfold upd_stage_1, sc_available.
  destruct (loading_stage fw =? 1); [|reflexivity].
  destruct (sc fw) as [|[cmd|] rest]; try reflexivity.
  cbn [promised_N_lines set_promised_N_lines set_sc].
  destruct (_ >? _); reflexivity.
Qed.

Lemma stage_2_gate_view fw :
  gate_view (finish (upd_stage_2 fw)) = gate_view fw.
Proof.
  unfold upd_stage_2, bsc_available.
  destruct (loading_stage fw =? 2); [|reflexivity].
  destruct (bsc fw) as [|[| |buf len] rest]; try reflexivity.
  destruct (len =? 0).
  - destruct (negb _); reflexivity.
  - destruct (add_line _ _); reflexivity.
Qed.

Lemma timeout_gate_view now fw :
  gate_view (finish (upd_timeout now fw)) = gate_view fw.
Proof.
  unfold upd_timeout. destruct (_ >? _); reflexivity.
Qed.

Create HintDb gate_frame.

#[local] Hint Resolve stage_0_gate_view stage_1_gate_view stage_2_gate_view
  timeout_gate_view : gate_frame.

Lemma upd_gate_view now fw :
  gate_view (FSM_fun_uploading__upd now fw) = gate_view fw.
Proof.
  unfold FSM_fun_uploading__upd.
  repeat apply and_then_keeps; auto with gate_frame.
Qed.

Lemma ext_gate_view fw :
  gate_view (FSM_fun_uploading__ext fw) = gate_view fw.
Proof.
  unfold FSM_fun_uploading__ext.
  rewrite unless_halted_keeps by reflexivity.
  destruct (negb (loading_successful fw)); [|reflexivity].
  destruct all_valves_open_line as [line|]; [|reflexivity].
  destruct (add_line _ _); reflexivity.
Qed.

Lemma enter_gate_view s fw : gate_view (enter s fw) = gate_view fw.
Proof. destruct s; reflexivity. Qed.

Lemma update_state_gate_view s now fw :
  gate_view (update_state s now fw) = gate_view fw.
Proof.
  destruct s; try reflexivity.
  - unfold update_state, FSM_fun_running__upd.
    destruct (update _ _ _) as [[pm cp]|]; reflexivity.
  - apply upd_gate_view.
Qed.

Lemma immediateTransitionTo_gate_view s now fw :
  gate_view (immediateTransitionTo s now fw) = gate_view fw.
Proof.
  unfold immediateTransitionTo.
  rewrite unless_halted_keeps.
  - destruct (currentState (fsm fw)); try reflexivity. apply ext_gate_view.
  - intros fw'.
    change (gate_view (set_fsm ?f ?x)) with (gate_view x).
    rewrite enter_gate_view. reflexivity.
Qed.

Lemma fsm_update_gate_view now fw :
  gate_view (fsm_update now fw) = gate_view fw.
Proof.
  unfold fsm_update.
  destruct (needToTriggerEnter (fsm fw)).
  - change (gate_view (set_fsm ?f ?x)) with (gate_view x).
    apply enter_gate_view.
  - rewrite unless_halted_keeps by (intros; apply update_state_gate_view).
    destruct (State_eqb _ _); [reflexivity|].
    apply immediateTransitionTo_gate_view.
Qed.

(** The safety section writes the gate fields only. *)
Lemma safety_section_upload_view now fw :
  upload_view (safety_pulses now (safety_check fw)) = upload_view fw.
Proof.
  unfold safety_pulses, safety_check.
  destruct (override_pump_safety fw); [|destruct (all_masks_are_zero _)];
    cbn [safety__allow_jetting_pump_to_run
           set_safety__allow_jetting_pump_to_run every_pulse];
    try reflexivity;
    destruct (every_n_millis _ _ _) as [[|] t]; reflexivity.
Qed.

Lemma dispatch_pulse_view now cmd fw :
  pulse_view (dispatch now cmd fw) = pulse_view fw.
Proof.
  unfold dispatch, seek.
  repeat (case_match; try reflexivity).
Qed.

Lemma process_commands_pulse_view now fw :
  pulse_view (process_commands now fw) = pulse_view fw.
Proof.
  unfold process_commands, sc_available.
  destruct (negb (loading_program fw)); [|reflexivity].
  destruct (every_n_millis _ _ _) as [[|] t]; [|reflexivity].
  cbn [sc set_every_cmd].
  destruct (sc fw) as [|[cmd|] rest]; try reflexivity.
  rewrite dispatch_pulse_view. reflexivity.
Qed.

Lemma process_commands_loading now fw :
  loading_program fw = true -> process_commands now fw = fw.
Proof. intros H. unfold process_commands. rewrite H. reflexivity. Qed.

Lemma dispatch_current now cmd fw :
  currentState (fsm (dispatch now cmd fw)) = currentState (fsm fw) /\
  needToTriggerEnter (fsm (dispatch now cmd fw))
  = needToTriggerEnter (fsm fw).
Proof.
  unfold dispatch, seek.
  repeat (case_match; try (split; reflexivity)).
Qed.

Lemma dispatch_loading now cmd fw :
  loading_program (dispatch now cmd fw) = loading_program fw.
Proof.
  unfold dispatch, seek. repeat (case_match; try reflexivity).
Qed.

Lemma process_commands_mode now fw :
  currentState (fsm (process_commands now fw)) = currentState (fsm fw) /\
  needToTriggerEnter (fsm (process_commands now fw))
  = needToTriggerEnter (fsm fw) /\
  loading_program (process_commands now fw) = loading_program fw.
Proof.
  unfold process_commands, sc_available.
  destruct (negb (loading_program fw)); [|auto].
  destruct (every_n_millis _ _ _) as [[|] t]; [|auto].
  cbn [sc set_every_cmd].
  destruct (sc fw) as [|[cmd|] rest]; auto.
  destruct (dispatch_current now cmd
              (set_sc rest (set_every_cmd t fw))) as (H1 & H2).
  rewrite H1, H2, dispatch_loading. auto.
Qed.

Lemma dispatch_successful now cmd fw :
  loading_successful (dispatch now cmd fw) = loading_successful fw.
Proof.
  unfold dispatch, seek. repeat (case_match; try reflexivity).
Qed.

Lemma process_commands_successful now fw :
  loading_successful (process_commands now fw) = loading_successful fw.
Proof.
  unfold process_commands, sc_available.
  destruct (negb (loading_program fw)); [|reflexivity].
  destruct (every_n_millis _ _ _) as [[|] t]; [|reflexivity].
  cbn [sc set_every_cmd].
  destruct (sc fw) as [|[cmd|] rest]; try reflexivity.
  rewrite dispatch_successful. reflexivity.
Qed.

(** A pass that gets past the command dispatcher ends as the update of the
    state machine leaves it, up to the safety section. *)
Lemma loop_after_commands now fw :
  halted fw = None ->
  halted (process_commands now fw) = None ->
  upload_view (loop now fw)
  = upload_view (fsm_update now (process_commands now fw)).
Proof.
  intros Hh Hy. unfold loop, unless_halted at 1. unfold is_halted at 1.
  rewrite Hh. unfold unless_halted at 1. unfold is_halted at 1.
  rewrite Hy. unfold unless_halted.
  destruct (is_halted _); [reflexivity|].
  apply safety_section_upload_view.
Qed.

(** A tick that is not cut short by a fatal stop ends with the safety
    section. *)
Lemma loop_completes now fw :
  is_halted (loop now fw) = false ->
  exists fw2,
    loop now fw = safety_pulses now (safety_check fw2) /\
    fw2 = fsm_update now (process_commands now fw).
Proof.
  unfold loop, unless_halted. intros H.
  destruct (is_halted fw) eqn:H0; [congruence|].
  destruct (is_halted (process_commands now fw)) eqn:H1; [congruence|].
  destruct (is_halted (fsm_update now _)) eqn:H2; [congruence|].
  eauto.
Qed.

Lemma aggregate_zero_iff cp :
  aggregate_actuation_mask cp = 0 <-> Forall (fun m => m = 0) (committed_ cp).
Proof.
  unfold aggregate_actuation_mask.
  induction (committed_ cp) as [|m l IH]; simpl.
  - split; [constructor | reflexivity].
  - rewrite Z.lor_eq_0_iff, IH. split.
    + intros [-> Hl]. constructor; auto.
    + intros Hl. inversion Hl; subst. auto.
Qed.

Lemma all_masks_are_zero_aggregate cp :
  all_masks_are_zero cp = (aggregate_actuation_mask cp =? 0).
Proof.
  unfold all_masks_are_zero, aggregate_actuation_mask.
  induction (committed_ cp) as [|m l IH]; [reflexivity|].
  cbn [forallb fold_right]. rewrite IH.
  destruct (Z.eqb_spec m 0) as [->|Hm].
  - rewrite Z.lor_0_l. reflexivity.
  - symmetry. apply Z.eqb_neq. rewrite Z.lor_eq_0_iff. tauto.
Qed.

Lemma safety_check_flag fw :
  safety__allow_jetting_pump_to_run (safety_check fw)
  = override_pump_safety fw || negb (all_masks_are_zero (cp_mgr fw)).
Proof.
  unfold safety_check.
  destruct (override_pump_safety fw); [reflexivity|].
  destruct (all_masks_are_zero _); reflexivity.
Qed.

Lemma safety_pulses_flag now fw :
  safety__allow_jetting_pump_to_run (safety_pulses now fw)
  = safety__allow_jetting_pump_to_run fw.
Proof.
  unfold safety_pulses.
  destruct (safety__allow_jetting_pump_to_run fw) eqn:E; [|exact E].
  destruct (every_n_millis _ _ _) as [[|] t]; exact E.
Qed.

Lemma safety_check_gate fw :
  override_pump_safety (safety_check fw) = override_pump_safety fw /\
  cp_mgr (safety_check fw) = cp_mgr fw /\
  pulse_view (safety_check fw) = pulse_view fw.
Proof.
  unfold safety_check.
  destruct (override_pump_safety fw) eqn:E;
    [|destruct (all_masks_are_zero _)]; cbn; rewrite ?E; auto.
Qed.

(** C1. In every tick of the control loop that runs to its end, the
    pump-enable flag is true exactly when the safety override is set or the
    aggregate actuation mask (the OR of the last-committed valve bits of all
    ports) is nonzero; with the override clear and every mask zero it is
    false. *)
Theorem pump_enable_iff_override_or_actuated now fw :
  is_halted (loop now fw) = false ->
  let fw' := loop now fw in
  (safety__allow_jetting_pump_to_run fw' = true <->
   override_pump_safety fw' = true \/
   aggregate_actuation_mask (cp_mgr fw') <> 0) /\
  (override_pump_safety fw' = false ->
   Forall (fun m => m = 0) (committed_ (cp_mgr fw')) ->
   safety__allow_jetting_pump_to_run fw' = false).
Proof.
  intros Hrun fw'. subst fw'.
  destruct (loop_completes now fw Hrun) as (fw2 & -> & _).
  pose proof (safety_section_upload_view now fw2) as Hv.
  unfold upload_view in Hv.
  assert (Ho : override_pump_safety (safety_pulses now (safety_check fw2))
               = override_pump_safety fw2) by congruence.
  assert (Hc : cp_mgr (safety_pulses now (safety_check fw2)) = cp_mgr fw2)
    by congruence.
  rewrite safety_pulses_flag, safety_check_flag, Ho, Hc.
  rewrite all_masks_are_zero_aggregate.
  split.
  - rewrite orb_true_iff, negb_true_iff, Z.eqb_neq. reflexivity.
  - intros -> Hz. apply aggregate_zero_iff in Hz. rewrite Hz. reflexivity.
Qed.

(** C2, as the code has it. While the pump-enable flag is false at the end
    of a tick, that tick has not written the safety-pulse line: the line
    stops toggling and keeps the level of the last toggle, high or low. *)
Theorem pulse_line_keeps_level_when_disabled now fw :
  safety__allow_jetting_pump_to_run (loop now fw) = false ->
  pin_safety_pulse_out (loop now fw) = pin_safety_pulse_out fw /\
  toggler (loop now fw) = toggler fw.
Proof.
  intros Hoff.
  assert (Hpc := process_commands_pulse_view now fw).
  assert (Hfs := fsm_update_gate_view now (process_commands now fw)).
  unfold pulse_view in Hpc. unfold gate_view in Hfs.
  revert Hoff. unfold loop, unless_halted.
  destruct (is_halted fw); [auto|].
  destruct (is_halted (process_commands now fw)); [split; congruence|].
  destruct (is_halted (fsm_update now _)); [split; congruence|].
  set (fw2 := fsm_update now (process_commands now fw)) in *.
  rewrite safety_pulses_flag. intros Hoff.
  unfold safety_pulses. rewrite Hoff.
  destruct (safety_check_gate fw2) as (_ & _ & Hp). unfold pulse_view in Hp.
  split; congruence.
Qed.

(** [setup()] leaves the line low. *)
Lemma setup_drives_line_low sc0 bsc0 :
  pin_safety_pulse_out (setup sc0 bsc0) = false.
Proof. reflexivity. Qed.

Lemma loop_loading_override now fw :
  loading_program fw = true ->
  override_pump_safety (loop now fw) = override_pump_safety fw.
Proof.
  intros Hl. unfold loop, unless_halted.
  destruct (is_halted fw); [reflexivity|].
  rewrite (process_commands_loading now fw Hl).
  destruct (is_halted fw); [reflexivity|].
  assert (Hfs := fsm_update_gate_view now fw). unfold gate_view in Hfs.
  destruct (is_halted (fsm_update now fw)); [congruence|].
  assert (Hv := safety_section_upload_view now (fsm_update now fw)).
  unfold upload_view in Hv. congruence.
Qed.

(** C10. Over any run of ticks that all start with the loading flag set,
    the command dispatcher leaves the firmware untouched in every tick (no
    command is taken from the listener, none is processed), and the
    pump-safety override flag at the end is the one at the start. *)
Theorem no_command_while_loading ticks fw :
  loading_throughout ticks fw ->
  override_pump_safety (run ticks fw) = override_pump_safety fw /\
  forall k now,
    ticks !! k = Some now ->
    process_commands now (run (take k ticks) fw) = run (take k ticks) fw.
Proof.
  revert fw. induction ticks as [|t rest IH]; intros fw Hl.
  - split; [reflexivity|]. intros k now Hk. destruct k; discriminate.
  - destruct Hl as [Hl Hrest]. destruct (IH _ Hrest) as [IHo IHk].
    split.
    + change (run (t :: rest) fw) with (run rest (loop t fw)).
      rewrite IHo. apply loop_loading_override, Hl.
    + intros [|k] now Hk; simpl in Hk.
      * apply process_commands_loading, Hl.
      * change (run (take (S k) (t :: rest)) fw)
          with (run (take k rest) (loop t fw)).
        apply IHk, Hk.
Qed.

(** ** Decoding a frame *)

Lemma byte_val_range b : 0 <= byte_val b < 256.
Proof.
  unfold byte_val. pose proof (Byte.to_N_bounded b). lia.
Qed.

Lemma buf_at_range buf i : 0 <= buf_at buf i < 256.
Proof. apply byte_val_range. Qed.

Lemma big_endian_u16 a c :
  0 <= a < 256 -> 0 <= c < 256 ->
  u16 (Z.lor (Z.shiftl a 8) c) = 256 * a + c.
Proof.
  intros Ha Hc.
  assert (Hland : Z.land (Z.shiftl a 8) c = 0).
  { assert (Hc' : c = Z.land c (Z.ones 8)).
    { rewrite Z.land_ones by lia. rewrite Z.mod_small; [reflexivity|].
      change (2 ^ 8) with 256. lia. }
    rewrite Hc', (Z.land_comm c), Z.land_assoc.
    rewrite (Z.land_ones (Z.shiftl a 8)) by lia.
    rewrite Z.shiftl_mul_pow2 by lia.
    rewrite Z.mod_mul by (change (2 ^ 8) with 256; lia).
    apply Z.land_0_l. }
  rewrite <- (Z.add_nocarry_lor _ _ Hland).
  rewrite Z.shiftl_mul_pow2 by lia.
  unfold u16, wrap. change (2 ^ 8) with 256. change (2 ^ 16) with 65536.
  rewrite Z.mod_small; lia.
Qed.

Lemma unpack_byte_nibbles c p :
  0 <= c ->
  unpack_byte c p = mk_P (c / 16 + PCS_X_MIN) (c mod 16 + PCS_Y_MIN).
Proof.
  intros Hc. unfold unpack_byte.
  rewrite Z.shiftr_div_pow2 by lia.
  change 15 with (Z.ones 4). rewrite Z.land_ones by lia.
  reflexivity.
Qed.

Lemma unpack_points_spec n buf : forall idx idx_P pts,
  (idx_P + n <= length pts)%nat ->
  fst (unpack_points n buf idx idx_P pts) = (idx_P + n)%nat /\
  length (snd (unpack_points n buf idx idx_P pts)) = length pts /\
  (forall j, (j < idx_P)%nat ->
     snd (unpack_points n buf idx idx_P pts) !! j = pts !! j) /\
  (forall j, (j < n)%nat ->
     snd (unpack_points n buf idx idx_P pts) !! (idx_P + j)%nat
     = Some (unpack_byte (buf_at buf (idx + j)) P_default)) /\
  (forall j, (idx_P + n <= j)%nat ->
     snd (unpack_points n buf idx idx_P pts) !! j = pts !! j).
Proof.
  induction n as [|n IH]; intros idx idx_P pts Hlen.
  - simpl. repeat split; auto; try lia.
  - cbn [unpack_points].
    set (pts1 := alter (unpack_byte (buf_at buf idx)) idx_P pts).
    assert (Hlen1 : length pts1 = length pts) by apply length_alter.
    destruct (IH (S idx) (S idx_P) pts1) as (Hf & Hl & Hlo & Hmid & Hhi);
      [lia|].
    split; [lia|]. split; [congruence|]. split; [|split].
    + intros j Hj. rewrite Hlo by lia.
      apply list_lookup_alter_ne. lia.
    + intros [|j] Hj.
      * rewrite Nat.add_0_r, Hlo by lia.
        unfold pts1. rewrite list_lookup_alter_eq.
        destruct (lookup_lt_is_Some_2 pts idx_P) as [p Hp]; [lia|].
        rewrite Hp, Nat.add_0_r. reflexivity.
      * replace (idx_P + S j)%nat with (S idx_P + j)%nat by lia.
        replace (idx + S j)%nat with (S idx + j)%nat by lia.
        apply Hmid. lia.
    + intros j Hj. rewrite Hhi by lia.
      apply list_lookup_alter_ne. lia.
Qed.

Lemma Line_new_points j :
  (j <= MAX_POINTS_PER_LINE)%nat -> points Line_new !! j = Some P_default.
Proof.
  intros Hj. unfold Line_new. cbn [points].
  apply lookup_replicate_2. lia.
Qed.

(** The line parsed from a frame of [len] bytes whose points fit the
    working line. *)
Lemma parse_line_spec buf len :
  (Z.to_nat (len - 2) <= MAX_POINTS_PER_LINE)%nat ->
  duration (parse_line buf len) = 256 * buf_at buf 0 + buf_at buf 1 /\
  (forall j, (j < Z.to_nat (len - 2))%nat ->
     points (parse_line buf len) !! j
     = Some (unpack_byte (buf_at buf (2 + j)) P_default)) /\
  (forall j, (Z.to_nat (len - 2) <= j <= MAX_POINTS_PER_LINE)%nat ->
     points (parse_line buf len) !! j = Some P_default).
Proof.
  intros Hn. unfold parse_line.
  set (n := Z.to_nat (len - 2)) in *.
  assert (Hlen : length (points Line_new) = S MAX_POINTS_PER_LINE).
  { unfold Line_new. cbn [points]. apply length_replicate. }
  destruct (unpack_points_spec n buf 2 0 (points Line_new))
    as (Hf & Hl & _ & Hmid & Hhi); [lia|].
  destruct (unpack_points n buf 2 0 (points Line_new)) as [idx_P pts].
  cbn [fst snd] in *. subst idx_P. cbn [duration points].
  split; [apply big_endian_u16; apply buf_at_range|].
  split.
  - intros j Hj. rewrite list_lookup_alter_ne by lia.
    apply (Hmid j Hj).
  - intros j Hj. destruct (decide (j = n)) as [->|Hne].
    + rewrite list_lookup_alter_eq, Hhi by lia.
      rewrite Line_new_points by lia. reflexivity.
    + rewrite list_lookup_alter_ne by lia. rewrite Hhi by lia.
      apply Line_new_points. lia.
Qed.

(** ** The formatted messages *)

Lemma substring_all s n :
  (String.length s <= n)%nat -> substring 0 n s = s.
Proof.
  revert n. induction s as [|c s IH]; intros [|n] H; cbn in *;
    try reflexivity; try lia.
  f_equal. apply IH. lia.
Qed.

Lemma string_length_append (a b : string) :
  String.length (a ++ b)%string = (String.length a + String.length b)%nat.
Proof. induction a as [|c a IH]; cbn; [reflexivity|]. rewrite IH. lia. Qed.

Lemma dec_length z :
  0 <= z < 65536 -> (String.length (dec z) <= 5)%nat.
Proof.
  intros Hz.
  assert (H : forallb
                (fun a =>
                   forallb
                     (fun b =>
                        Nat.leb
                          (String.length
                             (dec (256 * Z.of_nat a + Z.of_nat b))) 5)
                     (seq 0 256))
                (seq 0 256) = true)
    by (vm_compute; reflexivity).
  rewrite forallb_forall in H.
  specialize (H (Z.to_nat (z / 256))).
  rewrite forallb_forall in H.
  specialize (H ltac:(apply in_seq;
                      pose proof (Z.div_lt_upper_bound z 256 256);
                      pose proof (Z.div_pos z 256); lia)
                (Z.to_nat (z mod 256))
                ltac:(apply in_seq;
                      pose proof (Z.mod_pos_bound z 256); lia)).
  rewrite !Z2Nat.id in H
    by (try apply Z.div_pos; try apply Z.mod_pos_bound; lia).
  rewrite <- Z.div_mod in H by lia.
  apply Nat.leb_le, H.
Qed.

Lemma msg_exceeds_text promised :
  0 <= promised < 65536 -> 0 <= PROTOCOL_MAX_LINES < 65536 ->
  msg_exceeds promised
  = ("ERROR: Protocol program exceeds maximum number of lines. "
     ++ "Requested were " ++ dec promised
     ++ " lines, but the maximum is " ++ dec PROTOCOL_MAX_LINES
     ++ ".")%string.
Proof.
  intros Hp Hm.
  pose proof (dec_length promised Hp).
  pose proof (dec_length PROTOCOL_MAX_LINES Hm).
  unfold msg_exceeds, snprintf_buf.
  change (Z.to_nat (BUF_LEN - 1)) with 127%nat.
  apply substring_all. rewrite !string_length_append.
  cbn [String.length]. lia.
Qed.

Lemma msg_incorrect_text promised received :
  0 <= promised < 65536 -> 0 <= received < 65536 ->
  msg_incorrect promised received
  = ("ERROR: Protocol program received incorrect number of "
     ++ "lines. Promised were " ++ dec promised
     ++ " lines, but " ++ dec received ++ " were received.")%string.
Proof.
  intros Hp Hr.
  pose proof (dec_length promised Hp).
  pose proof (dec_length received Hr).
  unfold msg_incorrect, snprintf_buf.
  change (Z.to_nat (BUF_LEN - 1)) with 127%nat.
  apply substring_all. rewrite !string_length_append.
  cbn [String.length]. lia.
Qed.

Lemma u16_range z : 0 <= u16 z < 65536.
Proof. unfold u16, wrap. apply Z.mod_pos_bound. reflexivity. Qed.

(** ** Single steps of the upload *)

Lemma stage_0_skip fw :
  loading_stage fw <> 0 -> upd_stage_0 fw = Next fw.
Proof.
  intros H. unfold upd_stage_0.
  destruct (Z.eqb_spec (loading_stage fw) 0); [contradiction|reflexivity].
Qed.

Lemma stage_1_skip fw :
  loading_stage fw <> 1 -> upd_stage_1 fw = Next fw.
Proof.
  intros H. unfold upd_stage_1.
  destruct (Z.eqb_spec (loading_stage fw) 1); [contradiction|reflexivity].
Qed.

Lemma stage_2_skip fw :
  loading_stage fw <> 2 -> upd_stage_2 fw = Next fw.
Proof.
  intros H. unfold upd_stage_2.
  destruct (Z.eqb_spec (loading_stage fw) 2); [contradiction|reflexivity].
Qed.

Lemma upd_unfold now fw :
  FSM_fun_uploading__upd now fw
  = finish (and_then (upd_stages fw) (upd_timeout now)).
Proof. reflexivity. Qed.

Lemma stage_1_excess fw cmd rest :
  loading_stage fw = 1 ->
  sc fw = Some cmd :: rest ->
  PROTOCOL_MAX_LINES < u16 (atoi cmd) ->
  upd_stage_1 fw
  = Return (transitionTo state_off
              (set_loading_program false
                 (println (msg_exceeds (u16 (atoi cmd)))
                    (set_promised_N_lines (u16 (atoi cmd))
                       (set_sc rest fw))))).
Proof.
  intros Hs Hsc Hgt. unfold upd_stage_1, sc_available.
  rewrite Hs, Hsc. cbn [Z.eqb Pos.eqb].
  cbn [promised_N_lines set_promised_N_lines].
  destruct (Z.gtb_spec (u16 (atoi cmd)) PROTOCOL_MAX_LINES); [reflexivity|lia].
Qed.

Lemma stage_2_frame fw buf len rest :
  loading_stage fw = 2 ->
  bsc fw = Bsc_frame buf len :: rest ->
  len <> 0 ->
  upd_stage_2 fw
  = match add_line (parse_line buf len) (protocol_mgr fw) with
    | None => Return (fault (set_bin_buf buf (set_bsc rest fw)))
    | Some pm =>
        Next (set_protocol_mgr pm (set_bin_buf buf (set_bsc rest fw)))
    end.
Proof.
  intros Hs Hb Hlen. unfold upd_stage_2, bsc_available.
  rewrite Hs, Hb. cbn [Z.eqb Pos.eqb].
  destruct (Z.eqb_spec len 0); [contradiction|].
  reflexivity.
Qed.

Lemma add_line_appends line pm pl :
  get_N_lines pm <> PROTOCOL_MAX_LINES ->
  pack_line (points line) = Some pl ->
  exists pm',
    add_line line pm = Some pm' /\
    program_ pm' = program_ pm ++ [mk_PackedTimeLine (duration line) pl] /\
    name_ pm' = name_ pm /\ pos_ pm' = pos_ pm /\
    calls_ pm' = calls_ pm ++ [Call_add_line line].
Proof.
  intros Hn Hp. unfold add_line.
  change (get_N_lines (logged (Call_add_line line) pm)) with (get_N_lines pm).
  destruct (Z.eqb_spec (get_N_lines pm) PROTOCOL_MAX_LINES); [contradiction|].
  rewrite Hp. eexists. split; [reflexivity|]. cbn. auto.
Qed.

Lemma timeout_result now fw :
  (upd_timeout now fw = Next fw /\ timeInCurrentState now fw <= LOADING_TIMEOUT)
  \/ (upd_timeout now fw
      = Next (transitionTo state_off
                (set_loading_program false (println msg_timeout fw)))
      /\ LOADING_TIMEOUT < timeInCurrentState now fw).
Proof.
  unfold upd_timeout.
  destruct (Z.gtb_spec (timeInCurrentState now fw) LOADING_TIMEOUT);
    [right|left]; split; auto; lia.
Qed.

Lemma timeout_keeps_store now fw :
  protocol_mgr (finish (upd_timeout now fw)) = protocol_mgr fw /\
  halted (finish (upd_timeout now fw)) = halted fw.
Proof.
  destruct (timeout_result now fw) as [[-> _]|[-> _]]; split; reflexivity.
Qed.

Lemma stage_0_next fw :
  exists fw1,
    upd_stage_0 fw = Next fw1 /\
    progress_view fw1 = progress_view fw /\
    bsc fw1 = bsc fw /\ bin_buf fw1 = bin_buf fw /\
    program_ (protocol_mgr fw1) = program_ (protocol_mgr fw).
Proof.
  unfold upd_stage_0, sc_available.
  destruct (loading_stage fw =? 0); [|eauto 6].
  destruct (sc fw) as [|[cmd|] rest]; eexists; (split; [reflexivity|]);
    cbn; auto.
Qed.

Lemma stage_1_next fw fw1 :
  upd_stage_1 fw = Next fw1 ->
  progress_view fw1 = progress_view fw /\
  bsc fw1 = bsc fw /\ bin_buf fw1 = bin_buf fw /\
  protocol_mgr fw1 = protocol_mgr fw.
Proof.
  unfold upd_stage_1, sc_available.
  destruct (loading_stage fw =? 1); [|intros [= <-]; auto].
  destruct (sc fw) as [|[cmd|] rest]; try (intros [= <-]; cbn; auto).
  cbn [promised_N_lines set_promised_N_lines].
  destruct (_ >? _); [discriminate|].
  intros [= <-]. cbn. auto.
Qed.

Lemma stage_2_next fw fw1 :
  upd_stage_2 fw = Next fw1 ->
  progress_view fw1 = progress_view fw.
Proof.
  unfold upd_stage_2, bsc_available.
  destruct (loading_stage fw =? 2); [|intros [= <-]; auto].
  destruct (bsc fw) as [|[| |buf len] rest];
    try discriminate; try (intros [= <-]; reflexivity).
  destruct (len =? 0).
  - destruct (negb _); discriminate.
  - destruct (add_line _ _); [|discriminate]. intros [= <-]. reflexivity.
Qed.

Lemma stages_next fw fw1 :
  upd_stages fw = Next fw1 -> progress_view fw1 = progress_view fw.
Proof.
  unfold upd_stages.
  destruct (stage_0_next fw) as (fa & -> & Ha & _). cbn [and_then].
  destruct (upd_stage_1 fa) as [fb|fb] eqn:Hb; [|discriminate].
  cbn [and_then]. intros Hc.
  apply stage_2_next in Hc. apply stage_1_next in Hb as [Hb _].
  congruence.
Qed.



(** With nothing to read in the frame stage, the stages fall through. *)
Lemma stages_idle fw :
  loading_stage fw = 2 ->
  bsc fw = [] \/ (exists rest, bsc fw = Bsc_idle :: rest) ->
  exists fw1, upd_stages fw = Next fw1 /\
              protocol_mgr fw1 = protocol_mgr fw.
Proof.
  intros Hs Hb. unfold upd_stages.
  rewrite stage_0_skip by lia. cbn [and_then].
  rewrite stage_1_skip by lia. cbn [and_then].
  unfold upd_stage_2, bsc_available. rewrite Hs. cbn [Z.eqb Pos.eqb].
  destruct Hb as [->|[rest ->]]; eauto.
Qed.

Lemma frame_step now fw0 fw buf len rest :
  and_then (upd_stage_0 fw0) upd_stage_1 = Next fw ->
  loading_stage fw = 2 ->
  bsc fw = Bsc_frame buf len :: rest ->
  len <> 0 ->
  let fw' := FSM_fun_uploading__upd now fw0 in
  match add_line (parse_line buf len) (protocol_mgr fw) with
  | Some pm =>
      upd_stages fw0
      = Next (set_protocol_mgr pm (set_bin_buf buf (set_bsc rest fw))) /\
      protocol_mgr fw' = pm /\ halted fw' = halted fw
  | None => halted fw' = Some Halt_collaborator
  end.
Proof.
  intros H01 Hs Hb Hlen fw'. subst fw'.
  rewrite upd_unfold. unfold upd_stages. rewrite H01. cbn [and_then].
  rewrite (stage_2_frame fw buf len rest Hs Hb Hlen).
  destruct (add_line _ _) as [pm|]; [|reflexivity].
  cbn [and_then]. split; [reflexivity|].
  destruct (timeout_keeps_store now
              (set_protocol_mgr pm (set_bin_buf buf (set_bsc rest fw))))
    as [-> ->].
  split; reflexivity.
Qed.

Lemma buf_at_lookup buf i b :
  buf !! i = Some b -> buf_at buf i = Z.of_N (Byte.to_N b).
Proof.
  intros H. unfold buf_at, byte_val.
  rewrite (nth_lookup_Some buf i x00 b H). reflexivity.
Qed.

Lemma add_line_full line pm :
  get_N_lines pm = PROTOCOL_MAX_LINES ->
  add_line line pm = Some (logged (Call_add_line line) pm).
Proof.
  intros H. unfold add_line.
  change (get_N_lines (logged (Call_add_line line) pm))
    with (get_N_lines pm).
  rewrite H, Z.eqb_refl. reflexivity.
Qed.

Lemma add_line_fault line pm :
  get_N_lines pm <> PROTOCOL_MAX_LINES ->
  pack_line (points line) = None ->
  add_line line pm = None.
Proof.
  intros H Hp. unfold add_line.
  change (get_N_lines (logged (Call_add_line line) pm))
    with (get_N_lines pm).
  destruct (Z.eqb_spec (get_N_lines pm) PROTOCOL_MAX_LINES); [contradiction|].
  rewrite Hp. reflexivity.
Qed.

(** What becomes of the line of a non-empty frame: dropped by a full
    store, appended otherwise, unless a coordinate is out of range, which
    is fatal. *)
Lemma frame_outcome now fw0 fw buf len rest :
  and_then (upd_stage_0 fw0) upd_stage_1 = Next fw ->
  loading_stage fw = 2 ->
  bsc fw = Bsc_frame buf len :: rest ->
  len <> 0 ->
  let line := parse_line buf len in
  let fw' := FSM_fun_uploading__upd now fw0 in
  (get_N_lines (protocol_mgr fw) = PROTOCOL_MAX_LINES ->
   program_ (protocol_mgr fw') = program_ (protocol_mgr fw) /\
   halted fw' = halted fw) /\
  (get_N_lines (protocol_mgr fw) <> PROTOCOL_MAX_LINES ->
   forall pl, pack_line (points line) = Some pl ->
   program_ (protocol_mgr fw')
   = program_ (protocol_mgr fw) ++ [mk_PackedTimeLine (duration line) pl] /\
   halted fw' = halted fw) /\
  (get_N_lines (protocol_mgr fw) <> PROTOCOL_MAX_LINES ->
   pack_line (points line) = None ->
   halted fw' = Some Halt_collaborator).
Proof.
  intros H01 Hs Hb Hlen line fw'.
  pose proof (frame_step now fw0 fw buf len rest H01 Hs Hb Hlen) as Hstep.
  cbv zeta in Hstep. fold line fw' in Hstep.
  split; [|split].
  - intros Hfull. rewrite (add_line_full line _ Hfull) in Hstep.
    destruct Hstep as (_ & -> & ->). split; reflexivity.
  - intros Hn pl Hp.
    destruct (add_line_appends line (protocol_mgr fw) pl Hn Hp)
      as (pm' & Hadd & Hprog & _).
    rewrite Hadd in Hstep. destruct Hstep as (_ & -> & ->).
    split; [exact Hprog|reflexivity].
  - intros Hn Hp. rewrite (add_line_fault line _ Hn Hp) in Hstep.
    exact Hstep.
Qed.

(** C8, as the code has it. For every non-empty frame taken in the frame
    stage (its points fitting the working line): the duration of the
    parsed line is the big-endian 16-bit number in the first two bytes of
    the buffer, the byte at index [2 + j] decodes to point [j] with x from
    the high and y from the low nibble, the slot after the last point
    holds the null point, and this line is handed to [add_line]: a store
    that is full drops it and the upload goes on, otherwise the packed
    line is appended, unless a coordinate is out of range, which is a
    fatal fault. *)
Theorem frame_decodes_to_line now fw0 fw buf len rest :
  and_then (upd_stage_0 fw0) upd_stage_1 = Next fw ->
  loading_stage fw = 2 ->
  bsc fw = Bsc_frame buf len :: rest ->
  0 < len ->
  (Z.to_nat (len - 2) <= MAX_POINTS_PER_LINE)%nat ->
  let line := parse_line buf len in
  let fw' := FSM_fun_uploading__upd now fw0 in
  (forall b0 b1, buf !! 0%nat = Some b0 -> buf !! 1%nat = Some b1 ->
     duration line = 256 * Z.of_N (Byte.to_N b0) + Z.of_N (Byte.to_N b1)) /\
  (forall j b, (j < Z.to_nat (len - 2))%nat -> buf !! (2 + j)%nat = Some b ->
     points line !! j
     = Some (mk_P (Z.of_N (Byte.to_N b) / 16 + PCS_X_MIN)
                  (Z.of_N (Byte.to_N b) mod 16 + PCS_Y_MIN))) /\
  points line !! Z.to_nat (len - 2) = Some (mk_P (-128) (-128)) /\
  (get_N_lines (protocol_mgr fw) = PROTOCOL_MAX_LINES ->
   program_ (protocol_mgr fw') = program_ (protocol_mgr fw) /\
   halted fw' = halted fw) /\
  (get_N_lines (protocol_mgr fw) <> PROTOCOL_MAX_LINES ->
   forall pl, pack_line (points line) = Some pl ->
   program_ (protocol_mgr fw')
   = program_ (protocol_mgr fw) ++ [mk_PackedTimeLine (duration line) pl] /\
   halted fw' = halted fw) /\
  (get_N_lines (protocol_mgr fw) <> PROTOCOL_MAX_LINES ->
   pack_line (points line) = None ->
   halted fw' = Some Halt_collaborator).
Proof.
  intros H01 Hs Hb Hlen Hfit line fw'.
  destruct (parse_line_spec buf len Hfit) as (Hd & Hpts & Hnull).
  split.
  { intros b0 b1 H0 H1. fold line in Hd.
    rewrite Hd, (buf_at_lookup _ _ _ H0), (buf_at_lookup _ _ _ H1).
    reflexivity. }
  split.
  { intros j b Hj Hbj. fold line in Hpts. rewrite (Hpts j Hj).
    rewrite unpack_byte_nibbles by apply buf_at_range.
    rewrite (buf_at_lookup _ _ _ Hbj). reflexivity. }
  split; [apply Hnull; lia|].
  apply (frame_outcome now fw0 fw buf len rest H01 Hs Hb). lia.
Qed.

(** C9, as the code has it. A frame of exactly one byte is taken like any
    other: the duration is assembled from buffer indices 0 and 1, whatever
    byte the buffer holds at index 1, the parsed line has no point,
    nothing is reported and the stages fall through with the line handed
    to [add_line]: a store that is full drops it, otherwise the packed
    line is appended. *)
Theorem one_byte_frame_is_accepted now fw0 fw buf rest :
  and_then (upd_stage_0 fw0) upd_stage_1 = Next fw ->
  loading_stage fw = 2 ->
  bsc fw = Bsc_frame buf 1 :: rest ->
  let line := parse_line buf 1 in
  let fw' := FSM_fun_uploading__upd now fw0 in
  (forall b0 b1, buf !! 0%nat = Some b0 -> buf !! 1%nat = Some b1 ->
     duration line = 256 * Z.of_N (Byte.to_N b0) + Z.of_N (Byte.to_N b1)) /\
  active_points (points line) = [] /\
  (forall pm, add_line line (protocol_mgr fw) = Some pm ->
     upd_stages fw0
     = Next (set_protocol_mgr pm (set_bin_buf buf (set_bsc rest fw))) /\
     protocol_mgr fw' = pm /\ halted fw' = halted fw) /\
  (add_line line (protocol_mgr fw) = None ->
   halted fw' = Some Halt_collaborator) /\
  (get_N_lines (protocol_mgr fw) = PROTOCOL_MAX_LINES ->
   program_ (protocol_mgr fw') = program_ (protocol_mgr fw) /\
   halted fw' = halted fw) /\
  (get_N_lines (protocol_mgr fw) <> PROTOCOL_MAX_LINES ->
   forall pl, pack_line (points line) = Some pl ->
   program_ (protocol_mgr fw')
   = program_ (protocol_mgr fw) ++ [mk_PackedTimeLine (duration line) pl] /\
   halted fw' = halted fw).
Proof.
  intros H01 Hs Hb line fw'.
  assert (Hfit : (Z.to_nat (1 - 2) <= MAX_POINTS_PER_LINE)%nat) by (cbn; lia).
  destruct (parse_line_spec buf 1 Hfit) as (Hd & _ & _).
  pose proof (frame_step now fw0 fw buf 1 rest H01 Hs Hb ltac:(lia))
    as Hstep. cbv zeta in Hstep. fold line fw' in Hstep.
  split.
  { intros b0 b1 H0 H1. fold line in Hd.
    rewrite Hd, (buf_at_lookup _ _ _ H0), (buf_at_lookup _ _ _ H1).
    reflexivity. }
  split; [reflexivity|].
  split; [intros pm Hadd; rewrite Hadd in Hstep; exact Hstep|].
  split; [intros Hadd; rewrite Hadd in Hstep; exact Hstep|].
  destruct (frame_outcome now fw0 fw buf 1 rest H01 Hs Hb ltac:(lia))
    as (Hfull & Happ & _).
  split; assumption.
Qed.

(** ** Leaving the upload state *)

Lemma count_prime_start_app l1 l2 :
  count_prime_start (l1 ++ l2)
  = (count_prime_start l1 + count_prime_start l2)%nat.
Proof.
  induction l1 as [|c l1 IH]; [reflexivity|].
  destruct c; cbn; rewrite IH; reflexivity.
Qed.

Lemma add_line_some_calls line pm pm' :
  add_line line pm = Some pm' ->
  calls_ pm' = calls_ pm ++ [Call_add_line line] /\
  name_ pm' = name_ pm /\ pos_ pm' = pos_ pm.
Proof.
  unfold add_line.
  destruct (_ =? _); [intros [= <-]; cbn; auto|].
  destruct (pack_line _); [|discriminate].
  intros [= <-]. cbn. auto.
Qed.

(** The store after the fall-back of the exit function. *)
Lemma fail_safe_store pm :
  fail_safe_ready ->
  exists line pl pm',
    all_valves_open_line = Some line /\
    pack_line (points line) = Some pl /\
    add_line line (set_name "All valves open" (clear pm)) = Some pm' /\
    name_ pm' = "All valves open"%string /\
    calls_ pm'
    = calls_ pm
      ++ [Call_clear; Call_set_name "All valves open"; Call_add_line line] /\
    (PROTOCOL_MAX_LINES <> 0 ->
     program_ pm' = [mk_PackedTimeLine (duration line) pl]).
Proof.
  intros (line & pl & Hline & Hpack). exists line, pl.
  unfold add_line.
  change (get_N_lines _) with 0.
  destruct (Z.eqb_spec 0 PROTOCOL_MAX_LINES) as [He|Hne].
  - eexists. repeat (split; [reflexivity || eassumption|]).
    split.
    + cbn. rewrite <- !app_assoc. reflexivity.
    + intros Hn. congruence.
  - rewrite Hpack. eexists. repeat (split; [reflexivity || eassumption|]).
    split.
    + cbn. rewrite <- !app_assoc. reflexivity.
    + intros _. reflexivity.
Qed.

Lemma ext_result fw :
  halted fw = None ->
  fail_safe_ready ->
  exists pm new,
    FSM_fun_uploading__ext fw = set_protocol_mgr (prime_start pm) fw /\
    calls_ pm = calls_ (protocol_mgr fw) ++ new /\
    count_prime_start new = 0%nat /\
    (loading_successful fw = true -> pm = protocol_mgr fw) /\
    (loading_successful fw = false ->
     exists line pl,
       all_valves_open_line = Some line /\
       pack_line (points line) = Some pl /\
       name_ pm = "All valves open"%string /\
       (PROTOCOL_MAX_LINES <> 0 ->
        program_ pm = [mk_PackedTimeLine (duration line) pl])).
Proof.
  intros Hh Hready. unfold FSM_fun_uploading__ext.
  destruct (loading_successful fw) eqn:Hs; cbn [negb].
  - exists (protocol_mgr fw), [].
    unfold unless_halted, is_halted. rewrite Hh.
    rewrite app_nil_r. repeat split; auto. discriminate.
  - destruct (fail_safe_store (protocol_mgr fw) Hready)
      as (line & pl & pm' & Hline & Hpack & Hadd & Hname & Hcalls & Hprog).
    rewrite Hline. cbn [protocol_mgr set_protocol_mgr].
    rewrite Hadd.
    exists pm', [Call_clear; Call_set_name "All valves open";
                 Call_add_line line].
    unfold unless_halted, is_halted. cbn [halted set_protocol_mgr].
    rewrite Hh.
    split; [reflexivity|]. split; [exact Hcalls|]. split; [reflexivity|].
    split; [discriminate|]. intros _. exists line, pl. auto.
Qed.

Lemma enter_keeps_store s fw :
  s <> state_uploading ->
  protocol_mgr (enter s fw) = protocol_mgr fw /\
  halted (enter s fw) = halted fw /\
  fsm (enter s fw) = fsm fw.
Proof. destruct s; try contradiction; intros _; cbn; auto. Qed.

Lemma update_calls now pm cp pm' cp' :
  update now pm cp = Some (pm', cp') ->
  calls_ pm' = calls_ pm ++ [Call_update].
Proof.
  unfold update, activate. cbn.
  repeat case_match; intros [= <- <-]; reflexivity.
Qed.

Lemma update_state_calls s now fw :
  s <> state_uploading ->
  exists more,
    calls_ (protocol_mgr (update_state s now fw))
    = calls_ (protocol_mgr fw) ++ more /\
    count_prime_start more = 0%nat.
Proof.
  intros Hs. destruct s; try contradiction;
    try (exists []; rewrite app_nil_r; split; reflexivity).
  cbn [update_state]. unfold FSM_fun_running__upd.
  destruct (update now (protocol_mgr fw) (cp_mgr fw)) as [[pm cp]|] eqn:Hu.
  - exists [Call_update]. cbn [protocol_mgr set_cp_mgr set_protocol_mgr].
    split; [eapply update_calls; eassumption | reflexivity].
  - exists []. rewrite app_nil_r. split; reflexivity.
Qed.

Lemma leave_upload_state now fw s :
  currentState (fsm fw) = state_uploading ->
  nextState (fsm fw) = s ->
  s <> state_uploading ->
  needToTriggerEnter (fsm fw) = false ->
  halted fw = None ->
  fail_safe_ready ->
  let fw1 := FSM_fun_uploading__ext fw in
  let fw2 := immediateTransitionTo s now fw in
  let fw' := fsm_update now fw in
  (exists new,
     calls_ (protocol_mgr fw1)
     = calls_ (protocol_mgr fw) ++ new ++ [Call_prime_start] /\
     count_prime_start new = 0%nat) /\
  halted fw1 = None /\
  pos_ (protocol_mgr fw1) = None /\
  (forall t cp,
     update t (protocol_mgr fw1) cp
     = activate 0 t (logged Call_update (protocol_mgr fw1)) cp) /\
  protocol_mgr fw2 = protocol_mgr fw1 /\
  currentState (fsm fw2) = s /\
  fw' = update_state s now fw2 /\
  (exists new',
     calls_ (protocol_mgr fw')
     = calls_ (protocol_mgr fw) ++ new' /\
     count_prime_start new' = 1%nat) /\
  halted fw2 = None.
Proof.
  intros Hcur Hnext Hs Htrig Hh Hready fw1 fw2 fw'.
  destruct (ext_result fw Hh Hready) as (pm & new & Hext & Hcalls & Hcnt & _).
  assert (H1 : calls_ (protocol_mgr fw1)
               = calls_ (protocol_mgr fw) ++ new ++ [Call_prime_start]).
  { subst fw1. rewrite Hext. cbn. rewrite Hcalls, app_assoc. reflexivity. }
  assert (Hh1 : halted fw1 = None).
  { subst fw1. rewrite Hext. exact Hh. }
  assert (Hpos : pos_ (protocol_mgr fw1) = None).
  { subst fw1. rewrite Hext. reflexivity. }
  assert (H2 : fw2
               = set_fsm
                   (mk_FiniteStateMachine s s now
                      (needToTriggerEnter
                         (fsm (enter s
                                 (set_fsm
                                    (mk_FiniteStateMachine s s
                                       (stateChangeTime (fsm fw1))
                                       (needToTriggerEnter (fsm fw1)))
                                    fw1)))))
                   (enter s
                      (set_fsm
                         (mk_FiniteStateMachine s s
                            (stateChangeTime (fsm fw1))
                            (needToTriggerEnter (fsm fw1)))
                         fw1))).
  { subst fw2. unfold immediateTransitionTo. rewrite Hcur.
    cbn [exit_state]. fold fw1.
    unfold unless_halted, is_halted. rewrite Hh1. reflexivity. }
  assert (Hpm2 : protocol_mgr fw2 = protocol_mgr fw1).
  { rewrite H2. cbn [protocol_mgr set_fsm].
    destruct (enter_keeps_store s
                (set_fsm (mk_FiniteStateMachine s s
                            (stateChangeTime (fsm fw1))
                            (needToTriggerEnter (fsm fw1))) fw1) Hs)
      as (-> & _). reflexivity. }
  assert (Hh2 : halted fw2 = None).
  { rewrite H2. cbn [halted set_fsm].
    destruct (enter_keeps_store s
                (set_fsm (mk_FiniteStateMachine s s
                            (stateChangeTime (fsm fw1))
                            (needToTriggerEnter (fsm fw1))) fw1) Hs)
      as (_ & -> & _). exact Hh1. }
  assert (Hcur2 : currentState (fsm fw2) = s).
  { rewrite H2. reflexivity. }
  assert (H' : fw' = update_state s now fw2).
  { subst fw'. unfold fsm_update. rewrite Htrig, Hcur, Hnext.
    destruct (State_eqb state_uploading s) eqn:He.
    { destruct s; try discriminate. contradiction. }
    fold fw2. unfold unless_halted, is_halted. rewrite Hh2, Hcur2.
    reflexivity. }
  split; [exists new; split; [exact H1 | exact Hcnt]|].
  split; [exact Hh1|]. split; [exact Hpos|].
  split.
  { intros t cp. unfold update. cbn [pos_ logged]. rewrite Hpos.
    reflexivity. }
  split; [exact Hpm2|]. split; [exact Hcur2|]. split; [exact H'|].
  split; [|exact Hh2].
  destruct (update_state_calls s now fw2 Hs) as (more & Hmore & Hcm).
  exists ((new ++ [Call_prime_start]) ++ more).
  split.
  - rewrite H', Hmore, Hpm2, H1, !app_assoc. reflexivity.
  - rewrite !count_prime_start_app, Hcnt, Hcm. reflexivity.
Qed.

Lemma update_state_store s now fw :
  s <> state_uploading ->
  name_ (protocol_mgr (update_state s now fw)) = name_ (protocol_mgr fw) /\
  program_ (protocol_mgr (update_state s now fw))
  = program_ (protocol_mgr fw) /\
  fsm (update_state s now fw) = fsm fw.
Proof.
  intros Hs. destruct s; try contradiction; try (cbn; auto; fail).
  cbn [update_state]. unfold FSM_fun_running__upd.
  destruct (update now (protocol_mgr fw) (cp_mgr fw)) as [[pm cp]|] eqn:Hu;
    [|cbn; auto].
  cbn [protocol_mgr fsm set_cp_mgr set_protocol_mgr].
  revert Hu. unfold update, activate. cbn.
  repeat case_match; intros [= <- <-]; cbn; auto.
Qed.

(** The first update of the Running state after [prime_start]: line 0 is
    activated. *)
Lemma running_update_activates now fw :
  pos_ (protocol_mgr fw) = None ->
  program_ (protocol_mgr fw) <> [] ->
  pos_ (protocol_mgr (FSM_fun_running__upd now fw)) = Some 0%nat /\
  halted (FSM_fun_running__upd now fw) = halted fw.
Proof.
  intros Hpos Hprog. unfold FSM_fun_running__upd, update, activate.
  cbn [pos_ program_ logged]. rewrite Hpos.
  destruct (program_ (protocol_mgr fw)) as [|tl l]; [contradiction|].
  cbn. auto.
Qed.

(** C6, as the code has it. An upload that has ended, successfully or
    not, has cleared the loading flag and requested the Off state; the
    exit function runs when the driver leaves the upload state, which is
    in the next pass of the loop, after the command dispatcher of that
    pass.  When the dispatcher leaves the firmware running with a state
    other than Uploading requested, the exit function calls [prime_start]
    exactly once, as its last call to the protocol manager, before the
    entry and update actions of the next state; the position is then
    unprimed, so that the next playback update activates line 0, and when
    the next state is Running the update of that same pass does so. *)
Theorem exit_primes_start_exactly_once now fw success s :
  upload_ended success fw ->
  fail_safe_ready ->
  let y := process_commands now fw in
  halted y = None ->
  nextState (fsm y) = s ->
  s <> state_uploading ->
  let fw1 := FSM_fun_uploading__ext y in
  let fw' := loop now fw in
  (exists new,
     calls_ (protocol_mgr fw1)
     = calls_ (protocol_mgr y) ++ new ++ [Call_prime_start] /\
     count_prime_start new = 0%nat) /\
  pos_ (protocol_mgr fw1) = None /\
  (forall t cp,
     update t (protocol_mgr fw1) cp
     = activate 0 t (logged Call_update (protocol_mgr fw1)) cp) /\
  (exists new',
     calls_ (protocol_mgr fw')
     = calls_ (protocol_mgr y) ++ new' /\
     count_prime_start new' = 1%nat) /\
  currentState (fsm fw') = s /\
  (s <> state_running -> protocol_mgr fw' = protocol_mgr fw1) /\
  (s = state_running -> program_ (protocol_mgr fw1) <> [] ->
   pos_ (protocol_mgr fw') = Some 0%nat /\ halted fw' = None).
Proof.
  intros (Hcur & _ & Htrig & _ & _ & Hh) Hready y Hy Hnext Hs fw1 fw'.
  destruct (process_commands_mode now fw) as (Hc & Ht & _).
  fold y in Hc, Ht. rewrite Hcur in Hc. rewrite Htrig in Ht.
  destruct (leave_upload_state now y s Hc Hnext Hs Ht Hy Hready)
    as (Hnew & _ & Hpos & Hupd & Hpm2 & Hcur2 & Hfu & Hnew' & Hh2).
  fold fw1 in Hnew, Hpos, Hupd, Hpm2.
  pose proof (loop_after_commands now fw Hh Hy) as Hv.
  fold y fw' in Hv. unfold upload_view in Hv.
  injection Hv as _ _ _ _ Hpm _ _ _ _ Hfsm _ _ _ _ Hhalt.
  set (fw2 := immediateTransitionTo s now y) in *.
  destruct (update_state_store s now fw2 Hs) as (_ & Hprog2 & Hfsm2).
  split; [exact Hnew|]. split; [exact Hpos|]. split; [exact Hupd|].
  split; [rewrite Hpm; exact Hnew'|].
  split; [rewrite Hfsm, Hfu, Hfsm2; exact Hcur2|].
  split.
  - intros Hrun. rewrite Hpm, Hfu, <- Hpm2.
    destruct s; try contradiction; reflexivity.
  - intros -> Hprog. rewrite Hpm, Hhalt, Hfu. cbn [update_state].
    destruct (running_update_activates now fw2) as (Hp & Hh').
    + rewrite Hpm2. exact Hpos.
    + rewrite Hpm2. exact Hprog.
    + split; [exact Hp|]. rewrite Hh'. exact Hh2.
Qed.

(** ** A whole upload *)

Ltac simpl_fw :=
  cbn [bin_buf safety__allow_jetting_pump_to_run override_pump_safety
       alive_blinker_hue cp_mgr protocol_mgr loading_program loading_stage
       loading_successful promised_N_lines fsm toggler every_cmd every_pulse
       pin_safety_pulse_out serial_out sc bsc halted
       set_bin_buf set_safety__allow_jetting_pump_to_run
       set_override_pump_safety set_alive_blinker_hue set_cp_mgr
       set_protocol_mgr set_loading_program set_loading_stage
       set_loading_successful set_promised_N_lines set_fsm set_toggler
       set_every_cmd set_every_pulse set_pin_safety_pulse_out set_serial_out
       set_sc set_bsc set_halted
       println emit transitionTo halt fault
       currentState nextState stateChangeTime needToTriggerEnter].

Section Upload_run.

Variables (t0 : Z) (name cnt : string) (total : Z).
Variables (eop : list byte) (more : list BscPoll).
Hypothesis promise_fits : u16 (atoi cnt) <= PROTOCOL_MAX_LINES.
Hypothesis total_fits : total <= PROTOCOL_MAX_LINES.

Local Abbreviation Receiving := (Receiving t0 name cnt total eop more).
Local Abbreviation Ended := (Ended name cnt total).

Lemma cmds_cons_inv polls c rest :
  cmds polls = c :: rest ->
  exists a r, polls = a :: r /\
    ((a = None /\ cmds r = c :: rest) \/ (a = Some c /\ cmds r = rest)).
Proof.
  destruct polls as [|[c'|] r]; [discriminate| |].
  - intros [= -> <-]. eauto 6.
  - intros H. exists None, r. auto.
Qed.

Lemma arriving_cons_inv polls todo :
  arriving polls = map frame_of todo ++ Bsc_frame eop 0 :: more ->
  exists a r, polls = a :: r /\
    ((a = Bsc_idle /\
      arriving r = map frame_of todo ++ Bsc_frame eop 0 :: more) \/
     (todo = [] /\ a = Bsc_frame eop 0 /\ arriving r = more) \/
     (exists f todo', todo = f :: todo' /\ a = frame_of f /\
        arriving r = map frame_of todo' ++ Bsc_frame eop 0 :: more)).
Proof.
  destruct polls as [|a r].
  - destruct todo; discriminate.
  - intros H. exists a, r. split; [reflexivity|].
    destruct a as [| |b l]; cbn [arriving] in H.
    + auto.
    + destruct todo; discriminate.
    + destruct todo as [|f todo']; cbn [map app] in H.
      * injection H as -> -> Hr. right. left. auto.
      * injection H as -> -> Hr. right. right.
        exists f, todo'. destruct f. auto.
Qed.

Lemma stage_0_step todo fw :
  Receiving todo fw ->
  exists fw1,
    upd_stage_0 fw = Next fw1 /\ Receiving todo fw1 /\
    (polls_left fw1 <= polls_left fw)%nat /\
    (loading_stage fw = 0 -> (polls_left fw1 < polls_left fw)%nat).
Proof.
  intros HR.
  destruct HR as [rest Hup Ht Hs Hp Hn Hc Ha | rest Hup Ht Hs | Hup Ht Hs].
  2,3: exists fw; rewrite stage_0_skip by lia;
       (split; [reflexivity|]); (split; [econstructor; eassumption|]);
       split; [lia|intros; lia].
  unfold upd_stage_0, sc_available. rewrite Hs. cbn [Z.eqb].
  destruct (cmds_cons_inv _ _ _ Hc) as (a & r & Hsc & [[-> Hr]|[-> Hr]]);
    rewrite Hsc.
  - eexists. split; [reflexivity|]. split.
    + eapply Rcv_name; cbn; eauto.
    + unfold polls_left. cbn. rewrite Hsc. cbn. split; [lia|intros; lia].
  - eexists. split; [reflexivity|]. split.
    + eapply Rcv_count; cbn; eauto. rewrite Hs. reflexivity.
    + unfold polls_left. cbn. rewrite Hsc. cbn. split; [lia|intros; lia].
Qed.

Lemma stage_1_step todo fw :
  Receiving todo fw ->
  exists fw1,
    upd_stage_1 fw = Next fw1 /\ Receiving todo fw1 /\
    (polls_left fw1 <= polls_left fw)%nat /\
    (loading_stage fw = 1 -> (polls_left fw1 < polls_left fw)%nat).
Proof.
  intros HR.
  destruct HR as [rest Hup Ht Hs | rest Hup Ht Hs Hp Hn Hnm Hc Ha | Hup Ht Hs].
  1,3: exists fw; rewrite stage_1_skip by lia;
       (split; [reflexivity|]); (split; [econstructor; eassumption|]);
       split; [lia|intros; lia].
  unfold upd_stage_1, sc_available. rewrite Hs. cbn [Z.eqb Pos.eqb].
  destruct (cmds_cons_inv _ _ _ Hc) as (a & r & Hsc & [[-> Hr]|[-> Hr]]);
    rewrite Hsc.
  - eexists. split; [reflexivity|]. split.
    + eapply Rcv_count; cbn; eauto.
    + unfold polls_left. cbn. rewrite Hsc. cbn. split; [lia|intros; lia].
  - cbn [promised_N_lines set_promised_N_lines].
    destruct (Z.gtb_spec (u16 (atoi cnt)) PROTOCOL_MAX_LINES); [lia|].
    eexists. split; [reflexivity|]. split.
    + eapply Rcv_lines; cbn; eauto.
      * rewrite Hs. reflexivity.
      * unfold get_N_lines. rewrite Hp. cbn. lia.
    + unfold polls_left. cbn. rewrite Hsc. cbn. split; [lia|intros; lia].
Qed.

Lemma stage_2_step todo fw :
  Receiving todo fw ->
  Forall valid_frame todo ->
  (exists fw1 todo',
     upd_stage_2 fw = Next fw1 /\ Receiving todo' fw1 /\
     Forall valid_frame todo' /\
     (polls_left fw1 <= polls_left fw)%nat /\
     (loading_stage fw = 2 -> (polls_left fw1 < polls_left fw)%nat)) \/
  (exists fw1, upd_stage_2 fw = Return fw1 /\ Ended fw1).
Proof.
  intros HR Hvalid.
  destruct HR as [rest Hup Ht Hs | rest Hup Ht Hs | Hup Ht Hs Hn Hnm Hpr Ha].
  1,2: left; exists fw, todo; rewrite stage_2_skip by lia;
       (split; [reflexivity|]); (split; [econstructor; eassumption|]);
       (split; [assumption|]); split; [lia|intros; lia].
  destruct (arriving_cons_inv _ _ Ha)
    as (a & r & Hb & [[-> Hr]|[(-> & -> & Hr)|(f & todo' & -> & -> & Hr)]]).
  - left. unfold upd_stage_2, bsc_available. rewrite Hs, Hb.
    cbn [Z.eqb Pos.eqb].
    eexists _, todo. split; [reflexivity|]. split.
    + eapply Rcv_lines; cbn; eauto.
    + split; [assumption|]. unfold polls_left. cbn. rewrite Hb. cbn.
      split; [lia|intros; lia].
  - right. unfold upd_stage_2, bsc_available. rewrite Hs, Hb.
    cbn [Z.eqb Pos.eqb].
    cbn [protocol_mgr set_bin_buf set_bsc promised_N_lines].
    cbn [length] in Hn. rewrite Z.add_0_r in Hn. rewrite Hn, Hpr.
    destruct Hup as (Hcur & Hnext & Htrig & Hload & Hsucc & Hhalt).
    unfold Ended, upload_ended.
    destruct (Z.eqb_spec total (u16 (atoi cnt))) as [He|Hne]; cbn [negb];
      (eexists; split; [reflexivity|]); simpl_fw;
      rewrite last_snoc; auto 10.
  - left. apply Forall_cons in Hvalid as [[Hlen [pl Hpl]] Hvalid].
    cbn [length] in Hn.
    assert (Hroom : get_N_lines (protocol_mgr fw) <> PROTOCOL_MAX_LINES)
      by lia.
    destruct (add_line_appends (parse_line f.1 f.2) (protocol_mgr fw) pl
                Hroom Hpl) as (pm' & Hadd & Hprog & Hname & _).
    rewrite (stage_2_frame fw f.1 f.2 r Hs Hb) by lia.
    rewrite Hadd.
    eexists _, todo'. split; [reflexivity|]. split.
    + eapply Rcv_lines; cbn; eauto; try congruence.
      unfold get_N_lines in *. rewrite Hprog, length_app. cbn. lia.
    + split; [assumption|]. unfold polls_left. cbn. rewrite Hb. cbn.
      split; [lia|intros; lia].
Qed.

Lemma Receiving_uploading todo fw : Receiving todo fw -> uploading fw.
Proof. destruct 1; assumption. Qed.

Lemma Receiving_time todo fw :
  Receiving todo fw -> stateChangeTime (fsm fw) = t0.
Proof. destruct 1; assumption. Qed.

Lemma Receiving_stage todo fw :
  Receiving todo fw ->
  loading_stage fw = 0 \/ loading_stage fw = 1 \/ loading_stage fw = 2.
Proof. destruct 1; auto. Qed.

Lemma Receiving_polls_left todo fw :
  Receiving todo fw -> (0 < polls_left fw)%nat.
Proof.
  unfold polls_left.
  destruct 1 as [rest _ _ _ _ _ Hc _ | rest _ _ _ _ _ _ Hc _ | _ _ _ _ _ _ Ha].
  - destruct (cmds_cons_inv _ _ _ Hc) as (a & r & -> & _). cbn. lia.
  - destruct (cmds_cons_inv _ _ _ Hc) as (a & r & -> & _). cbn. lia.
  - destruct (arriving_cons_inv _ _ Ha) as (a & r & -> & _). cbn. lia.
Qed.

(** One call of the update function within the deadline. *)
Lemma upd_tick now todo fw :
  Receiving todo fw ->
  Forall valid_frame todo ->
  u32 (now - t0) <= LOADING_TIMEOUT ->
  Ended (FSM_fun_uploading__upd now fw) \/
  (exists todo',
     Receiving todo' (FSM_fun_uploading__upd now fw) /\
     Forall valid_frame todo' /\
     (polls_left (FSM_fun_uploading__upd now fw) < polls_left fw)%nat).
Proof.
  intros HR Hvalid Hnow.
  rewrite upd_unfold. unfold upd_stages.
  destruct (stage_0_step todo fw HR) as (fa & Ha & HRa & Hla & Hsa).
  rewrite Ha. cbn [and_then].
  destruct (stage_1_step todo fa HRa) as (fb & Hb & HRb & Hlb & Hsb).
  rewrite Hb. cbn [and_then].
  destruct (stage_2_step todo fb HRb Hvalid)
    as [(fc & todo' & Hc & HRc & Hvc & Hlc & Hsc)|(fc & Hc & Hend)];
    rewrite Hc.
  - cbn [and_then]. right. exists todo'.
    destruct (timeout_result now fc) as [[-> _]|[_ Hlate]].
    + cbn [finish]. split; [assumption|]. split; [assumption|].
      destruct (Receiving_stage todo fw HR) as [H0|[H1|H2]].
      * specialize (Hsa H0). lia.
      * rewrite stage_0_skip in Ha by lia. injection Ha as <-.
        specialize (Hsb H1). lia.
      * rewrite stage_0_skip in Ha by lia. injection Ha as <-.
        rewrite stage_1_skip in Hb by lia. injection Hb as <-.
        specialize (Hsc H2). lia.
    + unfold timeInCurrentState in Hlate.
      rewrite (Receiving_time _ _ HRc) in Hlate. lia.
  - cbn [and_then finish]. left. exact Hend.
Qed.

Lemma upload_view_Receiving todo a b :
  upload_view a = upload_view b -> Receiving todo a -> Receiving todo b.
Proof.
  unfold upload_view. intros [= ? ? ? ? ? ? ? ? ? ? ? ? ? ? ?] HR.
  destruct HR as [rest Hup|rest Hup|Hup];
    [eapply Rcv_name with (rest := rest)
    |eapply Rcv_count with (rest := rest)
    |eapply Rcv_lines]; unfold uploading in *; try congruence;
    repeat split; intuition congruence.
Qed.

Lemma upload_view_Ended a b :
  upload_view a = upload_view b -> Ended a -> Ended b.
Proof.
  unfold upload_view, Ended, upload_ended.
  intros [= ? ? ? ? ? ? ? ? ? ? ? ? ? ? ?] HE.
  repeat split; intuition congruence.
Qed.

Lemma upload_view_polls_left a b :
  upload_view a = upload_view b -> polls_left a = polls_left b.
Proof.
  unfold upload_view, polls_left.
  intros [= ? ? ? ? ? ? ? ? ? ? ? ? ? ? ?]. congruence.
Qed.

Lemma loop_uploading now fw :
  uploading fw ->
  halted (FSM_fun_uploading__upd now fw) = None ->
  upload_view (loop now fw) = upload_view (FSM_fun_uploading__upd now fw).
Proof.
  intros (Hcur & Hnext & Htrig & Hload & Hsucc & Hhalt) Hh.
  unfold loop, unless_halted at 1. unfold is_halted at 1. rewrite Hhalt.
  rewrite (process_commands_loading now fw Hload).
  unfold unless_halted at 1. unfold is_halted at 1. rewrite Hhalt.
  assert (Hf : fsm_update now fw = FSM_fun_uploading__upd now fw).
  { unfold fsm_update. rewrite Htrig, Hcur, Hnext. cbn [State_eqb].
    unfold unless_halted, is_halted. rewrite Hhalt, Hcur. reflexivity. }
  rewrite Hf. unfold unless_halted, is_halted. rewrite Hh.
  apply safety_section_upload_view.
Qed.

Lemma Ended_halted fw : Ended fw -> halted fw = None.
Proof. intros ((_ & _ & _ & _ & _ & H) & _). exact H. Qed.

Lemma Receiving_halted todo fw : Receiving todo fw -> halted fw = None.
Proof.
  intros HR. apply Receiving_uploading in HR.
  destruct HR as (_ & _ & _ & _ & _ & H). exact H.
Qed.

(** One pass of the loop within the deadline. *)
Lemma loop_tick now todo fw :
  Receiving todo fw ->
  Forall valid_frame todo ->
  u32 (now - t0) <= LOADING_TIMEOUT ->
  Ended (loop now fw) \/
  (exists todo',
     Receiving todo' (loop now fw) /\
     Forall valid_frame todo' /\
     (polls_left (loop now fw) < polls_left fw)%nat).
Proof.
  intros HR Hvalid Hnow.
  pose proof (Receiving_uploading _ _ HR) as Hup.
  destruct (upd_tick now todo fw HR Hvalid Hnow)
    as [Hend|(todo' & HR' & Hv' & Hlt)].
  - left. pose proof (loop_uploading now fw Hup (Ended_halted _ Hend)) as Hv.
    eapply upload_view_Ended; [symmetry; exact Hv | exact Hend].
  - right. exists todo'.
    pose proof (loop_uploading now fw Hup (Receiving_halted _ _ HR')) as Hv.
    split; [eapply upload_view_Receiving; [symmetry; exact Hv | exact HR']|].
    split; [assumption|].
    rewrite (upload_view_polls_left _ _ Hv). exact Hlt.
Qed.

Lemma run_upload_done ticks fw :
  loading_program fw = false -> run_upload ticks fw = fw.
Proof. intros H. destruct ticks; cbn; rewrite ?H; reflexivity. Qed.

(** Given as many passes as there are polls, all within the deadline, the
    upload runs to its end on the end-of-program frame. *)
Lemma upload_run ticks : forall todo fw,
  Receiving todo fw ->
  Forall valid_frame todo ->
  Forall (fun now => u32 (now - t0) <= LOADING_TIMEOUT) ticks ->
  (polls_left fw <= length ticks)%nat ->
  Ended (run_upload ticks fw).
Proof.
  induction ticks as [|now ticks IH]; intros todo fw HR Hvalid Hticks Hlen.
  - pose proof (Receiving_polls_left _ _ HR). cbn in Hlen. lia.
  - apply Forall_cons in Hticks as [Hnow Hticks].
    pose proof (Receiving_uploading _ _ HR) as (_ & _ & _ & Hload & _).
    cbn [run_upload]. rewrite Hload.
    destruct (loop_tick now todo fw HR Hvalid Hnow)
      as [Hend|(todo' & HR' & Hv' & Hlt)].
    + rewrite run_upload_done; [exact Hend|].
      destruct Hend as ((_ & _ & _ & H & _) & _). exact H.
    + eapply IH; eauto. cbn in Hlen. lia.
Qed.

(** The pass of the loop that takes the [upload] command: the driver enters
    the upload state and runs its first update in the same pass. *)
Lemma upload_command_pass fw polls rest frames :
  halted fw = None ->
  loading_program fw = false ->
  needToTriggerEnter (fsm fw) = false ->
  currentState (fsm fw) <> state_uploading ->
  (every_n_millis 10 t0 (every_cmd fw)).1 = true ->
  sc fw = Some "upload"%string :: polls ->
  cmds polls = name :: cnt :: rest ->
  Z.of_nat (length frames) = total ->
  arriving (bsc fw) = map frame_of frames ++ Bsc_frame eop 0 :: more ->
  Forall valid_frame frames ->
  Ended (loop t0 fw) \/
  (exists todo',
     Receiving todo' (loop t0 fw) /\
     Forall valid_frame todo' /\
     (polls_left (loop t0 fw) < length polls + length (bsc fw))%nat).
Proof.
  intros Hh Hload Htrig Hcur Hdue Hsc Hc Htot Ha Hvalid.
  destruct (every_n_millis 10 t0 (every_cmd fw)) as [due t] eqn:Ht.
  cbn [fst] in Hdue. subst due.
  set (x1 := transitionTo state_uploading (set_sc polls (set_every_cmd t fw))).
  assert (Hpc : process_commands t0 fw = x1).
  { unfold process_commands, sc_available. rewrite Hload, Ht.
    cbn [negb sc set_every_cmd]. rewrite Hsc. reflexivity. }
  set (fw_e :=
         set_fsm (mk_FiniteStateMachine state_uploading state_uploading t0
                    false)
           (FSM_fun_uploading__ent x1)).
  assert (Hfu : fsm_update t0 x1 = FSM_fun_uploading__upd t0 fw_e).
  { unfold fsm_update. subst x1. simpl_fw. rewrite Htrig.
    unfold immediateTransitionTo, unless_halted, is_halted. simpl_fw.
    destruct (currentState (fsm fw)); try contradiction;
      cbn [State_eqb exit_state]; simpl_fw; rewrite Hh;
      cbn [enter]; unfold FSM_fun_uploading__ent; simpl_fw;
      rewrite Htrig, Hh; reflexivity. }
  assert (HR : Receiving frames fw_e).
  { eapply Rcv_name with (rest := rest); subst fw_e x1;
      unfold uploading, FSM_fun_uploading__ent; simpl_fw; auto 10. }
  assert (Hpl : polls_left fw_e = (length polls + length (bsc fw))%nat)
    by reflexivity.
  assert (Hnow : u32 (t0 - t0) <= LOADING_TIMEOUT).
  { rewrite Z.sub_diag. vm_compute. discriminate. }
  assert (Hloop : halted (FSM_fun_uploading__upd t0 fw_e) = None ->
                  upload_view (loop t0 fw)
                  = upload_view (FSM_fun_uploading__upd t0 fw_e)).
  { intros Hh'. unfold loop, unless_halted at 1. unfold is_halted at 1.
    rewrite Hh, Hpc. unfold unless_halted at 1. unfold is_halted at 1.
    replace (halted x1) with (@None Fault) by (symmetry; exact Hh).
    rewrite Hfu. unfold unless_halted, is_halted. rewrite Hh'.
    apply safety_section_upload_view. }
  destruct (upd_tick t0 frames fw_e HR Hvalid Hnow)
    as [Hend|(todo' & HR' & Hv' & Hlt)].
  - left. eapply upload_view_Ended; [|exact Hend].
    symmetry. apply Hloop, Ended_halted, Hend.
  - right. exists todo'.
    pose proof (Hloop (Receiving_halted _ _ HR')) as Hv.
    split; [eapply upload_view_Receiving; [symmetry; exact Hv | exact HR']|].
    split; [assumption|].
    rewrite (upload_view_polls_left _ _ Hv), <- Hpl. exact Hlt.
Qed.

(** From the [upload] command to the end of the upload. *)
Lemma upload_session ticks fw polls rest frames :
  halted fw = None ->
  loading_program fw = false ->
  needToTriggerEnter (fsm fw) = false ->
  currentState (fsm fw) <> state_uploading ->
  (every_n_millis 10 t0 (every_cmd fw)).1 = true ->
  sc fw = Some "upload"%string :: polls ->
  cmds polls = name :: cnt :: rest ->
  Z.of_nat (length frames) = total ->
  arriving (bsc fw) = map frame_of frames ++ Bsc_frame eop 0 :: more ->
  Forall valid_frame frames ->
  Forall (fun now => u32 (now - t0) <= LOADING_TIMEOUT) ticks ->
  (polls_left fw <= length ticks)%nat ->
  Ended (run_upload ticks (loop t0 fw)).
Proof.
  intros Hh Hload Htrig Hcur Hdue Hsc Hc Htot Ha Hvalid Hticks Hlen.
  destruct (upload_command_pass fw polls rest frames Hh Hload Htrig Hcur
              Hdue Hsc Hc Htot Ha Hvalid)
    as [Hend|(todo' & HR' & Hv' & Hlt)].
  - rewrite run_upload_done; [exact Hend|].
    destruct Hend as ((_ & _ & _ & H & _) & _). exact H.
  - eapply upload_run; eauto.
    unfold polls_left in Hlen at 1. rewrite Hsc in Hlen. cbn in Hlen. lia.
Qed.

End Upload_run.

(** ** The fail-safe line *)

Lemma fill_valves_spec fuel : forall idx pts,
  1 <= idx <= N_VALVES + 1 ->
  N_VALVES < 255 ->
  (Z.to_nat (N_VALVES + 1 - idx) < fuel)%nat ->
  (Z.to_nat N_VALVES <= length pts)%nat ->
  exists pts',
    fill_valves fuel idx pts = Some pts' /\
    length pts' = length pts /\
    (forall v, idx <= v <= N_VALVES ->
       pts' !! Z.to_nat (v - 1) = Some (valve2p v)) /\
    (forall j, (j < Z.to_nat (idx - 1))%nat -> pts' !! j = pts !! j) /\
    (forall j, (Z.to_nat N_VALVES <= j)%nat -> pts' !! j = pts !! j).
Proof.
  induction fuel as [|fuel IH]; intros idx pts Hidx Hn Hfuel Hlen; [lia|].
  cbn [fill_valves].
  destruct (Z.leb_spec idx N_VALVES) as [Hle|Hgt].
  - assert (Hu8 : u8 (idx + 1) = idx + 1).
    { unfold u8, wrap. change (2 ^ 8) with 256. apply Z.mod_small. lia. }
    rewrite Hu8.
    destruct (IH (idx + 1) (<[Z.to_nat (idx - 1) := valve2p idx]> pts))
      as (pts' & -> & Hl & Hv & Hlo & Hhi);
      [lia | lia | lia | rewrite length_insert; lia |].
    exists pts'. split; [reflexivity|].
    rewrite length_insert in Hl. split; [exact Hl|].
    split; [|split].
    + intros v Hv'. destruct (decide (v = idx)) as [->|Hne].
      * rewrite Hlo by lia. apply list_lookup_insert_eq. lia.
      * apply Hv. lia.
    + intros j Hj. rewrite Hlo by lia.
      apply list_lookup_insert_ne. lia.
    + intros j Hj. rewrite Hhi by lia.
      apply list_lookup_insert_ne. lia.
  - exists pts. repeat split; auto. intros v Hv. lia.
Qed.

Lemma all_valves_open_line_spec line :
  all_valves_open_line = Some line ->
  0 <= N_VALVES < 255 ->
  (Z.to_nat N_VALVES <= MAX_POINTS_PER_LINE)%nat ->
  duration line = 1000 /\
  (forall v, 1 <= v <= N_VALVES ->
     points line !! Z.to_nat (v - 1) = Some (valve2p v)) /\
  points line !! Z.to_nat N_VALVES = Some (mk_P P_NULL_VAL P_NULL_VAL).
Proof.
  unfold all_valves_open_line. intros Hline Hn Hfit.
  assert (Hlen : length (points Line_new) = S MAX_POINTS_PER_LINE).
  { unfold Line_new. cbn [points]. apply length_replicate. }
  destruct (fill_valves_spec 256 1 (points Line_new))
    as (pts' & Hfill & Hl & Hv & _ & Hhi); [lia | lia | lia | lia |].
  rewrite Hfill in Hline. injection Hline as <-. cbn [duration points].
  split; [reflexivity|]. split.
  - intros v Hv'. rewrite list_lookup_alter_ne by lia. apply Hv. lia.
  - rewrite list_lookup_alter_eq.
    destruct (lookup_lt_is_Some_2 pts' (Z.to_nat N_VALVES)) as [p ->];
      [lia|]. reflexivity.
Qed.

(** ** Uploads that reach the end-of-program frame *)



End Firmware_properties.

(** * The properties on the bench configuration *)

Lemma bench_fail_safe_ready : fail_safe_ready (platform := bench).
Proof.
  exists bench_fail_safe_line, bench_fail_safe_packed.
  split; vm_compute; reflexivity.
Qed.

Example atoi_of_tokens :
  atoi "42" = 42 /\ atoi "  -12x" = -12 /\ atoi "+7" = 7 /\ atoi "abc" = 0.
Proof. repeat split. Qed.

(** The count is kept in 16 bits. *)
Example count_token_is_reduced : u16 (atoi "70000") = 4464.
Proof. reflexivity. Qed.

Example frame_of_two_points :
  let line := parse_line (platform := bench) bench_frame_2 4 in
  duration line = 300 /\
  active_points (points line) = [mk_P 1 1; mk_P 2 2].
Proof. vm_compute. split; reflexivity. Qed.

(** The scenario of the specification: name [Test], two lines, the first of
    500 ms with the point (0, 0), the second of 300 ms with (1, 1) and
    (2, 2). *)
Example upload_of_two_lines :
  let fw :=
    run (platform := bench) [20; 30; 40; 50; 60]
      (bench_entered "2"
         [Bsc_idle; Bsc_frame bench_frame_1 3; Bsc_frame bench_frame_2 4;
          Bsc_frame bench_frame_eop 0]) in
  serial_out fw
  = [Println "Test"; Println "2"; Println "Success!"] /\
  name_ (protocol_mgr fw) = "Test"%string /\
  get_N_lines (protocol_mgr fw) = 2 /\
  map time (program_ (protocol_mgr fw)) = [500; 300] /\
  pos_ (protocol_mgr fw) = None /\
  currentState (fsm fw) = state_off /\
  safety__allow_jetting_pump_to_run fw = false.
Proof. vm_compute. repeat split. Qed.

(** An upload that is given a name and a count and then nothing: the pass
    at 4011 ms, 4001 ms after the upload state was entered, prints the
    time-out error. *)
Example upload_without_frames :
  let fw :=
    run (platform := bench) [0; 10; 2000; 4010; 4011]
      (setup (platform := bench)
         [Some "upload"%string; Some "Test"%string; Some "3"%string] []) in
  serial_out fw
  = [Println "Test"; Println "3";
     Println "ERROR: Loading in protocol program timed out."] /\
  loading_program fw = false /\
  nextState (fsm fw) = state_off.
Proof. vm_compute. repeat split. Qed.

Lemma pump_enable_iff_override_or_actuated_witness :
  is_halted (loop (platform := bench) 16 bench_override_on) = false /\
  let fw' := loop (platform := bench) 16 bench_override_on in
  (safety__allow_jetting_pump_to_run fw' = true <->
   override_pump_safety fw' = true \/
   aggregate_actuation_mask (cp_mgr fw') <> 0) /\
  (override_pump_safety fw' = false ->
   Forall (fun m => m = 0) (committed_ (cp_mgr fw')) ->
   safety__allow_jetting_pump_to_run fw' = false).
Proof.
  split; [reflexivity|].
  apply (pump_enable_iff_override_or_actuated (platform := bench) 16
           bench_override_on).
  reflexivity.
Defined.

(** C2, counterexample. The override is switched on, a pulse drives the
    line high, the override is switched off with every valve closed: the
    pump-enable flag, true one tick before, is now false, and the line is
    high and stays high. *)
Lemma pulse_line_left_high :
  let fw := bench_override_on in
  let fw' := loop (platform := bench) 20 fw in
  safety__allow_jetting_pump_to_run fw = true /\
  safety__allow_jetting_pump_to_run fw' = false /\
  pin_safety_pulse_out fw' = true /\
  pin_safety_pulse_out (run (platform := bench) [25; 30; 1000] fw') = true /\
  ~ (safety__allow_jetting_pump_to_run fw' = false ->
     pin_safety_pulse_out fw' = false).
Proof.
  vm_compute. repeat split. intros H. specialize (H eq_refl). discriminate.
Qed.

Lemma pulse_line_keeps_level_when_disabled_witness :
  safety__allow_jetting_pump_to_run
    (loop (platform := bench) 20 bench_override_on) = false /\
  pin_safety_pulse_out (loop (platform := bench) 20 bench_override_on)
  = pin_safety_pulse_out bench_override_on /\
  toggler (loop (platform := bench) 20 bench_override_on)
  = toggler bench_override_on.
Proof.
  split; [reflexivity|].
  apply (pulse_line_keeps_level_when_disabled (platform := bench) 20
           bench_override_on).
  reflexivity.
Defined.

Ltac bench_eval := vm_compute; repeat split; try reflexivity; try discriminate.







(** C6, counterexample. An upload of one line succeeds; the commands
    [upload] and [p?] are waiting.  The pass after the success message
    takes [upload], which requests the state the machine is in, so the
    exit function does not run; the pass after that serves [p?].  The
    firmware is back in normal operation, two commands have been served,
    and [prime_start] has not been called. *)
Lemma commands_served_before_prime_start :
  let fw :=
    run (platform := bench) [0; 10; 20]
      (setup (platform := bench)
         [Some "upload"%string; Some "Test"%string; Some "1"%string;
          Some "upload"%string; Some "p?"%string]
         [Bsc_frame bench_frame_1 3; Bsc_frame bench_frame_eop 0]) in
  let fw1 := loop (platform := bench) 30 fw in
  let fw2 := loop (platform := bench) 40 fw1 in
  upload_ended true fw /\
  serial_out fw = [Println "Test"; Println "1"; Println "Success!"] /\
  sc fw1 = [Some "p?"%string] /\
  serial_out fw2 = serial_out fw ++ [Print_program] /\
  loading_program fw2 = false /\
  halted fw2 = None /\
  currentState (fsm fw2) = state_uploading /\
  count_prime_start (calls_ (protocol_mgr fw2)) = 0%nat.
Proof. vm_compute. repeat split. Qed.

Lemma exit_primes_start_exactly_once_witness :
  let fw :=
    run (platform := bench) [0; 10; 20; 30]
      (setup (platform := bench)
         [Some "upload"%string; Some "Test"%string; Some "3"%string;
          Some "play"%string]
         [Bsc_frame bench_frame_1 3; Bsc_frame bench_frame_2 4;
          Bsc_frame bench_frame_eop 0]) in
  let y := process_commands (platform := bench) 40 fw in
  let fw1 := FSM_fun_uploading__ext (platform := bench) y in
  let fw' := loop (platform := bench) 40 fw in
  upload_ended false fw /\
  halted y = None /\
  nextState (fsm y) = state_running /\
  program_ (protocol_mgr fw1) <> [] /\
  (exists new,
     calls_ (protocol_mgr fw1)
     = calls_ (protocol_mgr y) ++ new ++ [Call_prime_start] /\
     count_prime_start new = 0%nat) /\
  pos_ (protocol_mgr fw1) = None /\
  (exists new',
     calls_ (protocol_mgr fw')
     = calls_ (protocol_mgr y) ++ new' /\
     count_prime_start new' = 1%nat) /\
  currentState (fsm fw') = state_running /\
  pos_ (protocol_mgr fw') = Some 0%nat /\
  halted fw' = None /\
  count_prime_start (calls_ (protocol_mgr fw')) = 1%nat /\
  name_ (protocol_mgr fw') = "All valves open"%string /\
  committed_ (cp_mgr fw')
  = line_masks (Platform := bench) bench_fail_safe_packed /\
  all_masks_are_zero (cp_mgr fw') = false.
Proof.
  intros fw y fw1 fw'.
  assert (Hend : upload_ended false fw) by bench_eval.
  assert (Hy : halted y = None) by (vm_compute; reflexivity).
  assert (Hnext : nextState (fsm y) = state_running)
    by (vm_compute; reflexivity).
  assert (Hs : state_running <> state_uploading) by discriminate.
  assert (Hprog : program_ (protocol_mgr fw1) <> [])
    by (vm_compute; discriminate).
  destruct (exit_primes_start_exactly_once (platform := bench) 40 fw false
              state_running Hend bench_fail_safe_ready Hy Hnext Hs)
    as (Hnew & Hpos & _ & Hnew' & Hcur & _ & Hrun).
  split; [exact Hend|]. split; [exact Hy|]. split; [exact Hnext|].
  split; [exact Hprog|]. split; [exact Hnew|]. split; [exact Hpos|].
  split; [exact Hnew'|]. split; [exact Hcur|].
  destruct (Hrun eq_refl Hprog) as (Hp0 & Hh').
  split; [exact Hp0|]. split; [exact Hh'|].
  vm_compute. repeat split.
Defined.


(** C8, counterexample. An upload promises 5000 lines and 5000 frames
    have been stored: the store is full.  One more non-empty frame arrives:
    it is taken and parsed, but the store is afterwards what it was, and
    nothing is reported; the end-of-program frame then finds 5000 lines
    and the upload prints the success message. *)
Lemma frame_dropped_by_full_store :
  let fw := bench_full (Bsc_frame bench_frame_2 4) in
  let fw' := loop (platform := bench) 3760 fw in
  let fw'' := loop (platform := bench) 3770 fw' in
  uploading fw /\
  loading_stage fw = 2 /\
  get_N_lines (protocol_mgr fw) = 5000 /\
  bsc fw = [Bsc_frame bench_frame_2 4; Bsc_frame bench_frame_eop 0] /\
  bsc fw' = [Bsc_frame bench_frame_eop 0] /\
  bin_buf fw' = bench_frame_2 /\
  program_ (protocol_mgr fw') = program_ (protocol_mgr fw) /\
  serial_out fw' = serial_out fw /\
  uploading fw' /\
  last (serial_out fw'') = Some (Println "Success!").
Proof. vm_compute. repeat split. Qed.

Lemma frame_decodes_to_line_witness :
  let fw := bench_receiving [Bsc_frame bench_frame_2 4] in
  let line := parse_line (platform := bench) bench_frame_2 4 in
  let fw' := FSM_fun_uploading__upd (platform := bench) 20 fw in
  and_then (upd_stage_0 fw) (upd_stage_1 (platform := bench)) = Next fw /\
  loading_stage fw = 2 /\
  bsc fw = [Bsc_frame bench_frame_2 4] /\
  0 < 4 /\
  (Z.to_nat (4 - 2) <= MAX_POINTS_PER_LINE (Platform := bench))%nat /\
  get_N_lines (protocol_mgr fw) <> PROTOCOL_MAX_LINES (Platform := bench) /\
  duration line = 300 /\
  points line !! 0%nat = Some (mk_P 1 1) /\
  points line !! 1%nat = Some (mk_P 2 2) /\
  points line !! 2%nat = Some (mk_P (-128) (-128)) /\
  program_ (protocol_mgr fw')
  = [mk_PackedTimeLine 300
       [0; 0; 0; 0; 0; 0; 0; 0; 256; 512; 0; 0; 0; 0; 0]] /\
  halted fw' = None.
Proof.
  intros fw line fw'.
  assert (H01 : and_then (upd_stage_0 fw) (upd_stage_1 (platform := bench))
                = Next fw) by reflexivity.
  assert (Hs : loading_stage fw = 2) by reflexivity.
  assert (Hb : bsc fw = [Bsc_frame bench_frame_2 4]) by reflexivity.
  assert (Hlen : 0 < 4) by reflexivity.
  assert (Hfit : (Z.to_nat (4 - 2)
                  <= MAX_POINTS_PER_LINE (Platform := bench))%nat)
    by (cbn; lia).
  assert (Hne : get_N_lines (protocol_mgr fw)
                <> PROTOCOL_MAX_LINES (Platform := bench))
    by (vm_compute; discriminate).
  destruct (frame_decodes_to_line (platform := bench) 20 fw fw bench_frame_2
              4 [] H01 Hs Hb Hlen Hfit) as (Hd & Hp & Hn & _ & Happ & _).
  split; [exact H01|]. split; [exact Hs|]. split; [exact Hb|].
  split; [exact Hlen|]. split; [exact Hfit|]. split; [exact Hne|].
  split; [exact (Hd x01 x2c eq_refl eq_refl)|].
  split; [exact (Hp 0%nat x88 (Nat.lt_0_succ 1) eq_refl)|].
  split; [exact (Hp 1%nat x99 (Nat.lt_succ_diag_r 1) eq_refl)|].
  split; [exact Hn|].
  exact (Happ Hne [0; 0; 0; 0; 0; 0; 0; 0; 256; 512; 0; 0; 0; 0; 0]
           eq_refl).
Defined.

(** C9, counterexample. The store is full (5000 lines of 5000 promised)
    when a frame of one byte arrives: the frame is taken, no line is
    appended, and the end-of-program frame then ends the upload with the
    success message. *)
Lemma one_byte_frame_dropped_by_full_store :
  let fw := bench_full (Bsc_frame bench_frame_short 1) in
  let fw' := loop (platform := bench) 3760 fw in
  let fw'' := loop (platform := bench) 3770 fw' in
  uploading fw /\
  loading_stage fw = 2 /\
  get_N_lines (protocol_mgr fw) = 5000 /\
  bsc fw = [Bsc_frame bench_frame_short 1; Bsc_frame bench_frame_eop 0] /\
  bsc fw' = [Bsc_frame bench_frame_eop 0] /\
  bin_buf fw' = bench_frame_short /\
  program_ (protocol_mgr fw') = program_ (protocol_mgr fw) /\
  serial_out fw' = serial_out fw /\
  uploading fw' /\
  last (serial_out fw'') = Some (Println "Success!").
Proof. vm_compute. repeat split. Qed.

Lemma one_byte_frame_is_accepted_witness :
  let fw := bench_receiving [Bsc_frame bench_frame_short 1] in
  let line := parse_line (platform := bench) bench_frame_short 1 in
  let fw' := FSM_fun_uploading__upd (platform := bench) 20 fw in
  and_then (upd_stage_0 fw) (upd_stage_1 (platform := bench)) = Next fw /\
  loading_stage fw = 2 /\
  bsc fw = [Bsc_frame bench_frame_short 1] /\
  get_N_lines (protocol_mgr fw) <> PROTOCOL_MAX_LINES (Platform := bench) /\
  bench_frame_short !! 1%nat = Some xff /\
  duration line = 1535 /\
  active_points (points line) = [] /\
  (exists pm,
     upd_stages (platform := bench) fw
     = Next (set_protocol_mgr pm
               (set_bin_buf bench_frame_short (set_bsc [] fw))) /\
     protocol_mgr fw' = pm /\ halted fw' = None) /\
  program_ (protocol_mgr fw')
  = [mk_PackedTimeLine 1535
       [0; 0; 0; 0; 0; 0; 0; 0; 0; 0; 0; 0; 0; 0; 0]] /\
  halted fw' = None.
Proof.
  intros fw line fw'.
  assert (H01 : and_then (upd_stage_0 fw) (upd_stage_1 (platform := bench))
                = Next fw) by reflexivity.
  assert (Hs : loading_stage fw = 2) by reflexivity.
  assert (Hb : bsc fw = [Bsc_frame bench_frame_short 1]) by reflexivity.
  assert (Hne : get_N_lines (protocol_mgr fw)
                <> PROTOCOL_MAX_LINES (Platform := bench))
    by (vm_compute; discriminate).
  destruct (one_byte_frame_is_accepted (platform := bench) 20 fw fw
              bench_frame_short [] H01 Hs Hb)
    as (Hd & Ha & Hm & _ & _ & Happ).
  split; [exact H01|]. split; [exact Hs|]. split; [exact Hb|].
  split; [exact Hne|]. split; [reflexivity|].
  split; [exact (Hd x05 xff eq_refl eq_refl)|].
  split; [exact Ha|].
  split.
  { destruct (add_line (platform := bench) line (protocol_mgr fw))
      as [pm|] eqn:Hadd; [|vm_compute in Hadd; discriminate].
    exists pm. exact (Hm pm Hadd). }
  exact (Happ Hne [0; 0; 0; 0; 0; 0; 0; 0; 0; 0; 0; 0; 0; 0; 0] eq_refl).
Defined.

Lemma no_command_while_loading_witness :
  let fw :=
    bench_entered "2"
      [Bsc_idle; Bsc_frame bench_frame_1 3; Bsc_frame bench_frame_2 4;
       Bsc_frame bench_frame_eop 0] in
  let ticks := [20; 30; 40] in
  loading_throughout (platform := bench) ticks fw /\
  override_pump_safety (run (platform := bench) ticks fw)
  = override_pump_safety fw /\
  forall k now,
    ticks !! k = Some now ->
    process_commands (platform := bench) now
      (run (platform := bench) (take k ticks) fw)
    = run (platform := bench) (take k ticks) fw.
Proof.
  intros fw ticks.
  split; [bench_eval|].
  apply (no_command_while_loading (platform := bench) ticks fw).
  bench_eval.
Defined.

(** * Further properties of the firmware *)

Section Further_properties.

Context `{platform : Platform}.

Ltac simpl_fields :=
  cbn [bin_buf safety__allow_jetting_pump_to_run override_pump_safety
       alive_blinker_hue cp_mgr protocol_mgr loading_program loading_stage
       loading_successful promised_N_lines fsm toggler every_cmd every_pulse
       pin_safety_pulse_out serial_out sc bsc halted
       set_bin_buf set_safety__allow_jetting_pump_to_run
       set_override_pump_safety set_alive_blinker_hue set_cp_mgr
       set_protocol_mgr set_loading_program set_loading_stage
       set_loading_successful set_promised_N_lines set_fsm set_toggler
       set_every_cmd set_every_pulse set_pin_safety_pulse_out set_serial_out
       set_sc set_bsc set_halted
       println emit transitionTo halt fault
       currentState nextState stateChangeTime needToTriggerEnter].

(** ** What one call of the upload update does to the flags *)

Lemma stage_0_flags fw :
  exists fw1, upd_stage_0 fw = Next fw1 /\ flags_view fw1 = flags_view fw /\
              halted fw1 = halted fw.
Proof.
  destruct (stage_0_next fw) as (fw1 & H & Hv & _).
  exists fw1. split; [exact H|]. unfold progress_view in Hv.
  unfold flags_view. injection Hv as -> -> -> ->. auto.
Qed.

Lemma stage_1_flags fw :
  match upd_stage_1 fw with
  | Next fw1 => flags_view fw1 = flags_view fw /\ halted fw1 = halted fw
  | Return fw1 =>
      ends_upload fw fw1 /\
      loading_successful fw1 = loading_successful fw /\
      halted fw1 = halted fw
  end.
Proof.
  unfold upd_stage_1, sc_available, ends_upload, flags_view.
  destruct (loading_stage fw =? 1); [|auto].
  destruct (sc fw) as [|[cmd|] rest]; simpl_fields; auto.
  destruct (_ >? _); simpl_fields; auto 10.
Qed.

Lemma stage_2_flags fw :
  match upd_stage_2 fw with
  | Next fw1 => flags_view fw1 = flags_view fw /\ halted fw1 = halted fw
  | Return fw1 =>
      (flags_view fw1 = flags_view fw /\ halted fw1 <> None) \/
      (ends_upload fw fw1 /\ halted fw1 = halted fw /\
       loading_successful fw1 = loading_successful fw /\
       get_N_lines (protocol_mgr fw1) <> promised_N_lines fw1) \/
      (ends_upload fw fw1 /\ halted fw1 = halted fw /\
       loading_successful fw1 = true /\
       get_N_lines (protocol_mgr fw1) = promised_N_lines fw1 /\
       last (serial_out fw1) = Some (Println msg_success))
  end.
Proof.
  unfold upd_stage_2, bsc_available, ends_upload, flags_view.
  destruct (loading_stage fw =? 2); [|auto].
  destruct (bsc fw) as [|[| |buf len] rest]; simpl_fields.
  - auto.
  - auto.
  - left. split; [reflexivity|discriminate].
  - destruct (len =? 0).
    + destruct (Z.eqb_spec (get_N_lines (protocol_mgr fw))
                  (promised_N_lines fw)) as [He|Hne]; cbn [negb];
        simpl_fields.
      * right. right. rewrite last_snoc. auto 10.
      * right. left. auto 10.
    + destruct (add_line _ _); simpl_fields; [auto|].
      left. split; [reflexivity|discriminate].
Qed.

Lemma timeout_flags now fw :
  exists fw1,
    upd_timeout now fw = Next fw1 /\ halted fw1 = halted fw /\
    protocol_mgr fw1 = protocol_mgr fw /\
    promised_N_lines fw1 = promised_N_lines fw /\
    (flags_view fw1 = flags_view fw \/
     (ends_upload fw fw1 /\
      loading_successful fw1 = loading_successful fw)).
Proof.
  unfold upd_timeout, ends_upload, flags_view.
  destruct (_ >? _); eexists; (split; [reflexivity|]); simpl_fields; auto 10.
Qed.

Lemma ends_upload_trans fw fa fb :
  flags_view fa = flags_view fw -> ends_upload fa fb -> ends_upload fw fb.
Proof.
  unfold flags_view, ends_upload. intros [= Hf _ _] (? & ? & ? & ?).
  rewrite <- Hf. auto.
Qed.

(** A call either leaves the state machine and the two flags alone, or
    ends the upload; it sets the success flag only on the matching count. *)
Lemma upd_shape now fw :
  let fw' := FSM_fun_uploading__upd now fw in
  flags_view fw' = flags_view fw \/
  (ends_upload fw fw' /\
   (loading_successful fw' = loading_successful fw \/
    (loading_successful fw' = true /\
     get_N_lines (protocol_mgr fw') = promised_N_lines fw' /\
     last (serial_out fw') = Some (Println msg_success)))).
Proof.
  cbv zeta. rewrite upd_unfold. unfold upd_stages.
  destruct (stage_0_flags fw) as (fa & -> & Ha & _). cbn [and_then].
  pose proof (stage_1_flags fa) as H1.
  destruct (upd_stage_1 fa) as [fb|fb]; cbn [and_then finish].
  2:{ destruct H1 as (He & Hs & _). right.
      split; [eapply ends_upload_trans; eassumption|].
      left. unfold flags_view in Ha. injection Ha as _ _ Hs'. congruence. }
  destruct H1 as [Hb _].
  assert (Hab : flags_view fb = flags_view fw) by congruence.
  pose proof (stage_2_flags fb) as H2.
  destruct (upd_stage_2 fb) as [fc|fc]; cbn [and_then finish].
  - destruct H2 as [Hc _].
    assert (Hac : flags_view fc = flags_view fw) by congruence.
    destruct (timeout_flags now fc) as (fd & -> & _ & _ & _ & [Hd|[He Hs]]);
      cbn [finish].
    + left. congruence.
    + right. split; [eapply ends_upload_trans; eassumption|].
      left. unfold flags_view in Hac. injection Hac as _ _ Hs'. congruence.
  - destruct H2 as [[Hc _]|[(He & _ & Hs & _)|(He & _ & Hs & Hn & Hl)]].
    + left. congruence.
    + right. split; [eapply ends_upload_trans; eassumption|].
      left. unfold flags_view in Hab. injection Hab as _ _ Hs'. congruence.
    + right. split; [eapply ends_upload_trans; eassumption|].
      right. auto.
Qed.

(** X1. A call of the upload update keeps the loading flag and the
    requested state in step: either the flag stays set and Uploading stays
    requested, or the flag is cleared and Off is requested. *)
Theorem loading_flag_and_request_agree now fw :
  loading_program fw = true ->
  nextState (fsm fw) = state_uploading ->
  let fw' := FSM_fun_uploading__upd now fw in
  (loading_program fw' = true /\ nextState (fsm fw') = state_uploading) \/
  (loading_program fw' = false /\ nextState (fsm fw') = state_off).
Proof.
  intros Hl Hn fw'. subst fw'.
  pose proof (upd_shape now fw) as H. cbv zeta in H.
  destruct H as [Hv|[(Hl' & Hn' & _) _]].
  - left. unfold flags_view in Hv.
    injection Hv as Hf Hl' _. rewrite Hf, Hl'. auto.
  - right. auto.
Qed.

(** X2. The upload update sets the success flag only when the number of
    stored lines equals the promised number; it then prints the success
    message, clears the loading flag and requests Off. *)
Theorem success_only_on_matching_count now fw :
  loading_successful fw = false ->
  let fw' := FSM_fun_uploading__upd now fw in
  loading_successful fw' = true ->
  get_N_lines (protocol_mgr fw') = promised_N_lines fw' /\
  last (serial_out fw') = Some (Println msg_success) /\
  loading_program fw' = false /\
  nextState (fsm fw') = state_off.
Proof.
  intros Hs fw' Hs'. subst fw'.
  pose proof (upd_shape now fw) as H. cbv zeta in H.
  destruct H as [Hv|[(Hl' & Hn' & _) [Hk|(_ & Hc & Hm)]]].
  - unfold flags_view in Hv. injection Hv as _ _ Hk. congruence.
  - congruence.
  - auto.
Qed.

(** ** The stage counter *)

Lemma stage_0_stage fw :
  0 <= loading_stage fw <= 2 ->
  loading_stage fw <= loading_stage (finish (upd_stage_0 fw)) <= 2.
Proof.
  intros H. unfold upd_stage_0, sc_available.
  destruct (Z.eqb_spec (loading_stage fw) 0) as [He|Hne]; [|cbn; lia].
  destruct (sc fw) as [|[cmd|] rest]; cbn [finish]; simpl_fields;
    rewrite ?He; try change (u8 (0 + 1)) with 1; lia.
Qed.

Lemma stage_1_stage fw :
  0 <= loading_stage fw <= 2 ->
  loading_stage fw <= loading_stage (finish (upd_stage_1 fw)) <= 2.
Proof.
  intros H. unfold upd_stage_1, sc_available.
  destruct (Z.eqb_spec (loading_stage fw) 1) as [He|Hne]; [|cbn; lia].
  destruct (sc fw) as [|[cmd|] rest]; cbn [finish]; simpl_fields;
    try lia.
  destruct (_ >? _); cbn [finish]; simpl_fields; rewrite ?He;
    try change (u8 (1 + 1)) with 2; lia.
Qed.

Lemma stage_2_stage fw :
  loading_stage (finish (upd_stage_2 fw)) = loading_stage fw.
Proof.
  unfold upd_stage_2, bsc_available.
  destruct (loading_stage fw =? 2); [|reflexivity].
  destruct (bsc fw) as [|[| |buf len] rest]; try reflexivity.
  destruct (len =? 0).
  - destruct (negb _); reflexivity.
  - destruct (add_line _ _); reflexivity.
Qed.

Lemma timeout_stage now fw :
  loading_stage (finish (upd_timeout now fw)) = loading_stage fw.
Proof. unfold upd_timeout. destruct (_ >? _); reflexivity. Qed.

(** X3. A call of the upload update never moves the stage counter back
    and never past the frame stage: from a stage in 0..2 it ends in a stage
    in 0..2 that is not lower. *)
Theorem stage_only_advances now fw :
  0 <= loading_stage fw <= 2 ->
  loading_stage fw <= loading_stage (FSM_fun_uploading__upd now fw) <= 2.
Proof.
  intros H. rewrite upd_unfold. unfold upd_stages.
  pose proof (stage_0_stage fw H) as H0.
  destruct (upd_stage_0 fw) as [fa|fa]; cbn [and_then finish] in *.
  2:{ exact H0. }
  pose proof (stage_1_stage fa ltac:(lia)) as H1.
  destruct (upd_stage_1 fa) as [fb|fb]; cbn [and_then finish] in *.
  2:{ lia. }
  pose proof (stage_2_stage fb) as H2.
  destruct (upd_stage_2 fb) as [fc|fc]; cbn [and_then finish] in *.
  2:{ lia. }
  rewrite timeout_stage. lia.
Qed.

(** ** Fatal stop on a buffer overrun *)

Lemma run_halted ticks fw : is_halted fw = true -> run ticks fw = fw.
Proof.
  intros H. induction ticks as [|t ticks IH]; [reflexivity|].
  change (run (t :: ticks) fw) with (run ticks (loop t fw)).
  unfold loop, unless_halted. rewrite H. exact IH.
Qed.

(** X4. When the binary listener reports a buffer overrun in the frame
    stage, the call halts with code 8 whatever the clock says: the store,
    the upload flags and the state machine stay as they were, and no later
    pass of the loop changes anything. *)
Theorem overrun_halts_firmware now fw0 fw rest ticks :
  and_then (upd_stage_0 fw0) upd_stage_1 = Next fw ->
  loading_stage fw = 2 ->
  bsc fw = Bsc_overrun :: rest ->
  let fw' := FSM_fun_uploading__upd now fw0 in
  halted fw'
  = Some (Halt 8 "Stream command buffer overrun in `load_program()`") /\
  protocol_mgr fw' = protocol_mgr fw /\
  flags_view fw' = flags_view fw /\
  run ticks fw' = fw'.
Proof.
  intros H01 Hs Hb fw'.
  assert (Hfw' :
    fw' = halt 8 "Stream command buffer overrun in `load_program()`"
            (set_bsc rest fw)).
  { subst fw'. rewrite upd_unfold. unfold upd_stages. rewrite H01.
    cbn [and_then]. unfold upd_stage_2, bsc_available. rewrite Hs, Hb.
    reflexivity. }
  rewrite Hfw'. repeat split. apply run_halted. reflexivity.
Qed.

(** ** Count tokens outside the 16-bit range *)

Lemma u16_negative n : -65536 < n < 0 -> u16 n = 65536 + n.
Proof.
  intros H. unfold u16, wrap. change (2 ^ 16) with 65536.
  symmetry. apply Z.mod_unique with (q := -1); lia.
Qed.

Lemma u16_above n : 65536 <= n < 131072 -> u16 n = n - 65536.
Proof.
  intros H. unfold u16, wrap. change (2 ^ 16) with 65536.
  symmetry. apply Z.mod_unique with (q := 1); lia.
Qed.

(** X5. A negative count token [-k] is stored as [65536 - k]; when that
    exceeds the capacity the upload ends with the capacity error, which
    reports [65536 - k] requested lines. *)
Theorem negative_count_is_rejected now fw0 fw cmd rest :
  upd_stage_0 fw0 = Next fw ->
  loading_stage fw = 1 ->
  sc fw = Some cmd :: rest ->
  PROTOCOL_MAX_LINES - 65536 < atoi cmd < 0 ->
  -65536 < atoi cmd ->
  let fw' := FSM_fun_uploading__upd now fw0 in
  ends_upload fw fw' /\
  promised_N_lines fw' = 65536 + atoi cmd /\
  serial_out fw'
  = serial_out fw ++ [Println (msg_exceeds (65536 + atoi cmd))].
Proof.
  intros H0 Hs Hsc Hn Hlo fw'. subst fw'.
  assert (Hu : u16 (atoi cmd) = 65536 + atoi cmd) by (apply u16_negative; lia).
  rewrite upd_unfold. unfold upd_stages. rewrite H0. cbn [and_then].
  rewrite (stage_1_excess fw cmd rest Hs Hsc) by lia.
  cbn [and_then finish]. rewrite Hu. unfold ends_upload. simpl_fields.
  auto.
Qed.

(** X6. A count token between 65536 and 65536 + capacity is not
    rejected: it is stored and echoed reduced by 65536, and the upload goes
    on to the frame stage with that promise. *)
Theorem oversized_count_wraps fw cmd rest :
  loading_stage fw = 1 ->
  sc fw = Some cmd :: rest ->
  65536 <= atoi cmd <= 65536 + PROTOCOL_MAX_LINES ->
  PROTOCOL_MAX_LINES < 65536 ->
  exists fw1,
    upd_stage_1 fw = Next fw1 /\
    promised_N_lines fw1 = atoi cmd - 65536 /\
    loading_stage fw1 = 2 /\
    serial_out fw1 = serial_out fw ++ [Println (dec (atoi cmd - 65536))] /\
    flags_view fw1 = flags_view fw /\
    protocol_mgr fw1 = protocol_mgr fw.
Proof.
  intros Hs Hsc Hn Hmax.
  assert (Hu : u16 (atoi cmd) = atoi cmd - 65536) by (apply u16_above; lia).
  unfold upd_stage_1, sc_available. rewrite Hs, Hsc. cbn [Z.eqb Pos.eqb].
  cbn [promised_N_lines set_promised_N_lines]. rewrite Hu.
  destruct (Z.gtb_spec (atoi cmd - 65536) PROTOCOL_MAX_LINES); [lia|].
  eexists. split; [reflexivity|]. simpl_fields. rewrite Hs.
  repeat split.
Qed.

(** ** The command dispatcher *)

(** X7. Whatever the command, the dispatcher leaves the pump-safety
    override as it is, except for [override_safety], which sets it, and
    [restore_safety], which clears it. *)
Theorem override_follows_its_two_commands now cmd fw :
  override_pump_safety (dispatch now cmd fw)
  = if String.eqb cmd "override_safety" then true
    else if String.eqb cmd "restore_safety" then false
    else override_pump_safety fw.
Proof.
  destruct (String.eqb_spec cmd "override_safety") as [->|H1];
    [reflexivity|].
  destruct (String.eqb_spec cmd "restore_safety") as [->|H2];
    [reflexivity|].
  apply String.eqb_neq in H1, H2.
  unfold dispatch, seek. rewrite H1, H2.
  repeat (case_match; try reflexivity).
Qed.

(** X8. The dispatcher changes the request to the state machine for four
    commands only: [upload], [play], [stop] and [pause] request Uploading,
    Running, Off and Paused; the current state is never written by a
    command. *)
Theorem state_requests_of_commands now cmd fw :
  currentState (fsm (dispatch now cmd fw)) = currentState (fsm fw) /\
  needToTriggerEnter (fsm (dispatch now cmd fw))
  = needToTriggerEnter (fsm fw) /\
  nextState (fsm (dispatch now cmd fw))
  = if String.eqb cmd "upload" then state_uploading
    else if String.eqb cmd "play" then state_running
    else if String.eqb cmd "stop" then state_off
    else if String.eqb cmd "pause" then state_paused
    else nextState (fsm fw).
Proof.
  destruct (String.eqb_spec cmd "upload") as [->|H1]; [repeat split|].
  destruct (String.eqb_spec cmd "play") as [->|H2]; [repeat split|].
  destruct (String.eqb_spec cmd "stop") as [->|H3]; [repeat split|].
  destruct (String.eqb_spec cmd "pause") as [->|H4]; [repeat split|].
  apply String.eqb_neq in H1, H2, H3, H4.
  unfold dispatch, seek. rewrite H1, H2, H3, H4.
  repeat (case_match; try (repeat split; reflexivity)).
Qed.

(** X9. The seven query commands only print: each appends one item to the
    serial output and leaves the rest of the firmware untouched. *)
Theorem queries_only_print now cmd fw :
  In cmd queries -> exists o, dispatch now cmd fw = emit o fw.
Proof.
  unfold queries. cbn [In].
  intros [<-|[<-|[<-|[<-|[<-|[<-|[<-|[]]]]]]]]; eexists; reflexivity.
Qed.

Lemma command_pass now cmd polls fw :
  takes_command now cmd polls fw ->
  process_commands now fw
  = dispatch now cmd
      (set_sc polls
         (set_every_cmd (every_n_millis 10 now (every_cmd fw)).2 fw)).
Proof.
  intros (Hh & Hload & Htrig & Hdue & Hsc).
  unfold process_commands, sc_available. rewrite Hload. cbn [negb].
  destruct (every_n_millis 10 now (every_cmd fw)) as [due t].
  cbn [fst snd] in *. subst due. cbn [sc set_every_cmd]. rewrite Hsc.
  reflexivity.
Qed.

Lemma off_entry_closes cp :
  all_masks_are_zero (send_masks (clear_masks cp)) = true.
Proof.
  unfold all_masks_are_zero, send_masks, clear_masks.
  cbn [committed_ masks_].
  induction (masks_ cp) as [|m l IH]; [reflexivity|exact IH].
Qed.

Lemma all_masks_are_zero_Forall cp :
  all_masks_are_zero cp = true ->
  Forall (fun m => m = 0) (committed_ cp).
Proof.
  rewrite all_masks_are_zero_aggregate. intros H.
  apply aggregate_zero_iff, Z.eqb_eq, H.
Qed.

(** X10. The command [stop], taken while the state machine is Running or
    Paused, closes all valves in the same pass of the loop: the state
    becomes Off, every committed port mask is zero and, without the
    override, the pump-enable flag is false at the end of the pass. *)
Theorem stop_closes_valves_and_disables_pump now fw polls :
  takes_command now "stop" polls fw ->
  currentState (fsm fw) = state_running \/
  currentState (fsm fw) = state_paused ->
  override_pump_safety fw = false ->
  let fw' := loop now fw in
  currentState (fsm fw') = state_off /\
  Forall (fun m => m = 0) (committed_ (cp_mgr fw')) /\
  safety__allow_jetting_pump_to_run fw' = false /\
  pin_safety_pulse_out fw' = pin_safety_pulse_out fw /\
  protocol_mgr fw' = protocol_mgr fw /\
  halted fw' = None.
Proof.
  intros Htc Hcur Hov fw'.
  pose proof (command_pass now "stop" polls fw Htc) as Hpc.
  destruct Htc as (Hh & Hload & Htrig & Hdue & Hsc).
  set (x := set_sc polls
              (set_every_cmd (every_n_millis 10 now (every_cmd fw)).2 fw))
    in *.
  set (y := dispatch now "stop" x) in *.
  set (z := set_fsm (mk_FiniteStateMachine state_off state_off now false)
              (FSM_fun_off__ent
                 (set_fsm
                    (mk_FiniteStateMachine state_off state_off
                       (stateChangeTime (fsm fw)) false) y))).
  assert (Hfu : fsm_update now y = z).
  { unfold fsm_update, immediateTransitionTo, unless_halted, is_halted.
    subst z y x. unfold dispatch. cbn [String.eqb Ascii.eqb Bool.eqb].
    simpl_fields. rewrite Htrig.
    destruct Hcur as [Hc|Hc]; rewrite Hc; cbn [State_eqb exit_state];
      simpl_fields; rewrite Hh; cbn [enter];
      unfold FSM_fun_off__ent; simpl_fields; rewrite Hh, ?Htrig;
      reflexivity. }
  assert (Hfw' : fw' = safety_pulses now (safety_check z)).
  { subst fw'. unfold loop, unless_halted at 1. unfold is_halted at 1.
    rewrite Hh, Hpc. unfold unless_halted at 1. unfold is_halted at 1.
    replace (halted y) with (@None Fault) by (symmetry; exact Hh).
    rewrite Hfu. unfold unless_halted, is_halted.
    replace (halted z) with (@None Fault) by (symmetry; exact Hh).
    reflexivity. }
  assert (Hzero : all_masks_are_zero (cp_mgr z) = true).
  { subst z y x. unfold FSM_fun_off__ent. simpl_fields.
    apply off_entry_closes. }
  assert (Hflag : safety__allow_jetting_pump_to_run (safety_check z) = false).
  { rewrite safety_check_flag, Hzero.
    replace (override_pump_safety z) with false by (symmetry; exact Hov).
    reflexivity. }
  assert (Hsp : fw' = safety_check z).
  { rewrite Hfw'. unfold safety_pulses. rewrite Hflag. reflexivity. }
  destruct (safety_check_gate z) as (_ & _ & Hpv).
  unfold pulse_view in Hpv. injection Hpv as Hpin _ _.
  pose proof (safety_section_upload_view now z) as Hv.
  unfold upload_view in Hv. rewrite <- Hfw' in Hv.
  injection Hv as _ _ _ Hcp Hpm _ _ _ _ Hfsm _ _ _ _ Hhalt.
  split; [rewrite Hfsm; reflexivity|].
  split; [rewrite Hcp; apply all_masks_are_zero_Forall, Hzero|].
  split; [rewrite Hsp; exact Hflag|].
  split; [rewrite Hsp, Hpin; reflexivity|].
  split; [rewrite Hpm; reflexivity|].
  rewrite Hhalt. exact Hh.
Qed.

(** X11. The command [pause], taken while the state machine is Running,
    leaves the valves as they are: the state becomes Paused, the valve
    driver and the program are untouched, and the pump-enable flag at the
    end of the pass is the one the valves left open (or the override)
    give. *)
Theorem pause_keeps_valves now fw polls :
  takes_command now "pause" polls fw ->
  currentState (fsm fw) = state_running ->
  let fw' := loop now fw in
  currentState (fsm fw') = state_paused /\
  cp_mgr fw' = cp_mgr fw /\
  protocol_mgr fw' = protocol_mgr fw /\
  safety__allow_jetting_pump_to_run fw'
  = override_pump_safety fw || negb (all_masks_are_zero (cp_mgr fw)).
Proof.
  intros Htc Hcur fw'.
  pose proof (command_pass now "pause" polls fw Htc) as Hpc.
  destruct Htc as (Hh & Hload & Htrig & Hdue & Hsc).
  set (x := set_sc polls
              (set_every_cmd (every_n_millis 10 now (every_cmd fw)).2 fw))
    in *.
  set (y := dispatch now "pause" x) in *.
  set (z := set_fsm (mk_FiniteStateMachine state_paused state_paused now
                       false)
              (FSM_fun_paused__ent
                 (set_fsm
                    (mk_FiniteStateMachine state_paused state_paused
                       (stateChangeTime (fsm fw)) false) y))).
  assert (Hfu : fsm_update now y = z).
  { unfold fsm_update, immediateTransitionTo, unless_halted, is_halted.
    subst z y x. unfold dispatch. cbn [String.eqb Ascii.eqb Bool.eqb].
    simpl_fields. rewrite Htrig, Hcur. cbn [State_eqb exit_state].
    simpl_fields. rewrite Hh. cbn [enter].
    unfold FSM_fun_paused__ent. simpl_fields. rewrite Hh, ?Htrig.
    reflexivity. }
  assert (Hfw' : fw' = safety_pulses now (safety_check z)).
  { subst fw'. unfold loop, unless_halted at 1. unfold is_halted at 1.
    rewrite Hh, Hpc. unfold unless_halted at 1. unfold is_halted at 1.
    replace (halted y) with (@None Fault) by (symmetry; exact Hh).
    rewrite Hfu. unfold unless_halted, is_halted.
    replace (halted z) with (@None Fault) by (symmetry; exact Hh).
    reflexivity. }
  pose proof (safety_section_upload_view now z) as Hv.
  unfold upload_view in Hv. rewrite <- Hfw' in Hv.
  injection Hv as _ _ _ Hcp Hpm _ _ _ _ Hfsm _ _ _ _ _.
  split; [rewrite Hfsm; reflexivity|].
  split; [rewrite Hcp; reflexivity|].
  split; [rewrite Hpm; reflexivity|].
  rewrite Hfw', safety_pulses_flag, safety_check_flag. reflexivity.
Qed.

(** ** Invariants of the running firmware *)

Lemma safety_pulses_pin now fw :
  pin_safety_pulse_out fw = toggler fw ->
  pin_safety_pulse_out (safety_pulses now fw)
  = toggler (safety_pulses now fw).
Proof.
  intros H. unfold safety_pulses, digitalWrite_safety_pulse.
  destruct (safety__allow_jetting_pump_to_run fw); [|exact H].
  destruct (every_n_millis _ _ _) as [[|] t]; simpl_fields;
    [reflexivity|exact H].
Qed.

Lemma loop_pin now fw :
  pin_safety_pulse_out fw = toggler fw ->
  pin_safety_pulse_out (loop now fw) = toggler (loop now fw).
Proof.
  intros H. unfold loop, unless_halted.
  destruct (is_halted fw); [exact H|].
  pose proof (process_commands_pulse_view now fw) as Hp.
  unfold pulse_view in Hp. injection Hp as Hp1 Hp2 _.
  set (a := process_commands now fw) in *.
  assert (Ha : pin_safety_pulse_out a = toggler a) by congruence.
  destruct (is_halted a); [exact Ha|].
  pose proof (fsm_update_gate_view now a) as Hg.
  unfold gate_view in Hg. injection Hg as Hg1 Hg2 _ _ _ _.
  set (b := fsm_update now a) in *.
  assert (Hb : pin_safety_pulse_out b = toggler b) by congruence.
  destruct (is_halted b); [exact Hb|].
  apply safety_pulses_pin.
  destruct (safety_check_gate b) as (_ & _ & Hv).
  unfold pulse_view in Hv. injection Hv as Hv1 Hv2 _. congruence.
Qed.

(** X12. In every state the firmware reaches from [setup], after any number
    of passes of the loop, the level of the safety-pulse pin is the value
    of the toggler: the pin is written at one place only, right after the
    toggler is flipped, and [setup] starts both low. *)
Theorem pulse_pin_follows_toggler sc0 bsc0 ticks :
  let fw := run ticks (setup sc0 bsc0) in
  pin_safety_pulse_out fw = toggler fw.
Proof.
  cbv zeta. unfold run.
  assert (H0 : pin_safety_pulse_out (setup sc0 bsc0)
               = toggler (setup sc0 bsc0)) by reflexivity.
  revert H0. generalize (setup sc0 bsc0).
  induction ticks as [|now ticks IH]; intros fw H; [exact H|].
  cbn [fold_left]. apply IH, loop_pin, H.
Qed.

Lemma exit_state_mode s fw :
  fsm (exit_state s fw) = fsm fw /\
  loading_program (exit_state s fw) = loading_program fw.
Proof.
  destruct s; cbn [exit_state]; auto.
  unfold FSM_fun_uploading__ext, unless_halted.
  repeat case_match; simpl_fields; auto.
Qed.

Lemma enter_mode s fw :
  fsm (enter s fw) = fsm fw /\
  loading_program (enter s fw)
  = if State_eqb s state_uploading then true else loading_program fw.
Proof. destruct s; split; reflexivity. Qed.

Lemma update_state_mode s now fw :
  s <> state_uploading ->
  fsm (update_state s now fw) = fsm fw /\
  loading_program (update_state s now fw) = loading_program fw.
Proof.
  intros Hs. destruct s; cbn [update_state]; auto; [|congruence].
  unfold FSM_fun_running__upd.
  destruct (update _ _ _) as [[pm cp]|]; simpl_fields; auto.
Qed.

Lemma upd_mode now fw :
  mode_consistent fw -> needToTriggerEnter (fsm fw) = false ->
  mode_consistent (FSM_fun_uploading__upd now fw).
Proof.
  intros (_ & H2) Ht.
  pose proof (upd_shape now fw) as H. cbv zeta in H.
  destruct H as [H|[(Hl & Hn & Hc & Hg) _]].
  - unfold flags_view in H. injection H as Hf Hl _.
    unfold mode_consistent. rewrite Hf, Hl. split; [congruence|exact H2].
  - unfold mode_consistent. rewrite Hl, Hg, Ht. split; congruence.
Qed.

Lemma immediateTransitionTo_mode now fw :
  mode_consistent fw -> needToTriggerEnter (fsm fw) = false ->
  State_eqb (currentState (fsm fw)) (nextState (fsm fw)) = false ->
  let fw1 := immediateTransitionTo (nextState (fsm fw)) now fw in
  mode_consistent fw1 /\ needToTriggerEnter (fsm fw1) = false.
Proof.
  intros (_ & H2) Ht Hne. cbv zeta. unfold immediateTransitionTo.
  destruct (exit_state_mode (currentState (fsm fw)) fw) as (Hf & Hl).
  set (a := exit_state (currentState (fsm fw)) fw) in *.
  unfold unless_halted. destruct (is_halted a).
  { unfold mode_consistent. rewrite Hf, Hl. repeat split; try congruence;
      apply H2; assumption. }
  set (s := nextState (fsm fw)) in *.
  destruct (enter_mode s
              (set_fsm (mk_FiniteStateMachine s s (stateChangeTime (fsm a))
                          (needToTriggerEnter (fsm a))) a)) as (Ef & El).
  unfold mode_consistent. simpl_fields. rewrite Ef, El. simpl_fields.
  rewrite Hf, Ht, Hl.
  split; [split; [congruence|]|reflexivity].
  destruct s eqn:Es; cbn [State_eqb]; intros Hld; try (repeat split; fail);
    destruct (H2 Hld) as (Hc & Hn & _); subst s; congruence.
Qed.

Lemma fsm_update_mode now fw :
  mode_consistent fw -> mode_consistent (fsm_update now fw).
Proof.
  intros Hm. unfold fsm_update.
  destruct (needToTriggerEnter (fsm fw)) eqn:Ht.
  - destruct Hm as (H1 & _). destruct (H1 Ht) as (Hc & Hl).
    rewrite Hc. unfold mode_consistent. simpl_fields.
    split; [congruence|]. intros Hld. exfalso.
    change (loading_program fw = true) in Hld. congruence.
  - assert (Hfw1 :
      exists fw1,
        (if State_eqb (currentState (fsm fw)) (nextState (fsm fw))
         then fw else immediateTransitionTo (nextState (fsm fw)) now fw)
        = fw1 /\ mode_consistent fw1 /\
        needToTriggerEnter (fsm fw1) = false).
    { destruct (State_eqb _ _) eqn:He; [eauto|].
      eexists. split; [reflexivity|].
      apply immediateTransitionTo_mode; assumption. }
    destruct Hfw1 as (fw1 & -> & Hm1 & Ht1).
    unfold unless_halted. destruct (is_halted fw1); [exact Hm1|].
    destruct (currentState (fsm fw1)) eqn:Hc.
    4:{ apply upd_mode; assumption. }
    all: match goal with
         | |- mode_consistent (update_state ?s ?n ?f) =>
             destruct (update_state_mode s n f) as (Uf & Ul);
             [discriminate|]
         end;
      unfold mode_consistent; rewrite Uf, Ul; exact Hm1.
Qed.

Lemma loop_mode now fw :
  mode_consistent fw -> mode_consistent (loop now fw).
Proof.
  intros Hm. unfold loop, unless_halted.
  destruct (is_halted fw); [exact Hm|].
  assert (Ha : mode_consistent (process_commands now fw)).
  { destruct (process_commands_mode now fw) as (Hc & Ht & Hl).
    destruct (loading_program fw) eqn:E.
    - rewrite process_commands_loading by exact E. exact Hm.
    - destruct Hm as (H1 & _). unfold mode_consistent.
      rewrite Hc, Ht, Hl. split; [|discriminate].
      intros Hg. split; [apply H1, Hg|reflexivity]. }
  set (a := process_commands now fw) in *.
  destruct (is_halted a); [exact Ha|].
  pose proof (fsm_update_mode now a Ha) as Hb.
  set (b := fsm_update now a) in *.
  destruct (is_halted b); [exact Hb|].
  pose proof (safety_section_upload_view now b) as Hv.
  unfold upload_view in Hv.
  injection Hv as _ _ _ _ _ Hl _ _ _ Hf _ _ _ _ _.
  unfold mode_consistent. rewrite Hf, Hl. exact Hb.
Qed.

(** X13. In every state the firmware reaches from [setup], the loading
    flag is only set while the state machine is in the upload state with
    no other state requested: the flag, which shuts the command dispatcher
    out, is never left set in another state.  (Not the other way round:
    after an upload has ended the machine can be in the upload state with
    the flag cleared.) *)
Theorem loading_only_in_upload_state sc0 bsc0 ticks :
  let fw := run ticks (setup sc0 bsc0) in
  loading_program fw = true ->
  currentState (fsm fw) = state_uploading /\
  nextState (fsm fw) = state_uploading.
Proof.
  cbv zeta. unfold run.
  assert (H0 : mode_consistent (setup sc0 bsc0)).
  { split; [split; reflexivity|discriminate]. }
  revert H0. generalize (setup sc0 bsc0).
  induction ticks as [|now ticks IH]; intros fw H.
  - cbn [fold_left]. intros Hl. destruct H as (_ & H2).
    destruct (H2 Hl) as (? & ? & _). auto.
  - cbn [fold_left]. apply IH, loop_mode, H.
Qed.

Lemma every_n_millis_first N now :
  0 < u32 N ->
  every_n_millis N now None
  = (false, Some (mk_CEveryNMillis (u32 now) (u32 N))).
Proof.
  intros HN. unfold every_n_millis. cbn [mPeriod mPrevTrigger].
  assert (H : u32 (now - u32 now) = 0).
  { unfold u32, wrap. rewrite Zminus_mod_idemp_r, Z.sub_diag.
    reflexivity. }
  rewrite H. destruct (Z.leb_spec (u32 N) 0); [lia|reflexivity].
Qed.

(** X14. The first pass of the loop after [setup] takes no command, even
    when one is waiting: the 10 ms timer of the dispatcher starts in that
    pass.  The pass enters the Off state, which closes all valves, prints
    nothing, and ends with the pump disabled and the pulse line low. *)
Theorem first_pass_enters_off sc0 bsc0 now :
  let fw := setup sc0 bsc0 in
  let fw' := loop now fw in
  sc fw' = sc0 /\ bsc fw' = bsc0 /\ serial_out fw' = serial_out fw /\
  currentState (fsm fw') = state_off /\
  nextState (fsm fw') = state_off /\
  needToTriggerEnter (fsm fw') = false /\
  Forall (fun m => m = 0) (committed_ (cp_mgr fw')) /\
  protocol_mgr fw' = protocol_mgr fw /\
  safety__allow_jetting_pump_to_run fw' = false /\
  pin_safety_pulse_out fw' = false /\
  halted fw' = None.
Proof.
  cbv zeta.
  assert (Hpc : process_commands now (setup sc0 bsc0)
                = set_every_cmd
                    (Some (mk_CEveryNMillis (u32 now) (u32 10)))
                    (setup sc0 bsc0)).
  { unfold process_commands.
    change (loading_program (setup sc0 bsc0)) with false.
    change (every_cmd (setup sc0 bsc0)) with (@None CEveryNMillis).
    cbn [negb]. rewrite every_n_millis_first by (vm_compute; reflexivity).
    reflexivity. }
  assert (Hloop :
    loop now (setup sc0 bsc0)
    = safety_pulses now
        (safety_check
           (fsm_update now
              (set_every_cmd
                 (Some (mk_CEveryNMillis (u32 now) (u32 10)))
                 (setup sc0 bsc0))))).
  { unfold loop. unfold unless_halted at 1.
    change (is_halted (setup sc0 bsc0)) with false. cbv iota.
    rewrite Hpc. unfold unless_halted at 1.
    change (is_halted (set_every_cmd ?t (setup sc0 bsc0))) with false.
    cbv iota. unfold unless_halted, is_halted, fsm_update.
    simpl_fields. reflexivity. }
  rewrite Hloop. unfold safety_pulses, safety_check, fsm_update.
  simpl_fields. repeat split. repeat constructor.
Qed.

(** ** An upload that receives nothing *)

Lemma silent_stages fw :
  silent fw ->
  exists fw1, upd_stages fw = Next fw1 /\
              quiet_view fw1 = quiet_view fw /\ silent fw1.
Proof.
  intros (Hs & Hb). unfold upd_stages.
  assert (H0 : exists fa, upd_stage_0 fw = Next fa /\
                 quiet_view fa = quiet_view fw /\ silent fa).
  { unfold upd_stage_0, sc_available.
    destruct (loading_stage fw =? 0); [|eexists; repeat split; eauto].
    destruct (sc fw) as [|a rest] eqn:E.
    - eexists. repeat split; eauto. rewrite E. constructor.
    - inversion Hs as [|? ? Ha Hrest]; subst.
      eexists. repeat split; eauto. }
  destruct H0 as (fa & -> & Qa & Sa & Ba). cbn [and_then].
  assert (H1 : exists fb, upd_stage_1 fa = Next fb /\
                 quiet_view fb = quiet_view fa /\ silent fb).
  { unfold upd_stage_1, sc_available.
    destruct (loading_stage fa =? 1); [|eexists; repeat split; eauto].
    destruct (sc fa) as [|a rest] eqn:E.
    - eexists. repeat split; eauto. rewrite E. constructor.
    - inversion Sa as [|? ? Ha Hrest]; subst.
      eexists. repeat split; eauto. }
  destruct H1 as (fb & -> & Qb & Sb & Bb). cbn [and_then].
  assert (H2 : exists fc, upd_stage_2 fb = Next fc /\
                 quiet_view fc = quiet_view fb /\ silent fc).
  { unfold upd_stage_2, bsc_available.
    destruct (loading_stage fb =? 2); [|eexists; repeat split; eauto].
    destruct (bsc fb) as [|a rest] eqn:E.
    - eexists. repeat split; eauto. rewrite E. constructor.
    - inversion Bb as [|? ? Ha Hrest]; subst.
      eexists. repeat split; eauto. }
  destruct H2 as (fc & -> & Qc & Hc). exists fc.
  split; [reflexivity|]. split; [congruence|exact Hc].
Qed.

Lemma upload_view_quiet a b :
  upload_view a = upload_view b ->
  quiet_view a = quiet_view b /\ sc a = sc b /\ bsc a = bsc b.
Proof.
  unfold upload_view, quiet_view. intros H.
  injection H as -> -> -> -> -> -> -> -> -> -> -> -> -> -> ->. auto.
Qed.

Lemma quiet_view_uploading a b :
  quiet_view a = quiet_view b -> uploading b -> uploading a.
Proof.
  unfold quiet_view, uploading. intros H.
  injection H as _ _ _ _ _ -> _ -> _ -> _ _ ->. auto.
Qed.

Lemma silent_pass now fw :
  uploading fw -> silent fw ->
  u32 (now - stateChangeTime (fsm fw)) <= LOADING_TIMEOUT ->
  quiet_view (loop now fw) = quiet_view fw /\
  uploading (loop now fw) /\ silent (loop now fw).
Proof.
  intros Hup Hs Hnow.
  destruct (silent_stages fw Hs) as (fw1 & Hst & Hq & Hs1).
  assert (Hupd : FSM_fun_uploading__upd now fw = fw1).
  { rewrite upd_unfold, Hst. cbn [and_then].
    destruct (timeout_result now fw1) as [[-> _]|[_ Hlate]];
      [reflexivity|].
    unfold timeInCurrentState in Hlate.
    replace (fsm fw1) with (fsm fw) in Hlate; [lia|].
    unfold quiet_view in Hq. injection Hq as _ _ _ _ _ _ _ _ _ Hf _ _ _.
    symmetry. exact Hf. }
  pose proof (quiet_view_uploading fw1 fw Hq Hup) as Hup1.
  assert (Hh : halted (FSM_fun_uploading__upd now fw) = None).
  { rewrite Hupd. apply Hup1. }
  pose proof (loop_uploading now fw Hup Hh) as Hv. rewrite Hupd in Hv.
  destruct (upload_view_quiet _ _ Hv) as (Hq' & Hsc & Hbsc).
  assert (Hq2 : quiet_view (loop now fw) = quiet_view fw) by congruence.
  split; [exact Hq2|]. split.
  - eapply quiet_view_uploading; eassumption.
  - unfold silent. rewrite Hsc, Hbsc. exact Hs1.
Qed.

Lemma silent_run ticks fw :
  uploading fw -> silent fw ->
  Forall (fun now => u32 (now - stateChangeTime (fsm fw)) <= LOADING_TIMEOUT)
    ticks ->
  quiet_view (run ticks fw) = quiet_view fw /\
  uploading (run ticks fw) /\ silent (run ticks fw).
Proof.
  unfold run. revert fw.
  induction ticks as [|now ticks IH]; intros fw Hup Hs Ht;
    cbn [fold_left]; [auto|].
  inversion Ht as [|? ? Hnow Hrest]; subst.
  destruct (silent_pass now fw Hup Hs Hnow) as (Hq & Hup' & Hs').
  assert (Hf : fsm (loop now fw) = fsm fw).
  { unfold quiet_view in Hq. injection Hq as _ _ _ _ _ _ _ _ _ Hf _ _ _.
    exact Hf. }
  destruct (IH (loop now fw) Hup' Hs') as (Hq2 & IH2).
  { rewrite Hf. exact Hrest. }
  split; [congruence|exact IH2].
Qed.

(** X15. An upload that receives nothing: while the passes of the loop
    stay within the deadline and both listeners stay idle, nothing of the
    upload changes and nothing is printed; the first pass beyond the
    deadline prints the time-out message, clears the loading flag and
    requests the Off state, with the store as it was and the upload not
    successful. *)
Theorem silent_upload_times_out ticks late fw :
  uploading fw -> silent fw ->
  Forall (fun now => u32 (now - stateChangeTime (fsm fw)) <= LOADING_TIMEOUT)
    ticks ->
  LOADING_TIMEOUT < u32 (late - stateChangeTime (fsm fw)) ->
  quiet_view (run ticks fw) = quiet_view fw /\
  let fw' := run (ticks ++ [late]) fw in
  serial_out fw' = serial_out fw ++ [Println msg_timeout] /\
  loading_program fw' = false /\
  loading_successful fw' = false /\
  currentState (fsm fw') = state_uploading /\
  nextState (fsm fw') = state_off /\
  protocol_mgr fw' = protocol_mgr fw /\
  halted fw' = None.
Proof.
  intros Hup Hs Ht Hlate.
  destruct (silent_run ticks fw Hup Hs Ht) as (Hq & Hup' & Hs').
  split; [exact Hq|]. cbv zeta.
  unfold run in *. rewrite fold_left_app. cbn [fold_left].
  set (a := fold_left (fun fw now => loop now fw) ticks fw) in *.
  destruct (silent_stages a Hs') as (fw1 & Hst & Hq1 & _).
  assert (Hqq : quiet_view fw1 = quiet_view fw) by congruence.
  pose proof (quiet_view_uploading fw1 fw Hqq Hup) as Hup1.
  assert (Hupd : FSM_fun_uploading__upd late a
                 = transitionTo state_off
                     (set_loading_program false (println msg_timeout fw1))).
  { rewrite upd_unfold, Hst. cbn [and_then].
    destruct (timeout_result late fw1) as [[_ Hin]|[-> _]];
      [|reflexivity].
    unfold timeInCurrentState in Hin.
    replace (fsm fw1) with (fsm fw) in Hin; [lia|].
    unfold quiet_view in Hqq. injection Hqq as _ _ _ _ _ _ _ _ _ Hf _ _ _.
    symmetry. exact Hf. }
  assert (Hh : halted (FSM_fun_uploading__upd late a) = None).
  { rewrite Hupd. simpl_fields. apply Hup1. }
  pose proof (loop_uploading late a Hup' Hh) as Hv. rewrite Hupd in Hv.
  unfold upload_view in Hv.
  injection Hv as _ _ _ _ Hpm Hl _ Hsu _ Hf _ Hso _ _ Hha.
  unfold quiet_view in Hqq.
  injection Hqq as _ _ _ _ Qpm _ _ Qsu _ Qf _ Qso Qh.
  destruct Hup as (Hc & _ & _ & _ & Hsucc & Hhalt).
  rewrite Hso, Hl, Hsu, Hf, Hpm, Hha. simpl_fields.
  rewrite Qso, Qsu, Qf, Qpm, Qh. repeat split; assumption.
Qed.

(** ** The text buffer of the error messages *)

(** X16. The text buffer of 128 characters never cuts an error message of
    the upload: for 16-bit line counts and a 16-bit capacity the two
    formatted messages are the full texts. *)
Theorem error_messages_are_not_truncated promised received :
  0 <= promised < 65536 -> 0 <= received < 65536 ->
  0 <= PROTOCOL_MAX_LINES < 65536 ->
  msg_exceeds promised
  = ("ERROR: Protocol program exceeds maximum number of lines. "
     ++ "Requested were " ++ dec promised
     ++ " lines, but the maximum is " ++ dec PROTOCOL_MAX_LINES
     ++ ".")%string /\
  msg_incorrect promised received
  = ("ERROR: Protocol program received incorrect number of "
     ++ "lines. Promised were " ++ dec promised
     ++ " lines, but " ++ dec received ++ " were received.")%string.
Proof.
  intros Hp Hr Hm.
  pose proof (dec_length promised Hp).
  pose proof (dec_length received Hr).
  pose proof (dec_length PROTOCOL_MAX_LINES Hm).
  unfold msg_exceeds, msg_incorrect, snprintf_buf.
  change (Z.to_nat (BUF_LEN - 1)) with 127%nat.
  split; apply substring_all; rewrite !string_length_append;
    cbn [String.length]; lia.
Qed.

(** ** Two more commands *)

(** X17. The command [halt] stops the firmware in the dispatcher: the pass
    ends there with halt code 0, so the state machine is not updated and
    the safety section is not reached; valves, pump-enable flag and pulse
    line keep their values, and no later pass of the loop changes
    anything, so the safety pulses stop. *)
Theorem halt_command_freezes_firmware now fw polls ticks :
  takes_command now "halt" polls fw ->
  let fw' := loop now fw in
  halted fw' = Some (Halt 0 "Halted by user command.") /\
  fsm fw' = fsm fw /\
  cp_mgr fw' = cp_mgr fw /\
  safety__allow_jetting_pump_to_run fw'
  = safety__allow_jetting_pump_to_run fw /\
  pulse_view fw' = pulse_view fw /\
  run ticks fw' = fw'.
Proof.
  intros Htc fw'.
  pose proof (command_pass now "halt" polls fw Htc) as Hpc.
  destruct Htc as (Hh & _).
  assert (Hfw' :
    fw' = halt 0 "Halted by user command."
            (set_sc polls
               (set_every_cmd (every_n_millis 10 now (every_cmd fw)).2
                  fw))).
  { subst fw'. unfold loop, unless_halted at 1. unfold is_halted at 1.
    rewrite Hh, Hpc. reflexivity. }
  rewrite Hfw'. repeat split. apply run_halted. reflexivity.
Qed.

(** X18. A command [upload] taken while the state machine is still in the
    upload state (an upload has ended and the machine has not yet left
    the state) starts nothing: the request equals the current state, so
    the driver runs neither the exit nor the entry function, the pass
    runs the upload update once more, and the loading flag stays
    cleared. *)
Theorem upload_request_in_upload_state_starts_nothing now fw polls :
  takes_command now "upload" polls fw ->
  currentState (fsm fw) = state_uploading ->
  let fw0 :=
    transitionTo state_uploading
      (set_sc polls
         (set_every_cmd (every_n_millis 10 now (every_cmd fw)).2 fw)) in
  let fw' := loop now fw in
  upload_view fw' = upload_view (FSM_fun_uploading__upd now fw0) /\
  loading_program fw' = false /\
  currentState (fsm fw') = state_uploading.
Proof.
  intros Htc Hcur fw0 fw'.
  pose proof (command_pass now "upload" polls fw Htc) as Hpc.
  destruct Htc as (Hh & Hload & Htrig & _).
  change (dispatch now "upload"
            (set_sc polls
               (set_every_cmd (every_n_millis 10 now (every_cmd fw)).2
                  fw))) with fw0 in Hpc.
  assert (Hfu : fsm_update now fw0 = FSM_fun_uploading__upd now fw0).
  { unfold fsm_update. subst fw0. simpl_fields. rewrite Htrig, Hcur.
    cbn [State_eqb]. unfold unless_halted, is_halted. simpl_fields.
    rewrite Hh, Hcur. reflexivity. }
  assert (Hv : upload_view fw'
               = upload_view (FSM_fun_uploading__upd now fw0)).
  { subst fw'. unfold loop, unless_halted at 1. unfold is_halted at 1.
    rewrite Hh, Hpc. unfold unless_halted at 1. unfold is_halted at 1.
    replace (halted fw0) with (@None Fault) by (symmetry; exact Hh).
    rewrite Hfu. unfold unless_halted.
    destruct (is_halted _); [reflexivity|].
    apply safety_section_upload_view. }
  split; [exact Hv|].
  unfold upload_view in Hv.
  injection Hv as _ _ _ _ _ Hl _ _ _ Hf _ _ _ _ _.
  rewrite Hl, Hf.
  pose proof (upd_shape now fw0) as Hs. cbv zeta in Hs.
  destruct Hs as [Hs|[(Hl' & _ & Hc' & _) _]].
  - unfold flags_view in Hs. injection Hs as -> -> _.
    split; [exact Hload|exact Hcur].
  - rewrite Hl', Hc'. split; [reflexivity|exact Hcur].
Qed.

(** ** The valves during an upload *)

Lemma upd_valves now fw :
  cp_mgr (FSM_fun_uploading__upd now fw) = cp_mgr fw.
Proof.
  unfold FSM_fun_uploading__upd.
  repeat apply and_then_keeps.
  - unfold upd_stage_0, sc_available.
    destruct (loading_stage fw =? 0); [|reflexivity].
    destruct (sc fw) as [|[cmd|] rest]; reflexivity.
  - intros fa. unfold upd_stage_1, sc_available.
    destruct (loading_stage fa =? 1); [|reflexivity].
    destruct (sc fa) as [|[cmd|] rest]; try reflexivity.
    cbn [promised_N_lines set_promised_N_lines set_sc].
    destruct (_ >? _); reflexivity.
  - intros fb. unfold upd_stage_2, bsc_available.
    destruct (loading_stage fb =? 2); [|reflexivity].
    destruct (bsc fb) as [|[| |buf len] rest]; try reflexivity.
    destruct (len =? 0).
    + destruct (negb _); reflexivity.
    + destruct (add_line _ _); reflexivity.
  - intros fc. unfold upd_timeout. destruct (_ >? _); reflexivity.
Qed.

(** X19. A pass of the loop that starts in an upload in progress never
    touches the valves: the valve driver is after the pass what it was
    before, whatever arrives and however the pass ends (line stored,
    upload ended, time-out, fatal halt). *)
Theorem valves_are_frozen_during_upload now fw :
  uploading fw -> cp_mgr (loop now fw) = cp_mgr fw.
Proof.
  intros (Hcur & Hnext & Htrig & Hload & _ & Hhalt).
  unfold loop, unless_halted at 1. unfold is_halted at 1. rewrite Hhalt.
  rewrite (process_commands_loading now fw Hload).
  unfold unless_halted at 1. unfold is_halted at 1. rewrite Hhalt.
  assert (Hf : fsm_update now fw = FSM_fun_uploading__upd now fw).
  { unfold fsm_update. rewrite Htrig, Hcur, Hnext. cbn [State_eqb].
    unfold unless_halted, is_halted. rewrite Hhalt, Hcur. reflexivity. }
  rewrite Hf. unfold unless_halted.
  destruct (is_halted _); [apply upd_valves|].
  pose proof (safety_section_upload_view now
                (FSM_fun_uploading__upd now fw)) as Hv.
  unfold upload_view in Hv. injection Hv as _ _ _ Hcp _ _ _ _ _ _ _ _ _ _ _.
  rewrite Hcp. apply upd_valves.
Qed.

End Further_properties.

(** * The further properties on the bench configuration *)

Lemma loading_flag_and_request_agree_witness :
  let fw := bench_entered "3" [] in
  loading_program fw = true /\
  nextState (fsm fw) = state_uploading /\
  let fw' := FSM_fun_uploading__upd (platform := bench) 20 fw in
  (loading_program fw' = true /\ nextState (fsm fw') = state_uploading) \/
  (loading_program fw' = false /\ nextState (fsm fw') = state_off).
Proof.
  intros fw. split; [reflexivity|]. split; [reflexivity|].
  apply (loading_flag_and_request_agree (platform := bench) 20 fw);
    reflexivity.
Defined.

Lemma success_only_on_matching_count_witness :
  let fw :=
    run (platform := bench) [0; 10]
      (setup (platform := bench)
         [Some "upload"%string; Some "Test"%string; Some "0"%string]
         [Bsc_idle; Bsc_frame bench_frame_eop 0]) in
  let fw' := FSM_fun_uploading__upd (platform := bench) 20 fw in
  loading_successful fw = false /\
  loading_successful fw' = true /\
  get_N_lines (protocol_mgr fw') = promised_N_lines fw' /\
  last (serial_out fw') = Some (Println msg_success) /\
  loading_program fw' = false /\
  nextState (fsm fw') = state_off.
Proof.
  intros fw fw'. split; [reflexivity|]. split; [reflexivity|].
  apply (success_only_on_matching_count (platform := bench) 20 fw);
    reflexivity.
Defined.

Lemma stage_only_advances_witness :
  let fw := bench_entered "3" [] in
  0 <= loading_stage fw <= 2 /\
  loading_stage fw
  <= loading_stage (FSM_fun_uploading__upd (platform := bench) 20 fw) <= 2.
Proof.
  intros fw. split; [vm_compute; split; discriminate|].
  apply (stage_only_advances (platform := bench) 20 fw).
  vm_compute. split; discriminate.
Defined.

Lemma overrun_halts_firmware_witness :
  let fw := bench_receiving [Bsc_overrun; Bsc_frame bench_frame_1 3] in
  let fw' := FSM_fun_uploading__upd (platform := bench) 20 fw in
  and_then (upd_stage_0 fw) (upd_stage_1 (platform := bench)) = Next fw /\
  loading_stage fw = 2 /\
  bsc fw = [Bsc_overrun; Bsc_frame bench_frame_1 3] /\
  halted fw'
  = Some (Halt 8 "Stream command buffer overrun in `load_program()`") /\
  protocol_mgr fw' = protocol_mgr fw /\
  flags_view fw' = flags_view fw /\
  run (platform := bench) [30; 40] fw' = fw'.
Proof.
  intros fw fw'.
  split; [reflexivity|]. split; [reflexivity|]. split; [reflexivity|].
  apply (overrun_halts_firmware (platform := bench) 20 fw fw
           [Bsc_frame bench_frame_1 3] [30; 40]); reflexivity.
Defined.

Lemma negative_count_is_rejected_witness :
  let fw :=
    run (platform := bench) [0; 10; 20]
      (setup (platform := bench)
         [Some "upload"%string; None; Some "Test"%string; None;
          Some "-1"%string] []) in
  let fw' := FSM_fun_uploading__upd (platform := bench) 30 fw in
  upd_stage_0 fw = Next fw /\
  loading_stage fw = 1 /\
  sc fw = [Some "-1"%string] /\
  PROTOCOL_MAX_LINES (Platform := bench) - 65536 < atoi "-1" < 0 /\
  -65536 < atoi "-1" /\
  ends_upload fw fw' /\
  promised_N_lines fw' = 65535 /\
  serial_out fw'
  = serial_out fw ++ [Println (msg_exceeds (platform := bench) 65535)].
Proof.
  intros fw fw'.
  split; [reflexivity|]. split; [reflexivity|]. split; [reflexivity|].
  split; [vm_compute; split; reflexivity|]. split; [reflexivity|].
  apply (negative_count_is_rejected (platform := bench) 30 fw fw "-1" []);
    try reflexivity.
  vm_compute. split; reflexivity.
Defined.

Lemma oversized_count_wraps_witness :
  let fw :=
    run (platform := bench) [0; 10; 20]
      (setup (platform := bench)
         [Some "upload"%string; None; Some "Test"%string; None;
          Some "70000"%string] []) in
  loading_stage fw = 1 /\
  sc fw = [Some "70000"%string] /\
  65536 <= atoi "70000" <= 65536 + PROTOCOL_MAX_LINES (Platform := bench) /\
  PROTOCOL_MAX_LINES (Platform := bench) < 65536 /\
  exists fw1,
    upd_stage_1 (platform := bench) fw = Next fw1 /\
    promised_N_lines fw1 = 4464 /\
    loading_stage fw1 = 2 /\
    serial_out fw1 = serial_out fw ++ [Println (dec 4464)] /\
    flags_view fw1 = flags_view fw /\
    protocol_mgr fw1 = protocol_mgr fw.
Proof.
  intros fw.
  split; [reflexivity|]. split; [reflexivity|].
  split; [vm_compute; split; discriminate|]. split; [reflexivity|].
  apply (oversized_count_wraps (platform := bench) fw "70000" []);
    try reflexivity.
  vm_compute. split; discriminate.
Defined.

Lemma queries_only_print_witness :
  In "fsm?"%string queries /\
  exists o,
    dispatch (platform := bench) 10 "fsm?" (bench_idle "3" [])
    = emit o (bench_idle "3" []).
Proof.
  assert (H : In "fsm?"%string queries)
    by (do 6 right; left; reflexivity).
  split; [exact H|].
  exact (queries_only_print (platform := bench) 10 "fsm?"
           (bench_idle "3" []) H).
Defined.

Lemma stop_closes_valves_and_disables_pump_witness :
  let fw :=
    run (platform := bench) [0; 10; 20; 30]
      (setup (platform := bench)
         [Some "upload"%string; Some "Test"%string; Some "1"%string;
          Some "play"%string; Some "stop"%string]
         [Bsc_frame bench_frame_1 3; Bsc_frame bench_frame_eop 0]) in
  let fw' := loop (platform := bench) 40 fw in
  takes_command 40 "stop" [] fw /\
  currentState (fsm fw) = state_running /\
  safety__allow_jetting_pump_to_run fw = true /\
  override_pump_safety fw = false /\
  currentState (fsm fw') = state_off /\
  Forall (fun m => m = 0) (committed_ (cp_mgr fw')) /\
  safety__allow_jetting_pump_to_run fw' = false /\
  pin_safety_pulse_out fw' = pin_safety_pulse_out fw /\
  protocol_mgr fw' = protocol_mgr fw /\
  halted fw' = None.
Proof.
  intros fw fw'.
  assert (Htc : takes_command 40 "stop" [] fw)
    by (vm_compute; repeat split; reflexivity).
  split; [exact Htc|]. split; [reflexivity|]. split; [reflexivity|].
  split; [reflexivity|].
  apply (stop_closes_valves_and_disables_pump (platform := bench) 40 fw []
           Htc); [left|]; reflexivity.
Defined.

Lemma pause_keeps_valves_witness :
  let fw :=
    run (platform := bench) [0; 10; 20; 30]
      (setup (platform := bench)
         [Some "upload"%string; Some "Test"%string; Some "1"%string;
          Some "play"%string; Some "pause"%string]
         [Bsc_frame bench_frame_1 3; Bsc_frame bench_frame_eop 0]) in
  let fw' := loop (platform := bench) 40 fw in
  takes_command 40 "pause" [] fw /\
  currentState (fsm fw) = state_running /\
  all_masks_are_zero (cp_mgr fw) = false /\
  currentState (fsm fw') = state_paused /\
  cp_mgr fw' = cp_mgr fw /\
  protocol_mgr fw' = protocol_mgr fw /\
  safety__allow_jetting_pump_to_run fw'
  = override_pump_safety fw || negb (all_masks_are_zero (cp_mgr fw)).
Proof.
  intros fw fw'.
  assert (Htc : takes_command 40 "pause" [] fw)
    by (vm_compute; repeat split; reflexivity).
  split; [exact Htc|]. split; [reflexivity|]. split; [reflexivity|].
  apply (pause_keeps_valves (platform := bench) 40 fw [] Htc).
  reflexivity.
Defined.

Lemma loading_only_in_upload_state_witness :
  let fw :=
    run (platform := bench) [0; 10]
      (setup (platform := bench) [Some "upload"%string] []) in
  loading_program fw = true /\
  currentState (fsm fw) = state_uploading /\
  nextState (fsm fw) = state_uploading.
Proof.
  intros fw. split; [reflexivity|].
  apply (loading_only_in_upload_state (platform := bench)
           [Some "upload"%string] [] [0; 10]).
  reflexivity.
Defined.

Lemma silent_upload_times_out_witness :
  let fw :=
    run (platform := bench) [0; 10]
      (setup (platform := bench)
         [Some "upload"%string; Some "Test"%string; Some "3"%string; None]
         [Bsc_idle; Bsc_idle; Bsc_idle]) in
  let fw' := run (platform := bench) ([20; 4000] ++ [4011]) fw in
  uploading fw /\ silent fw /\
  Forall (fun now => u32 (now - stateChangeTime (fsm fw)) <= LOADING_TIMEOUT)
    [20; 4000] /\
  LOADING_TIMEOUT < u32 (4011 - stateChangeTime (fsm fw)) /\
  quiet_view (run (platform := bench) [20; 4000] fw) = quiet_view fw /\
  serial_out fw' = serial_out fw ++ [Println msg_timeout] /\
  loading_program fw' = false /\
  loading_successful fw' = false /\
  currentState (fsm fw') = state_uploading /\
  nextState (fsm fw') = state_off /\
  protocol_mgr fw' = protocol_mgr fw /\
  halted fw' = None.
Proof.
  intros fw fw'.
  assert (Hup : uploading fw) by (vm_compute; repeat split).
  assert (Hs : silent fw) by (vm_compute; split; repeat constructor).
  assert (Ht : Forall
                 (fun now =>
                    u32 (now - stateChangeTime (fsm fw)) <= LOADING_TIMEOUT)
                 [20; 4000])
    by (repeat constructor; vm_compute; discriminate).
  assert (Hl : LOADING_TIMEOUT < u32 (4011 - stateChangeTime (fsm fw)))
    by reflexivity.
  split; [exact Hup|]. split; [exact Hs|]. split; [exact Ht|].
  split; [exact Hl|].
  exact (silent_upload_times_out (platform := bench) [20; 4000] 4011 fw
           Hup Hs Ht Hl).
Defined.

Lemma error_messages_are_not_truncated_witness :
  0 <= 65535 < 65536 /\ 0 <= 4999 < 65536 /\
  0 <= PROTOCOL_MAX_LINES (Platform := bench) < 65536 /\
  msg_exceeds (platform := bench) 65535
  = ("ERROR: Protocol program exceeds maximum number of lines. "
     ++ "Requested were 65535 lines, but the maximum is 5000.")%string /\
  msg_incorrect 65535 4999
  = ("ERROR: Protocol program received incorrect number of "
     ++ "lines. Promised were 65535 lines, but 4999 were received.")%string.
Proof.
  assert (H1 : 0 <= 65535 < 65536) by lia.
  assert (H2 : 0 <= 4999 < 65536) by lia.
  assert (H3 : 0 <= PROTOCOL_MAX_LINES (Platform := bench) < 65536)
    by (vm_compute; split; [discriminate|reflexivity]).
  split; [exact H1|]. split; [exact H2|]. split; [exact H3|].
  exact (error_messages_are_not_truncated (platform := bench) 65535 4999
           H1 H2 H3).
Defined.

Lemma halt_command_freezes_firmware_witness :
  let fw :=
    run (platform := bench) [0]
      (setup (platform := bench)
         [Some "halt"%string; Some "override_safety"%string] []) in
  let fw' := loop (platform := bench) 10 fw in
  takes_command 10 "halt" [Some "override_safety"%string] fw /\
  halted fw' = Some (Halt 0 "Halted by user command.") /\
  fsm fw' = fsm fw /\
  cp_mgr fw' = cp_mgr fw /\
  safety__allow_jetting_pump_to_run fw'
  = safety__allow_jetting_pump_to_run fw /\
  pulse_view fw' = pulse_view fw /\
  run (platform := bench) [20; 30] fw' = fw'.
Proof.
  intros fw fw'.
  assert (Htc : takes_command 10 "halt" [Some "override_safety"%string] fw)
    by (vm_compute; repeat split; reflexivity).
  split; [exact Htc|].
  exact (halt_command_freezes_firmware (platform := bench) 10 fw
           [Some "override_safety"%string] [20; 30] Htc).
Defined.

Lemma upload_request_in_upload_state_starts_nothing_witness :
  let fw :=
    run (platform := bench) [0; 10; 20]
      (setup (platform := bench)
         [Some "upload"%string; Some "Test"%string; Some "0"%string;
          Some "upload"%string; Some "Next"%string]
         [Bsc_idle; Bsc_frame bench_frame_eop 0]) in
  let fw0 :=
    transitionTo state_uploading
      (set_sc [Some "Next"%string]
         (set_every_cmd (every_n_millis 10 30 (every_cmd fw)).2 fw)) in
  let fw' := loop (platform := bench) 30 fw in
  takes_command 30 "upload" [Some "Next"%string] fw /\
  currentState (fsm fw) = state_uploading /\
  upload_view fw'
  = upload_view (FSM_fun_uploading__upd (platform := bench) 30 fw0) /\
  loading_program fw' = false /\
  currentState (fsm fw') = state_uploading.
Proof.
  intros fw fw0 fw'.
  assert (Htc : takes_command 30 "upload" [Some "Next"%string] fw)
    by (vm_compute; repeat split; reflexivity).
  split; [exact Htc|]. split; [reflexivity|].
  exact (upload_request_in_upload_state_starts_nothing (platform := bench)
           30 fw [Some "Next"%string] Htc eq_refl).
Defined.

Lemma valves_are_frozen_during_upload_witness :
  let fw :=
    run (platform := bench) [0; 10; 20; 30; 40]
      (setup (platform := bench)
         [Some "upload"%string; Some "Test"%string; Some "1"%string;
          Some "play"%string; Some "upload"%string; Some "Next"%string;
          Some "1"%string]
         [Bsc_frame bench_frame_1 3; Bsc_frame bench_frame_eop 0;
          Bsc_frame bench_frame_2 4]) in
  uploading fw /\
  all_masks_are_zero (cp_mgr fw) = false /\
  cp_mgr (loop (platform := bench) 50 fw) = cp_mgr fw.
Proof.
  intros fw.
  assert (Hup : uploading fw) by (vm_compute; repeat split).
  split; [exact Hup|]. split; [reflexivity|].
  exact (valves_are_frozen_during_upload (platform := bench) 50 fw Hup).
Defined.
